(** * AI Job Matcher (app.py): query formatting, match scoring, file
      intake and the step wizard, embedded from the Python source.

    Python values are modelled by the fragment the program handles (JSON-like
    data: None, bool, int, str, list, dict with string keys); dictionaries
    are stdpp finite maps, Python sets are finite sets of hashable keys,
    exceptions are an explicit result type, and the user-interface and HTTP
    effects are threaded through an explicit world. *)

From Stdlib Require Import ZArith QArith Qround Qabs Qpower Lia Lqa String Ascii List.
From Stdlib Require Import SpecFloat Sorted.
From stdpp Require Import base option gmap strings list pretty.

Close Scope Q_scope.
Open Scope string_scope.
Open Scope Z_scope.

(** ** Python values *)
Module Py.

(** The JSON-like fragment of Python objects that flows through app.py. A
    string is a sequence of characters with code points below 256. *)
#[warnings="-register-all"]
Inductive pyval :=
| PNone
| PBool (b : bool)
| PInt (z : Z)
| PStr (s : string)
| PList (l : list pyval)
| PDict (d : gmap string pyval).

(** Exceptions: the class and the text that [str(e)] gives. All classes below
    derive from Python's [Exception]. *)
Inductive exn_class :=
| AttributeError
| TypeError
| HTTPError
| RequestException
| JSONDecodeError
| OtherException (name : string).

Record exn := Exn { exn_cls : exn_class; exn_msg : string }.

(** Outcome of evaluating a Python expression: a value or a raised exception. *)
Inductive result (A : Type) :=
| Ok (a : A)
| Raise (e : exn).
Arguments Ok {A} a.
Arguments Raise {A} e.

Definition result_bind {A B} (m : result A) (k : A → result B) : result B :=
  match m with
  | Ok a => k a
  | Raise e => Raise e
  end.

#[global] Instance result_ret : MRet result := λ A a, Ok a.
#[global] Instance result_mbind : MBind result := λ A B k m, result_bind m k.

(** [bool(v)]: Python truthiness. *)
Definition truthy (v : pyval) : bool :=
  match v with
  | PNone => false
  | PBool b => b
  | PInt z => negb (z =? 0)
  | PStr s => negb (String.eqb s "")
  | PList l => match l with [] => false | _ => true end
  | PDict d => negb (bool_decide (d = ∅))
  end.

(** [d.get(k)] and [d.get(k, dflt)]. *)
Definition dict_get (d : gmap string pyval) (k : string) : pyval :=
  default PNone (d !! k).

Definition dict_get_or (d : gmap string pyval) (k : string) (dflt : pyval) : pyval :=
  default dflt (d !! k).

(** [v == s] for a string literal [s]: only a string can equal a string. *)
Definition eq_str (v : pyval) (s : string) : bool :=
  match v with
  | PStr t => String.eqb t s
  | _ => false
  end.

(** [v is True]: identity with the [True] singleton. *)
Definition is_True (v : pyval) : bool :=
  match v with
  | PBool true => true
  | _ => false
  end.

(** [isinstance(v, list)]. *)
Definition isinstance_list (v : pyval) : bool :=
  match v with
  | PList _ => true
  | _ => false
  end.

(** [type(v).__name__], as it appears in error messages. *)
Definition type_name (v : pyval) : string :=
  match v with
  | PNone => "NoneType"
  | PBool _ => "bool"
  | PInt _ => "int"
  | PStr _ => "str"
  | PList _ => "list"
  | PDict _ => "dict"
  end.

(** [str.lower] on one character: A-Z and the upper-case letters of Latin-1
    (U+00C0..U+00DE except the multiplication sign U+00D7) move up by 32. *)
Definition lower_ascii (c : ascii) : ascii :=
  let n := nat_of_ascii c in
  if ((65 <=? n)%nat && (n <=? 90)%nat)
     || ((192 <=? n)%nat && (n <=? 222)%nat && negb (n =? 215)%nat)
  then ascii_of_nat (n + 32)
  else c.

Fixpoint lower (s : string) : string :=
  match s with
  | EmptyString => EmptyString
  | String c r => String (lower_ascii c) (lower r)
  end.

(** [v.lower()]: defined on strings; any other object has no such
    attribute. *)
Definition lower_method (v : pyval) : result string :=
  match v with
  | PStr s => Ok (lower s)
  | _ => Raise (Exn AttributeError
                  ("'" ++ type_name v ++ "' object has no attribute 'lower'"))
  end.

(** [s in l] for a list of string literals. *)
Fixpoint str_in (s : string) (l : list string) : bool :=
  match l with
  | [] => false
  | t :: r => String.eqb s t || str_in s r
  end.

End Py.
Export Py.

(** ** JobMatcher._format_search_query *)

(** The statement [if c: d[k] = v], as an update of the dictionary [d]. *)
Definition setitem_if (c : bool) (k : string) (v : pyval)
    (d : gmap string pyval) : gmap string pyval :=
  if c then <[k := v]> d else d.

(** The body of [_format_search_query], statement by statement; each [let]
    re-binds the dictionary under construction. *)
Definition _format_search_query (query : gmap string pyval)
  : result (gmap string pyval) :=
  let formatted_query : gmap string pyval := ∅ in
  let date_posted := dict_get query "date_posted" in
  let formatted_query :=
    if eq_str date_posted "Last 24 hours" then
      <["posted_at_max_age_days" := PInt 1]> formatted_query
    else if eq_str date_posted "Last 7 days" then
      <["posted_at_max_age_days" := PInt 7]> formatted_query
    else if eq_str date_posted "Last 30 days" then
      <["posted_at_max_age_days" := PInt 30]> formatted_query
    else
      <["posted_at_max_age_days" := PInt 90]> formatted_query in
  let formatted_query :=
    setitem_if (truthy (dict_get query "company"))
      "company_name_or" (PList [dict_get query "company"]) formatted_query in
  let formatted_query :=
    setitem_if (truthy (dict_get query "title"))
      "job_title_contains_any" (PList [dict_get query "title"]) formatted_query in
  let formatted_query :=
    setitem_if (truthy (dict_get query "location"))
      "location_contains_any" (PList [dict_get query "location"]) formatted_query in
  let formatted_query :=
    setitem_if (is_True (dict_get query "remote"))
      "remote_contains_any" (PList [PStr "true"]) formatted_query in
  let formatted_query :=
    if truthy (dict_get query "skills") then
      let skills := dict_get query "skills" in
      setitem_if (isinstance_list skills && truthy skills)
        "technologies_contains_any" skills formatted_query
    else formatted_query in
  if truthy (dict_get query "experience_level") then
    level ← lower_method (dict_get query "experience_level");
    Ok (setitem_if (str_in level ["entry"; "mid"; "senior"])
          "seniority_contains_any" (PList [PStr level]) formatted_query)
  else Ok formatted_query.

(** A dictionary display [{k1: v1, k2: v2, ...}]: the keys are inserted from
    left to right. *)
Definition mkdict (items : list (string * pyval)) : gmap string pyval :=
  fold_left (λ d kv, <[kv.1 := kv.2]> d) items ∅.

Definition example_preferences : gmap string pyval :=
  mkdict [("title", PStr ""); ("company", PStr "Acme"); ("remote", PBool true);
          ("date_posted", PStr "Last 7 days"); ("skills", PList [PStr "Python"]);
          ("experience_level", PStr "senior")].

Definition example_formatted : gmap string pyval :=
  mkdict [("posted_at_max_age_days", PInt 7); ("company_name_or", PList [PStr "Acme"]);
          ("remote_contains_any", PList [PStr "true"]);
          ("technologies_contains_any", PList [PStr "Python"]);
          ("seniority_contains_any", PList [PStr "senior"])].

(** What the seniority step stores under [seniority_contains_any]: the
    lower-cased level when it is one of the accepted ones. *)
Definition seniority_entry (v : pyval) : option pyval :=
  match v with
  | PStr s => if str_in (lower s) ["entry"; "mid"; "senior"]
              then Some (PList [PStr (lower s)]) else None
  | _ => None
  end.

(** The seniority entry is absent, empty (falsy) or a string: the inputs on
    which [.lower()] is either skipped or defined. *)
Definition seniority_is_text (q : gmap string pyval) : Prop :=
  truthy (dict_get q "experience_level") = false
  ∨ ∃ s, dict_get q "experience_level" = PStr s.

(** Title, company, location and skills are all absent or empty. *)
Definition lacks_search_terms (q : gmap string pyval) : Prop :=
  truthy (dict_get q "title") = false ∧ truthy (dict_get q "company") = false
  ∧ truthy (dict_get q "location") = false ∧ truthy (dict_get q "skills") = false.

(** The seniority entry emits no filter: it is absent or empty (falsy), or
    it is a string that, put in lower case, is none of entry, mid, senior. *)
Definition seniority_filtered_out (q : gmap string pyval) : Prop :=
  truthy (dict_get q "experience_level") = false
  ∨ ∃ s, dict_get q "experience_level" = PStr s
         ∧ str_in (lower s) ["entry"; "mid"; "senior"] = false.

Definition remote_only_preferences : gmap string pyval :=
  mkdict [("remote", PBool true)].

(** An accepted level written in capitals, and nothing else. *)
Definition capital_seniority_preferences : gmap string pyval :=
  mkdict [("experience_level", PStr "SENIOR")].

Definition capital_seniority_formatted : gmap string pyval :=
  mkdict [("posted_at_max_age_days", PInt 90);
          ("seniority_contains_any", PList [PStr "senior"])].

Definition remote_only_formatted : gmap string pyval :=
  mkdict [("posted_at_max_age_days", PInt 90);
          ("remote_contains_any", PList [PStr "true"])].

Definition stale_preferences : gmap string pyval :=
  mkdict [("title", PStr ""); ("date_posted", PStr "Last 90 days");
          ("remote", PBool false); ("experience_level", PStr "Principal")].

(** The seven filter keys of the job-search API that the formatter knows. *)
Definition filter_keys : gset string :=
  {[ "posted_at_max_age_days"; "company_name_or"; "job_title_contains_any";
     "location_contains_any"; "remote_contains_any";
     "technologies_contains_any"; "seniority_contains_any" ]}.


(** ** Effects: the Streamlit page, standard output, HTTP and the session *)

(** What a run of the script does to the outside, in order. *)
Inductive event :=
| Printed (line : string)                         (* print(...) *)
| StError (msg : string)                          (* st.error *)
| StWarning (msg : string)                        (* st.warning *)
| StInfo (msg : string)                           (* st.info *)
| StCode (body : string)                          (* st.code, in an expander *)
| StWrite (label : string) (v : pyval)            (* st.write(label, value) *)
| StButton (label : string)                       (* st.button: drawn on the page *)
| HttpPost (url : string) (headers : gmap string string)
           (json : gmap string pyval).            (* requests.post *)

(** The world a run acts on: [st.session_state] and the trace of events so
    far (oldest first). *)
Record world := World {
  session : gmap string pyval;
  trace : list event
}.

(** A statement: it ends normally with a value or by raising, and leaves a
    world behind. *)
Definition io (A : Type) : Type := world → result A * world.

Definition io_ret {A} (a : A) : io A := λ w, (Ok a, w).

Definition io_bind {A B} (m : io A) (k : A → io B) : io B :=
  λ w, match m w with
       | (Ok a, w') => k a w'
       | (Raise e, w') => (Raise e, w')
       end.

#[global] Instance io_mret : MRet io := @io_ret.
#[global] Instance io_mbind : MBind io := λ A B k m, io_bind m k.

(** An expression evaluated for its value inside a statement. *)
Definition lift {A} (r : result A) : io A := λ w, (r, w).

Definition emit (e : event) : io unit :=
  λ w, (Ok tt, World (session w) (trace w ++ [e])).

Definition set_session (k : string) (v : pyval) : io unit :=
  λ w, (Ok tt, World (<[k := v]> (session w)) (trace w)).

Definition get_session : io (gmap string pyval) := λ w, (Ok (session w), w).

(** Streamlit's [RerunException] derives from [BaseException], so the
    clause [except Exception] lets it through; every other class here
    derives from [Exception]. *)
Definition RerunException : exn_class := OtherException "RerunException".

Definition caught_by_except_Exception (e : exn) : bool :=
  match exn_cls e with
  | OtherException "RerunException" => false
  | _ => true
  end.

(** [st.rerun()]: stop this run and ask for another one. *)
Definition st_rerun {A} : io A := lift (Raise (Exn RerunException "")).

(** [try: body except Exception as e: handler(e)]. *)
Definition try_except {A} (body : io A) (handler : exn → io A) : io A :=
  λ w, match body w with
       | (Raise e, w') =>
           if caught_by_except_Exception e then handler e w'
           else (Raise e, w')
       | other => other
       end.

(** How many HTTP requests a trace holds. *)
Fixpoint requests_made (t : list event) : nat :=
  match t with
  | [] => 0
  | HttpPost _ _ _ :: t' => S (requests_made t')
  | _ :: t' => requests_made t'
  end.

(** ** The requests library *)

Record http_response := Response {
  status_code : Z;
  reason : string;
  text : string;
  json_body : result pyval         (* what [response.json()] gives *)
}.

(** [requests.post] either returns a response or raises (no connection,
    timeout, ...). *)
Inductive http_outcome :=
| Responded (r : http_response)
| Failed (e : exn).

(** [Response.raise_for_status()]: raises [HTTPError] for the statuses 400
    to 599 and for no other. *)
Definition raise_for_status (url : string) (r : http_response) : result unit :=
  if (400 <=? status_code r) && (status_code r <? 500) then
    Raise (Exn HTTPError (pretty (status_code r) ++ " Client Error: "
                          ++ reason r ++ " for url: " ++ url))
  else if (500 <=? status_code r) && (status_code r <? 600) then
    Raise (Exn HTTPError (pretty (status_code r) ++ " Server Error: "
                          ++ reason r ++ " for url: " ++ url))
  else Ok tt.

Definition THEIRSTACK_API_URL : string := "https://api.theirstack.com".

(** ** JobMatcher *)

Record JobMatcher := {
  api_key : string;
  headers : gmap string string
}.

(** [JobMatcher.__init__]. *)
Definition JobMatcher_init (api_key : string) : JobMatcher :=
  {| api_key := api_key;
     headers := <["Content-Type" := "application/json"]>
                (<["Authorization" := "Bearer " ++ api_key]> ∅) |}.

Section external.
(** The collaborators outside app.py: [json.dumps], and the network, which
    answers the n-th request of a run (counted from 0) as it pleases. *)
Variable json_dumps : gmap string pyval → string.
Variable network : nat → string → gmap string pyval → http_outcome.

(** [requests.post(url, headers=..., json=...)]. *)
Definition requests_post (url : string) (hdrs : gmap string string)
    (json : gmap string pyval) : io http_response :=
  λ w, let w' := World (session w) (trace w ++ [HttpPost url hdrs json]) in
       match network (requests_made (trace w)) url json with
       | Responded r => (Ok r, w')
       | Failed e => (Raise e, w')
       end.

(** [JobMatcher.search_jobs]. The formatting call stands before the [try]. *)
Definition search_jobs (self : JobMatcher) (query : gmap string pyval)
  : io pyval :=
  api_query ← lift (_format_search_query query);
  try_except
    (emit (Printed ("Sending search query: " ++ json_dumps api_query));;
     response ← requests_post (THEIRSTACK_API_URL ++ "/jobs/search")
                  (headers self) api_query;
     (if negb (status_code response =? 200) then
        emit (Printed ("API Response: " ++ pretty (status_code response)
                       ++ " - " ++ text response))
      else mret tt);;
     lift (raise_for_status (THEIRSTACK_API_URL ++ "/jobs/search") response);;
     lift (json_body response))
    (λ e, emit (StError ("Error searching jobs: " ++ exn_msg e));;
          mret (PList [])).
End external.

(** The events every search starts with, once the query is formatted. *)
Definition search_prelude (json_dumps : gmap string pyval → string)
    (self : JobMatcher) (api_query : gmap string pyval) : list event :=
  [Printed ("Sending search query: " ++ json_dumps api_query);
   HttpPost (THEIRSTACK_API_URL ++ "/jobs/search") (headers self) api_query].

(** Sample answers of the job-search API. *)
Definition sample_job : pyval :=
  PDict (mkdict [("title", PStr "Engineer"); ("company", PStr "Acme")]).

Definition multiple_choices : http_response :=
  Response 300 "Multiple Choices" "[{}]" (Ok (PList [sample_job])).

Definition not_found : http_response :=
  Response 404 "Not Found" "no such route"
    (Raise (Exn JSONDecodeError "Expecting value")).

Definition no_jobs : http_response := Response 200 "OK" "[]" (Ok (PList [])).

Definition always (r : http_response)
  : nat → string → gmap string pyval → http_outcome := λ _ _ _, Responded r.

Definition fresh_world : world := World ∅ [].

(** ** process_uploaded_file *)

(** [s.split(sep)] for a one-character separator: never empty. *)
Fixpoint split_on (sep : ascii) (s : string) : list string :=
  match s with
  | EmptyString => [EmptyString]
  | String c r =>
      if Ascii.eqb c sep then EmptyString :: split_on sep r
      else match split_on sep r with
           | h :: t => String c h :: t
           | [] => [String c EmptyString]
           end
  end.

(** [name.split('.')[-1].lower()]. *)
Definition file_extension (name : string) : string :=
  lower (List.last (split_on "." name) EmptyString).

(** Whether the character [c] occurs in [s]. *)
Fixpoint occurs (c : ascii) (s : string) : bool :=
  match s with
  | EmptyString => false
  | String d r => Ascii.eqb d c || occurs c r
  end.

(** A library call that, when it fails, raises an [Exception] (and not a
    bare [BaseException]). *)
Definition raises_only_Exception {A} (r : result A) : Prop :=
  ∀ e, r = Raise e → caught_by_except_Exception e = true.

(** A Streamlit upload: its name and its bytes. *)
Record uploaded_file := {
  name : string;
  content : string
}.

Section document_libraries.
(** The document libraries, as functions of the uploaded bytes:
    [PyPDF2.PdfReader(f).pages] with [extract_text()] of each page,
    [docx.Document(f).paragraphs] with the text of each paragraph, and
    [bytes.decode('utf-8')]. Each of them may raise. *)
Variable pdf_pages : string → result (list (result string)).
Variable docx_paragraphs : string → result (list string).
Variable decode_utf8 : string → result string.

(** [for page in pdf_reader.pages: text += page.extract_text()]. *)
Fixpoint concat_pages (text : string) (pages : list (result string))
  : result string :=
  match pages with
  | [] => Ok text
  | page :: rest =>
      extracted ← page;
      concat_pages (text ++ extracted) rest
  end.

(** ["\n".join(parts)]. *)
Fixpoint join_lines (parts : list string) : string :=
  match parts with
  | [] => ""
  | [p] => p
  | p :: rest => p ++ String "010" (join_lines rest)
  end.

Definition process_uploaded_file (uploaded_file : option uploaded_file)
  : io pyval :=
  match uploaded_file with
  | None => mret PNone
  | Some uploaded_file =>
      let file_extension := file_extension (name uploaded_file) in
      try_except
        (if String.eqb file_extension "pdf" then
           pages ← lift (pdf_pages (content uploaded_file));
           text ← lift (concat_pages "" pages);
           mret (PStr text)
         else if String.eqb file_extension "docx" then
           paragraphs ← lift (docx_paragraphs (content uploaded_file));
           mret (PStr (join_lines paragraphs))
         else if String.eqb file_extension "txt" then
           text ← lift (decode_utf8 (content uploaded_file));
           mret (PStr text)
         else
           emit (StError ("Unsupported file format: " ++ file_extension));;
           mret PNone)
        (λ e, emit (StError ("Error processing file: " ++ exn_msg e));;
              mret PNone)
  end.
End document_libraries.

(** ** main: the searching step *)

(** [v.get(k, dflt)] on an object that came out of the session: only a
    dictionary has the method. *)
Definition get_method (v : pyval) (k : string) (dflt : pyval) : result pyval :=
  match v with
  | PDict d => Ok (dict_get_or d k dflt)
  | _ => Raise (Exn AttributeError
                  ("'" ++ type_name v ++ "' object has no attribute 'get'"))
  end.

Section wizard.
Variable json_dumps : gmap string pyval → string.
Variable network : nat → string → gmap string pyval → http_outcome.
(** Which buttons the user pressed to trigger this run, by label. *)
Variable clicked : string → bool.

(** [st.button(label)]: draws the button and tells whether it was pressed. *)
Definition st_button (label : string) : io bool :=
  emit (StButton label);; mret (clicked label).

(** The branch [elif st.session_state.step == 3:] of [main]. *)
Definition main_step3 (theirstack_api_key : string) : io unit :=
  if negb (truthy (PStr theirstack_api_key)) then
    emit (StError "Please enter your TheirStack API key in the sidebar")
  else
    let matcher := JobMatcher_init theirstack_api_key in
    session_state ← get_session;
    let analysis := dict_get_or session_state "resume_analysis" (PDict ∅) in
    let preferences := dict_get_or session_state "job_preferences" (PDict ∅) in
    title ← lift (get_method preferences "title" (PStr ""));
    location ← lift (get_method preferences "location" (PStr ""));
    company ← lift (get_method preferences "company" (PStr ""));
    remote ← lift (get_method preferences "remote" PNone);
    date_posted ← lift (get_method preferences "date_posted" (PStr "Last 30 days"));
    skills ← lift (get_method analysis "technical_skills" (PList []));
    experience_level ← lift (get_method analysis "seniority_level" (PStr ""));
    let search_query :=
      mkdict [("title", title); ("location", location); ("company", company);
              ("remote", PBool (eq_str remote "Remote only"));
              ("date_posted", date_posted); ("skills", skills);
              ("experience_level", experience_level)] in
    emit (StWrite "Debug - Search Query:" (PDict search_query));;
    try_except
      (jobs ← search_jobs json_dumps network matcher search_query;
       if truthy jobs then
         set_session "jobs" jobs;;
         set_session "step" (PInt 4);;
         st_rerun
       else
         emit (StWarning
           "No jobs found matching your criteria. Try broadening your search.");;
         adjust ← st_button "Adjust Preferences";
         if (adjust : bool) then
           set_session "step" (PInt 2);;
           st_rerun
         else mret tt)
      (λ e,
         emit (StError ("Error during job search: " ++ exn_msg e));;
         emit (StInfo
           "Try simplifying your search criteria or check your API key.");;
         emit (StCode (exn_msg e))).
End wizard.

(** The dictionary display that [main] passes to [search_jobs] in step 3,
    for a résumé analysis and preferences that are dictionaries. *)
Definition step3_query (analysis preferences : gmap string pyval)
  : gmap string pyval :=
  mkdict [("title", dict_get_or preferences "title" (PStr ""));
          ("location", dict_get_or preferences "location" (PStr ""));
          ("company", dict_get_or preferences "company" (PStr ""));
          ("remote", PBool (eq_str (dict_get_or preferences "remote" PNone)
                              "Remote only"));
          ("date_posted",
           dict_get_or preferences "date_posted" (PStr "Last 30 days"));
          ("skills", dict_get_or analysis "technical_skills" (PList []));
          ("experience_level", dict_get_or analysis "seniority_level" (PStr ""))].

Definition no_jobs_warning : string :=
  "No jobs found matching your criteria. Try broadening your search.".

(** A session that has reached step 3 with nothing else stored. *)
Definition searching_world : world := World (mkdict [("step", PInt 3)]) [].

Definition default_api_query : gmap string pyval :=
  mkdict [("posted_at_max_age_days", PInt 30)].

(** ** Python floats: IEEE 754 binary64, round to nearest, ties to even *)
Module B64.
Local Open Scope Q_scope.

(** 53 bits of precision; the least exponent of a mantissa is -1074 and the
    greatest is 971. A float is a [spec_float] in canonical form. *)
Definition prec : Z := 53.
Definition emin : Z := -1074.
Definition emax : Z := 971.

Definition pow2 (e : Z) : Q := (2 # 1) ^ e.

(** The number a finite float stands for. *)
Definition F2Q (x : spec_float) : Q :=
  match x with
  | S754_finite s m e =>
      (if s then - inject_Z (Zpos m) else inject_Z (Zpos m)) * pow2 e
  | _ => 0
  end.

Definition is_finite (x : spec_float) : bool :=
  match x with
  | S754_zero _ | S754_finite _ _ _ => true
  | _ => false
  end.

(** [floor (log2 q)] for [q > 0]. *)
Definition ilog2 (q : Q) : Z :=
  let k := (Z.log2 (Qnum q) - Z.log2 (Zpos (Qden q)))%Z in
  if Qle_bool (pow2 k) q then k else (k - 1)%Z.

(** The integer nearest to [q], the even one of the two when [q] is half-way. *)
Definition round_half_even (q : Q) : Z :=
  let f := Qfloor q in
  match Qcompare (q - inject_Z f) (1 # 2) with
  | Lt => f
  | Gt => (f + 1)%Z
  | Eq => if Z.even f then f else (f + 1)%Z
  end.

(** The exponent given to the mantissa of a positive [q], and the value of
    the float nearest to [q] while it does not overflow. *)
Definition expo (q : Q) : Z := Z.max (ilog2 q - (prec - 1)) emin.

Definition round_val (q : Q) : Q :=
  inject_Z (round_half_even (q / pow2 (expo q))) * pow2 (expo q).

(** The float nearest to a positive rational: the mantissa is [q] scaled to
    53 bits (fewer in the subnormal range) and rounded to an integer. *)
Definition round_pos (s : bool) (q : Q) : spec_float :=
  let e := expo q in
  let m := round_half_even (q / pow2 e) in
  let '(m, e) := if (m =? 2 ^ prec)%Z then (2 ^ (prec - 1), e + 1)%Z else (m, e) in
  match m with
  | Zpos p => if (e >? emax)%Z then S754_infinity s else S754_finite s p e
  | _ => S754_zero s
  end.

(** The float nearest to a rational; an exact zero is [+0.0]. *)
Definition round (q : Q) : spec_float :=
  match Qcompare q 0 with
  | Eq => S754_zero false
  | Gt => round_pos false q
  | Lt => round_pos true (- q)
  end.

Definition float_of_Z (z : Z) : spec_float := round (inject_Z z).

(** [a / b] on Python integers with [b <> 0]: the quotient, correctly
    rounded. *)
Definition int_truediv (a b : Z) : spec_float := round (inject_Z a / inject_Z b).

(** [x * y] on floats: the exact product, rounded; the cases with an
    infinity, a NaN or a zero are those of IEEE 754. *)
Definition mul (x y : spec_float) : spec_float :=
  match x, y with
  | S754_finite sx mx ex, S754_finite sy my ey =>
      round_pos (xorb sx sy) (inject_Z (Zpos (mx * my)) * pow2 (ex + ey))
  | _, _ => SFmul prec 1024 x y
  end.

(** [round(x, 2)]: the decimal with two places nearest to the exact value
    of [x] (ties to even), converted back to the nearest float. *)
Definition round2 (x : spec_float) : spec_float :=
  match x with
  | S754_finite s _ _ =>
      let k := round_half_even (Qabs (F2Q x) * 100) in
      match k with
      | Zpos _ => round_pos s (inject_Z k / 100)
      | _ => S754_zero s
      end
  | _ => x
  end.

(** The float that a decimal literal with two places denotes, such as
    [66.67]: [hundredths / 100], correctly rounded. *)
Definition of_hundredths (hundredths : Z) : spec_float :=
  round (inject_Z hundredths / 100).

(** A float that is [+0.0] or finite and positive. *)
Definition nonneg (x : spec_float) : Prop :=
  x = S754_zero false ∨ ∃ m e, x = S754_finite false m e.

(** The greatest exponent below which no rounding overflows. *)
Definition safe : Q := pow2 1023.

(** The score that the float operations of [calculate_match_score] produce
    from the two set sizes, in hundredths: the quotient is rounded to a
    float, multiplied by 100 and rounded again, then rounded to two places. *)
Definition score_hundredths (matched required : Z) : Z :=
  round_half_even
    (round_val (round_val (inject_Z matched / inject_Z required) * 100) * 100).

End B64.

(** ** Python sets of hashable values *)

(** A hashable value up to Python equality: [True == 1] and [False == 0],
    so a boolean and the integer it equals are one key. *)
Inductive hkey :=
| HNone
| HInt (z : Z)
| HStr (s : string).

#[global] Instance hkey_eq_dec : EqDecision hkey.
Proof. solve_decision. Defined.

#[global] Instance hkey_countable : Countable hkey.
Proof.
  refine (inj_countable'
    (λ k, match k with
          | HNone => inl ()
          | HInt z => inr (inl z)
          | HStr s => inr (inr s)
          end)
    (λ x, match x with
          | inl _ => HNone
          | inr (inl z) => HInt z
          | inr (inr s) => HStr s
          end) _).
  by intros [].
Defined.

(** [hash(v)]: lists and dictionaries are unhashable. *)
Definition hash_key (v : pyval) : result hkey :=
  match v with
  | PNone => Ok HNone
  | PBool b => Ok (HInt (if b then 1 else 0))
  | PInt z => Ok (HInt z)
  | PStr s => Ok (HStr s)
  | PList _ | PDict _ =>
      Raise (Exn TypeError ("unhashable type: '" ++ type_name v ++ "'"))
  end.

(** The elements that iterating over [v] yields: the items of a list, the
    characters of a string, the keys of a dictionary. *)
Definition py_iter (v : pyval) : result (list pyval) :=
  match v with
  | PList l => Ok l
  | PStr s => Ok ((λ c, PStr (String c EmptyString)) <$> list_ascii_of_string s)
  | PDict d => Ok (PStr <$> (map_to_list d).*1)
  | _ => Raise (Exn TypeError ("'" ++ type_name v ++ "' object is not iterable"))
  end.

(** Hash every element, stopping at the first unhashable one. *)
Fixpoint hash_all (l : list pyval) : result (list hkey) :=
  match l with
  | [] => Ok []
  | v :: r =>
      k ← hash_key v;
      ks ← hash_all r;
      Ok (k :: ks)
  end.

(** [set(v)]. *)
Definition py_set (v : pyval) : result (gset hkey) :=
  items ← py_iter v;
  keys ← hash_all items;
  Ok (list_to_set keys).

(** ** JobMatcher.calculate_match_score *)

Definition calculate_match_score (job : gmap string pyval)
    (candidate_skills : pyval) : result spec_float :=
  required_skills ← py_set (dict_get_or job "required_skills" (PList []));
  candidate_skills ← py_set candidate_skills;
  if bool_decide (required_skills = ∅) then
    Ok (S754_zero false)
  else
    let matches := required_skills ∩ candidate_skills in
    let score :=
      B64.mul (B64.int_truediv (Z.of_nat (size matches))
                               (Z.of_nat (size required_skills)))
              (B64.float_of_Z 100) in
    Ok (B64.round2 score).

(** A list of strings, as a Python list. *)
Definition str_list (l : list string) : pyval := PList (PStr <$> l).

Definition example_job : gmap string pyval :=
  mkdict [("title", PStr "Data Engineer");
          ("required_skills", str_list ["Python"; "SQL"; "AWS"])].

Definition job_without_skills : gmap string pyval :=
  mkdict [("title", PStr "Data Engineer"); ("required_skills", PList [])].

(** The exact percentage of required skills that are matched, in hundredths:
    an integer [k] is a rounding of [100 * matched / required] to two decimal
    places when [k / 100] is as near to it as a two-place decimal can be. *)
Definition rounds_to_hundredths (matched required : nat) (k : Z) : Prop :=
  (2 * Z.abs (k * Z.of_nat required - 10000 * Z.of_nat matched)
   <= Z.of_nat required)%Z.

(** ** test_theirstack_api *)

Section connectivity.
Variable network : nat → string → gmap string pyval → http_outcome.

(** The connectivity test: one request with a minimal query; the answer is
    the pair [(success, message)]. *)
Definition test_theirstack_api (api_key : string) : io (bool * string) :=
  let headers : gmap string string :=
    <["Content-Type" := "application/json"]>
      (<["Authorization" := "Bearer " ++ api_key]> ∅) in
  let test_query := mkdict [("posted_at_max_age_days", PInt 30)] in
  try_except
    (response ← requests_post network (THEIRSTACK_API_URL ++ "/jobs/search")
                  headers test_query;
     if status_code response =? 200 then
       mret (true, "API connection successful")
     else
       mret (false, "API Error: " ++ pretty (status_code response)
                    ++ " - " ++ text response))
    (λ e, mret (false, "Connection error: " ++ exn_msg e)).
End connectivity.

(** A response that is neither the success of the test (200) nor an error
    for [raise_for_status]. *)
Definition created : http_response :=
  Response 201 "Created" "[]" (Ok (PList [sample_job])).

(** ** ResumeAnalyzer *)

(** The analyzer holds the Anthropic client, which is determined by its key. *)
Record ResumeAnalyzer := {
  client : string
}.

(** [ResumeAnalyzer.__init__]. *)
Definition ResumeAnalyzer_init (api_key : string) : ResumeAnalyzer :=
  {| client := api_key |}.

(** The double quote character. *)
Definition dq : string := String "034" EmptyString.

(** The text between the triple quotes of [system_prompt]. *)
Definition system_prompt : string :=
  "
        You are an expert resume analyzer. Extract the following information from the resume:
        1. Technical skills
        2. Soft skills
        3. Years of experience
        4. Education
        5. Key achievements
" ++ "        " ++ "
        Return the analysis in this JSON format:
        {
            " ++ dq ++ "technical_skills" ++ dq ++ ": [],
            " ++ dq ++ "soft_skills" ++ dq ++ ": [],
            " ++ dq ++ "years_experience" ++ dq ++ ": number,
            " ++ dq ++ "education" ++ dq ++ ": [],
            " ++ dq ++ "achievements" ++ dq ++ ": [],
            " ++ dq ++ "seniority_level" ++ dq ++ ": " ++ dq ++ "entry/mid/senior" ++ dq ++ "
        }
        ".

Definition IndexError : exn_class := OtherException "IndexError".
Definition KeyError : exn_class := OtherException "KeyError".

(** [l[0]]. *)
Definition first_item {A} (l : list A) : result A :=
  match l with
  | x :: _ => Ok x
  | [] => Raise (Exn IndexError "list index out of range")
  end.

Section language_model.
(** The collaborators of the analyzer: [client.messages.create], given the
    client's key, the model, [max_tokens], the temperature, the system prompt
    and the messages, answers with its content blocks (the [text] of each,
    which a block may lack) or raises; [json.loads] parses a text or raises. *)
Variable messages_create :
  string → string → Z → spec_float → string → list (gmap string pyval) →
  result (list (result string)).
Variable json_loads : string → result pyval.

(** [ResumeAnalyzer.analyze_resume]. *)
Definition analyze_resume (self : ResumeAnalyzer) (resume_text : pyval)
  : io pyval :=
  try_except
    (content ← lift (messages_create (client self) "claude-3-opus-20240229"
                       2000 (S754_zero false) system_prompt
                       [mkdict [("role", PStr "user");
                                ("content", resume_text)]]);
     block ← lift (first_item content);
     text ← lift block;
     lift (json_loads text))
    (λ e, emit (StError ("Error analyzing resume: " ++ exn_msg e));;
          mret PNone).
End language_model.

(** ** main: the upload step *)

(** [v[k]] for a string key [k]: the entry of a dictionary; no other value
    of the fragment can be indexed by a string. *)
Definition getitem (v : pyval) (k : string) : result pyval :=
  match v with
  | PDict d =>
      match d !! k with
      | Some x => Ok x
      | None => Raise (Exn KeyError ("'" ++ k ++ "'"))
      end
  | PList _ =>
      Raise (Exn TypeError "list indices must be integers or slices, not str")
  | PStr _ =>
      Raise (Exn TypeError "string indices must be integers, not 'str'")
  | _ => Raise (Exn TypeError ("'" ++ type_name v ++ "' object is not subscriptable"))
  end.

(** The items of a sequence handed to [str.join], which must all be strings. *)
Fixpoint join_items (i : nat) (l : list pyval) : result (list string) :=
  match l with
  | [] => Ok []
  | PStr s :: r =>
      strs ← join_items (S i) r;
      Ok (s :: strs)
  | v :: _ =>
      Raise (Exn TypeError ("sequence item " ++ pretty i
                            ++ ": expected str instance, "
                            ++ type_name v ++ " found"))
  end.

(** [sep.join(v)]. *)
Definition str_join (sep : string) (v : pyval) : result string :=
  match py_iter v with
  | Ok items =>
      strs ← join_items 0 items;
      Ok (String.concat sep strs)
  | Raise _ => Raise (Exn TypeError "can only join an iterable")
  end.

(** What the upload step evaluates to display an analysis, between storing
    it and drawing the continue button: the skills joined into one line, the
    years and the level read, the education and the achievements iterated. *)
Definition display_analysis (analysis : pyval) : result unit :=
  technical_skills ← getitem analysis "technical_skills";
  str_join ", " technical_skills;;
  getitem analysis "years_experience";;
  getitem analysis "seniority_level";;
  education ← getitem analysis "education";
  py_iter education;;
  achievements ← getitem analysis "achievements";
  py_iter achievements;;
  Ok tt.

Section upload_step.
Variable pdf_pages : string → result (list (result string)).
Variable docx_paragraphs : string → result (list string).
Variable decode_utf8 : string → result string.
Variable messages_create :
  string → string → Z → spec_float → string → list (gmap string pyval) →
  result (list (result string)).
Variable json_loads : string → result pyval.
Variable clicked : string → bool.
(** What [st.file_uploader] holds in this run. *)
Variable file_uploader : option uploaded_file.

(** The branch [if st.session_state.step == 1:] of [main]. The elements that
    only show something (markdown, success, subheader, the one-argument
    write) leave no event; their arguments are evaluated, which can raise. *)
Definition main_step1 (claude_api_key : string) : io unit :=
  let uploaded_file := file_uploader in
  if bool_decide (is_Some uploaded_file) then
    resume_text ← process_uploaded_file pdf_pages docx_paragraphs decode_utf8
                    uploaded_file;
    if truthy resume_text then
      if negb (truthy (PStr claude_api_key)) then
        emit (StError "Please enter your Claude API key in the sidebar")
      else
        let analyzer := ResumeAnalyzer_init claude_api_key in
        analysis ← analyze_resume messages_create json_loads analyzer resume_text;
        if truthy analysis then
          set_session "resume_analysis" analysis;;
          technical_skills ← lift (getitem analysis "technical_skills");
          lift (str_join ", " technical_skills);;
          lift (getitem analysis "years_experience");;
          lift (getitem analysis "seniority_level");;
          education ← lift (getitem analysis "education");
          lift (py_iter education);;
          achievements ← lift (getitem analysis "achievements");
          lift (py_iter achievements);;
          continue ← st_button clicked "Continue to Job Preferences";
          if (continue : bool) then
            set_session "step" (PInt 2);;
            st_rerun
          else mret tt
        else mret tt
    else mret tt
  else mret tt.
End upload_step.

(** The five entries of an analysis that the upload step displays. *)
Definition displayed_entries : list string :=
  ["technical_skills"; "years_experience"; "seniority_level"; "education";
   "achievements"].

(** A session at step 1. *)
Definition upload_world : world := World (mkdict [("step", PInt 1)]) [].

(** An analysis that holds every displayed entry. *)
Definition sample_analysis : pyval :=
  PDict (mkdict [("technical_skills", PList [PStr "Python"; PStr "SQL"]);
                 ("years_experience", PInt 5);
                 ("seniority_level", PStr "Senior");
                 ("education", PList [PStr "BSc"]);
                 ("achievements", PList [])]).

(** An analysis that holds the skills but not the years of experience. *)
Definition partial_analysis : pyval :=
  PDict (mkdict [("technical_skills", PList [PStr "Python"])]).

(** ** main: the preferences step *)

Section preferences_step.
(** The values of the widgets in this run, by label: the text of a
    [st.text_input], the option picked in a [st.selectbox], and which buttons
    were pressed. *)
Variable text_input : string → string.
Variable selectbox : string → list string → string.
Variable clicked : string → bool.

(** The dictionary stored under [job_preferences]. *)
Definition job_preferences (job_title location company date_posted
    remote_preference : string) : gmap string pyval :=
  mkdict [("title", PStr job_title); ("location", PStr location);
          ("company", PStr company); ("date_posted", PStr date_posted);
          ("remote", PStr remote_preference)].

(** The branch [elif st.session_state.step == 2:] of [main]. *)
Definition main_step2 : io unit :=
  let job_title := text_input "Desired Job Title" in
  let location := text_input "Location" in
  let company := text_input "Company Name (Optional)" in
  let date_posted :=
    selectbox "Date Posted"
      ["Last 24 hours"; "Last 7 days"; "Last 30 days"; "Last 90 days"] in
  let remote_preference :=
    selectbox "Remote Work Preference"
      ["Any"; "Remote only"; "Hybrid"; "In-office"] in
  search ← st_button clicked "Search Jobs";
  if (search : bool) then
    if negb (truthy (PStr job_title)) && negb (truthy (PStr company)) then
      emit (StError "Please enter either a job title or company name")
    else
      set_session "job_preferences"
        (PDict (job_preferences job_title location company date_posted
                  remote_preference));;
      set_session "step" (PInt 3);;
      st_rerun
  else mret tt.
End preferences_step.

(** The number of days that stands for each option of the date selector. *)
Definition days_of_option (option : string) : Z :=
  if String.eqb option "Last 24 hours" then 1
  else if String.eqb option "Last 7 days" then 7
  else if String.eqb option "Last 30 days" then 30
  else 90.

(** A session at step 2. *)
Definition preferences_world : world := World (mkdict [("step", PInt 2)]) [].

(** ** main: the results step *)

(** A job dictionary after [job["match_score"] = score]: the float entry is
    kept beside the other entries, and is what [job["match_score"]] reads. *)
Record scored_job := ScoredJob {
  job_entries : gmap string pyval;
  match_score : spec_float
}.

(** One turn of the scoring loop. The score is computed first, through
    [job.get], which only a dictionary has. *)
Definition score_job (candidate_skills : pyval) (job : pyval)
  : result scored_job :=
  match job with
  | PDict d =>
      score ← calculate_match_score d candidate_skills;
      Ok (ScoredJob d score)
  | _ => Raise (Exn AttributeError
                  ("'" ++ type_name job ++ "' object has no attribute 'get'"))
  end.

(** [for job in jobs: job["match_score"] = ...], stopping at the first job
    that raises. *)
Fixpoint score_jobs (candidate_skills : pyval) (jobs : list pyval)
  : result (list scored_job) :=
  match jobs with
  | [] => Ok []
  | job :: rest =>
      scored ← score_job candidate_skills job;
      others ← score_jobs candidate_skills rest;
      Ok (scored :: others)
  end.

(** [x < y] on floats. *)
Definition float_lt (x y : spec_float) : bool := SFltb x y.

(** [x >= n] for a float [x] and an integer [n]: the two are compared by
    their exact values. *)
Definition float_ge_int (x : spec_float) (n : Z) : bool :=
  match x with
  | S754_nan => false
  | S754_infinity s => negb s
  | _ => Qle_bool (inject_Z n) (B64.F2Q x)
  end.

#[global] Instance spec_float_eq_dec : EqDecision spec_float.
Proof. solve_decision. Defined.

(** Where a job goes in a list already in descending order of score: behind
    every job with a greater score, before the first one with a score that
    is not greater. *)
Fixpoint insert_by_score (job : scored_job) (sorted : list scored_job)
  : list scored_job :=
  match sorted with
  | [] => [job]
  | other :: rest =>
      if float_lt (match_score job) (match_score other)
      then other :: insert_by_score job rest
      else job :: sorted
  end.

(** [jobs.sort(key=lambda x: x["match_score"], reverse=True)]: the stable
    sort into descending order (jobs with equal scores keep their order). *)
Definition sort_by_score (jobs : list scored_job) : list scored_job :=
  foldr insert_by_score [] jobs.

(** [create_match_visualization]: the chart, as the data handed to
    [ax.barh]: one bar per job, its label and its width. *)
Record figure := Figure {
  bar_labels : list string;
  bar_widths : list spec_float
}.

Section visualization.
(** [str(v)], as the f-strings apply it. *)
Variable py_str : pyval → string.

(** The label of one bar. *)
Definition bar_label (job : scored_job) : result string :=
  company ← getitem (PDict (job_entries job)) "company";
  title ← getitem (PDict (job_entries job)) "title";
  Ok (py_str company ++ " - " ++ py_str title).

Fixpoint bar_label_list (jobs : list scored_job) : result (list string) :=
  match jobs with
  | [] => Ok []
  | job :: rest =>
      label ← bar_label job;
      labels ← bar_label_list rest;
      Ok (label :: labels)
  end.

Definition create_match_visualization (jobs : list scored_job)
  : result (option figure) :=
  if bool_decide (jobs = []) then Ok None
  else
    companies ← bar_label_list (take 10 jobs);
    let scores := match_score <$> take 10 jobs in
    Ok (Some (Figure companies scores)).
End visualization.

(** [v in selection], for a selection of hashable values: a value that
    cannot be hashed equals none of them. *)
Definition py_in (v : pyval) (selection : list hkey) : bool :=
  match hash_key v with
  | Ok k => bool_decide (k ∈ selection)
  | Raise _ => false
  end.

(** [set(job.get(key, "") for job in jobs)], over the jobs that pass [keep]. *)
Definition entry_set (key : string) (keep : scored_job → bool)
    (jobs : list scored_job) : result (gset hkey) :=
  keys ← hash_all ((λ job, dict_get_or (job_entries job) key (PStr ""))
                   <$> filter (λ job, keep job = true) jobs);
  Ok (list_to_set keys).

Section results_step.
Variable py_str : pyval → string.
(** The widgets of the results step: the value of the slider, and what is
    selected in each multiselect among the options it offers. *)
Variable slider : string → Z → Z → Z → Z.
Variable multiselect : string → gset hkey → list hkey.

(** The results step of [main] from its start to the list comprehension
    that selects the jobs to display, as a function of what the session
    holds: the result is the pair of the chart and [filtered_jobs], and
    [None] stands for the early [return] (after the error "No job matches
    found"). The scores that the loop leaves in the stored job objects, and
    the order the sort leaves them in, are not described here: the stored
    jobs are not read again in the step. *)
Definition main_step4_filtered_jobs (session_state : gmap string pyval)
  : result (option (option figure * list scored_job)) :=
  let jobs := dict_get_or session_state "jobs" (PList []) in
  let analysis := dict_get_or session_state "resume_analysis" (PDict ∅) in
  if negb (truthy jobs) then Ok None
  else
    candidate_skills ← get_method analysis "technical_skills" (PList []);
    items ← py_iter jobs;
    scored ← score_jobs candidate_skills items;
    jobs ← match jobs with
           | PList _ => Ok (sort_by_score scored)
           | _ => Raise (Exn AttributeError
                           ("'" ++ type_name jobs
                            ++ "' object has no attribute 'sort'"))
           end;
    fig ← create_match_visualization py_str jobs;
    let min_score := slider "Minimum Match Score" 0 100 50 in
    locations ← entry_set "location" (λ _, true) jobs;
    let location_filter := multiselect "Location" locations in
    remote_types ← entry_set "remote_type"
                     (λ job, bool_decide (is_Some (job_entries job !! "remote_type")))
                     jobs;
    let remote_filter := multiselect "Remote Type" remote_types in
    let filtered_jobs :=
      filter (λ job,
        float_ge_int (match_score job) min_score
        && (bool_decide (location_filter = [])
            || py_in (dict_get_or (job_entries job) "location" (PStr ""))
                 location_filter)
        && (bool_decide (remote_filter = [])
            || py_in (dict_get_or (job_entries job) "remote_type" (PStr ""))
                 remote_filter) = true) jobs in
    Ok (Some (fig, filtered_jobs)).
End results_step.

(** A job scores zero when its score is [+0.0]. *)
Definition scores_zero (job : scored_job) : Prop :=
  match_score job = S754_zero false.

(** Two jobs that come back from the search, and a session that holds them. *)
Definition python_job : pyval :=
  PDict (mkdict [("title", PStr "Data Engineer"); ("company", PStr "Acme");
                 ("required_skills", str_list ["Python"; "SQL"])]).

Definition unlisted_job : pyval :=
  PDict (mkdict [("title", PStr "Analyst"); ("company", PStr "Initech")]).

Definition results_session : gmap string pyval :=
  mkdict [("step", PInt 4);
          ("jobs", PList [unlisted_job; python_job]);
          ("resume_analysis",
           PDict (mkdict [("technical_skills", str_list ["Python"])]))].

(** A value that [set] accepts as an element: anything but a list or a
    dictionary. *)
Definition hashable (v : pyval) : bool :=
  match v with
  | PList _ | PDict _ => false
  | _ => true
  end.

(** A job whose required skills are [null] in the JSON answer. *)
Definition job_with_null_skills : gmap string pyval :=
  mkdict [("title", PStr "Data Engineer"); ("required_skills", PNone)].

(** The texts of the pages of a document, one after the other. *)
Definition pages_text (texts : list string) : string :=
  foldr String.append "" texts.

(** A PDF library that finds the two pages in every file, and one whose
    second page cannot be read. *)
Definition two_pages : string → result (list (result string)) :=
  λ _, Ok [Ok "Jane Doe. "; Ok "Python, SQL."].

Definition torn_page : string → result (list (result string)) :=
  λ _, Ok [Ok "Jane Doe. "; Raise (Exn (OtherException "PdfReadError") "EOF marker not found");
           Ok "Python, SQL."].

(** A server that answers every request with [r]. *)
Definition answers_with (r : http_response)
    (network : nat → string → gmap string pyval → http_outcome) : Prop :=
  ∀ n url json, network n url json = Responded r.

(** A language model that answers with one block of text. *)
Definition one_block (answer : string)
  : string → string → Z → spec_float → string → list (gmap string pyval) →
    result (list (result string)) :=
  λ _ _ _ _ _ _, Ok [Ok answer].

(** A language model that answers with no block at all. *)
Definition no_block
  : string → string → Z → spec_float → string → list (gmap string pyval) →
    result (list (result string)) :=
  λ _ _ _ _ _ _, Ok [].

(** Widgets of the preferences step as a user might leave them: a title,
    no location or company, jobs of the last week, remote only. *)
Definition typed_title : string → string :=
  λ label, if String.eqb label "Desired Job Title" then "Data Engineer" else "".

Definition picked_options : string → list string → string :=
  λ label _, if String.eqb label "Date Posted" then "Last 7 days"
             else "Remote only".

(** A session at step 3 whose analysis gives the seniority as a number. *)
Definition numeric_seniority_world : world :=
  World (mkdict [("step", PInt 3);
                 ("resume_analysis",
                  PDict (mkdict [("seniority_level", PInt 3)]))]) [].

(** An answer of the search that holds one job. *)
Definition one_job : http_response :=
  Response 200 "OK" "[{}]" (Ok (PList [sample_job])).

(** The entries of the two jobs, and the jobs with their scores for a
    candidate who knows Python. *)
Definition python_job_entries : gmap string pyval :=
  mkdict [("title", PStr "Data Engineer"); ("company", PStr "Acme");
          ("required_skills", str_list ["Python"; "SQL"])].

Definition unlisted_job_entries : gmap string pyval :=
  mkdict [("title", PStr "Analyst"); ("company", PStr "Initech")].

Definition scored_sample : list scored_job :=
  [ScoredJob unlisted_job_entries (S754_zero false);
   ScoredJob python_job_entries (B64.of_hundredths 5000)].

(** Widgets of the results step left as they are drawn: the slider at its
    default and nothing selected. *)
Definition default_slider : string → Z → Z → Z → Z := λ _ _ _ value, value.

Definition nothing_selected : string → gset hkey → list hkey := λ _ _, [].

(** The answer of an API that wraps its results in an envelope. *)
Definition envelope : gmap string pyval :=
  mkdict [("data", PList [python_job])].

Definition envelope_answer : http_response :=
  Response 200 "OK" "{}" (Ok (PDict envelope)).

(** [str] on the strings of the fragment, which is all the samples need. *)
Definition str_of_text (v : pyval) : string :=
  match v with
  | PStr s => s
  | _ => ""
  end.

(** What the results step shows for the sample session. *)
Definition sample_chart : figure :=
  Figure ["Acme - Data Engineer"; "Initech - Analyst"]
         [B64.of_hundredths 5000; S754_zero false].

Definition sample_shown : list scored_job :=
  [ScoredJob python_job_entries (B64.of_hundredths 5000)].
(** * Properties of the query formatter *)

(** Evaluate [dict_get] at a closed dictionary and key. *)
Ltac eval_dict_get :=
  repeat match goal with
  | |- context [dict_get ?d ?k] =>
      let v := eval vm_compute in (dict_get d k) in
      replace (dict_get d k) with v by (vm_compute; reflexivity)
  end.

Lemma lookup_setitem_if (c : bool) (k k' : string) (v : pyval)
      (m : gmap string pyval) :
  setitem_if c k v m !! k'
  = if decide (k' = k) then (if c then Some v else m !! k') else m !! k'.
Proof.
  unfold setitem_if. destruct c; case_decide; subst;
    rewrite ?lookup_insert_eq, ?lookup_insert_ne by done; done.
Qed.

Lemma truthy_PStr (s : string) : truthy (PStr s) = true ↔ s ≠ "".
Proof.
  simpl. destruct (String.eqb_spec s ""); simpl; split; congruence.
Qed.

Lemma nonempty_list_spec (v : pyval) :
  isinstance_list v && truthy v = true ↔ ∃ x l, v = PList (x :: l).
Proof.
  split.
  - destruct v as [| | | |[|x l]|]; simpl; try discriminate. eauto.
  - intros (x & l & ->). reflexivity.
Qed.

Lemma is_True_spec (v : pyval) : is_True v = true ↔ v = PBool true.
Proof.
  split; [|by intros ->].
  destruct v as [|[]| | | |]; simpl; congruence.
Qed.

Lemma dict_get_absent (q : gmap string pyval) (k : string) :
  q !! k = None → dict_get q k = PNone.
Proof. unfold dict_get. by intros ->. Qed.

Example format_example : _format_search_query example_preferences = Ok example_formatted.
Proof. unfold _format_search_query. eval_dict_get. reflexivity. Qed.

(** Every entry of a formatted query, key by key. *)
Lemma format_lookup (q fq : gmap string pyval) (k : string) :
  _format_search_query q = Ok fq →
  fq !! k =
    if decide (k = "seniority_contains_any") then
      seniority_entry (dict_get q "experience_level")
    else if decide (k = "technologies_contains_any") then
      if isinstance_list (dict_get q "skills") && truthy (dict_get q "skills")
      then Some (dict_get q "skills") else None
    else if decide (k = "remote_contains_any") then
      if is_True (dict_get q "remote") then Some (PList [PStr "true"]) else None
    else if decide (k = "location_contains_any") then
      if truthy (dict_get q "location")
      then Some (PList [dict_get q "location"]) else None
    else if decide (k = "job_title_contains_any") then
      if truthy (dict_get q "title")
      then Some (PList [dict_get q "title"]) else None
    else if decide (k = "company_name_or") then
      if truthy (dict_get q "company")
      then Some (PList [dict_get q "company"]) else None
    else if decide (k = "posted_at_max_age_days") then
      Some (PInt (if eq_str (dict_get q "date_posted") "Last 24 hours" then 1
                  else if eq_str (dict_get q "date_posted") "Last 7 days" then 7
                  else if eq_str (dict_get q "date_posted") "Last 30 days" then 30
                  else 90))
    else None.
Proof.
  unfold _format_search_query.
  set (lvl := dict_get q "experience_level").
  set (sk := dict_get q "skills").
  set (base := if eq_str _ _ then _ else _).
  assert (Hbase : ∀ k', base !! k' =
    if decide (k' = "posted_at_max_age_days") then
      Some (PInt (if eq_str (dict_get q "date_posted") "Last 24 hours" then 1
                  else if eq_str (dict_get q "date_posted") "Last 7 days" then 7
                  else if eq_str (dict_get q "date_posted") "Last 30 days" then 30
                  else 90))
    else None).
  { intros k'. subst base.
    repeat (destruct (eq_str _ _));
      (case_decide; subst;
       [by rewrite lookup_insert_eq|by rewrite lookup_insert_ne, lookup_empty]). }
  clearbody base.
  set (rest := setitem_if (is_True _) _ _ _).
  assert (Hsk : (if truthy sk
                 then setitem_if (isinstance_list sk && truthy sk)
                        "technologies_contains_any" sk rest
                 else rest)
                = setitem_if (isinstance_list sk && truthy sk)
                    "technologies_contains_any" sk rest).
  { destruct (truthy sk); [done|]. by rewrite andb_false_r. }
  rewrite Hsk. clear Hsk. subst rest.
  set (chain := setitem_if (isinstance_list sk && truthy sk) _ _ _).
  intros H.
  assert (Hfq : ∃ c v, fq = setitem_if c "seniority_contains_any" v chain
                     ∧ (if c then Some v else None) = seniority_entry lvl).
  { destruct (truthy lvl) eqn:Hl.
    - destruct lvl as [| | |s| |]; try discriminate H.
      injection H as <-. unfold seniority_entry.
      eexists _, _. split; reflexivity.
    - injection H as <-. exists false, PNone. split; [reflexivity|].
      destruct lvl as [| | |s| |]; try reflexivity.
      apply negb_false_iff, String.eqb_eq in Hl. by subst s. }
  destruct Hfq as (c & v & -> & <-). clear H. subst chain.
  rewrite !lookup_setitem_if, Hbase.
  repeat case_decide; subst; done.
Qed.

Lemma format_total (q : gmap string pyval) :
  seniority_is_text q → ∃ fq, _format_search_query q = Ok fq.
Proof.
  unfold seniority_is_text, _format_search_query.
  intros [->|[s ->]]; [by eexists|].
  destruct (truthy (PStr s)); by eexists.
Qed.

(** A truthy seniority entry that is not a string has no [lower] method. *)
Lemma format_raises (q : gmap string pyval) :
  ¬ seniority_is_text q →
  ∃ msg, _format_search_query q = Raise (Exn AttributeError msg).
Proof.
  unfold seniority_is_text, _format_search_query. intros Hn.
  destruct (truthy (dict_get q "experience_level")) eqn:Ht; [|tauto].
  destruct (dict_get q "experience_level") as [| | |s| |] eqn:Hv;
    try (by eexists).
  destruct Hn. right. by exists s.
Qed.

Lemma format_dom (q fq : gmap string pyval) :
  _format_search_query q = Ok fq → dom fq ⊆ filter_keys.
Proof.
  intros H k [v Hk]%elem_of_dom.
  rewrite (format_lookup q fq k H) in Hk.
  unfold filter_keys. repeat case_decide; subst; try discriminate; set_solver.
Qed.

Ltac format_lookup_at q fq key H :=
  let Hk := fresh "Hk" in
  pose proof (format_lookup q fq key H) as Hk;
  repeat (case_decide; [discriminate|]); (case_decide; [exact Hk|done]).

Lemma format_lookup_recency (q fq : gmap string pyval) :
  _format_search_query q = Ok fq →
  fq !! "posted_at_max_age_days" =
    Some (PInt (if eq_str (dict_get q "date_posted") "Last 24 hours" then 1
                else if eq_str (dict_get q "date_posted") "Last 7 days" then 7
                else if eq_str (dict_get q "date_posted") "Last 30 days" then 30
                else 90)).
Proof. intros H. format_lookup_at q fq "posted_at_max_age_days" H. Qed.

(** A label that is none of the three recognised ones selects 90 days. *)
Lemma recency_default (q : gmap string pyval) :
  q !! "date_posted" ≠ Some (PStr "Last 24 hours") →
  q !! "date_posted" ≠ Some (PStr "Last 7 days") →
  q !! "date_posted" ≠ Some (PStr "Last 30 days") →
  (if eq_str (dict_get q "date_posted") "Last 24 hours" then 1
   else if eq_str (dict_get q "date_posted") "Last 7 days" then 7
   else if eq_str (dict_get q "date_posted") "Last 30 days" then 30
   else 90) = 90.
Proof.
  intros Hd1 Hd7 Hd30. unfold dict_get.
  destruct (q !! "date_posted") as [[| | |s| |]|]; try reflexivity.
  simpl.
  destruct (String.eqb_spec s "Last 24 hours") as [->|_]; [done|].
  destruct (String.eqb_spec s "Last 7 days") as [->|_]; [done|].
  destruct (String.eqb_spec s "Last 30 days") as [->|_]; done.
Qed.

(** C3. For every preference dictionary from which a query is produced (and
    one is produced whenever the seniority entry is absent, empty or a
    string), the query holds [posted_at_max_age_days]: 1 for "Last 24 hours",
    7 for "Last 7 days", 30 for "Last 30 days", and 90 for any other label,
    absent included. *)
Theorem format_recency_filter (q : gmap string pyval) :
  (seniority_is_text q → ∃ fq, _format_search_query q = Ok fq) ∧
  ∀ fq, _format_search_query q = Ok fq →
    (q !! "date_posted" = Some (PStr "Last 24 hours") →
       fq !! "posted_at_max_age_days" = Some (PInt 1)) ∧
    (q !! "date_posted" = Some (PStr "Last 7 days") →
       fq !! "posted_at_max_age_days" = Some (PInt 7)) ∧
    (q !! "date_posted" = Some (PStr "Last 30 days") →
       fq !! "posted_at_max_age_days" = Some (PInt 30)) ∧
    (q !! "date_posted" ≠ Some (PStr "Last 24 hours") →
     q !! "date_posted" ≠ Some (PStr "Last 7 days") →
     q !! "date_posted" ≠ Some (PStr "Last 30 days") →
       fq !! "posted_at_max_age_days" = Some (PInt 90)).
Proof.
  split; [apply format_total|].
  intros fq H. rewrite (format_lookup_recency q fq H).
  repeat split.
  - unfold dict_get. by intros ->.
  - unfold dict_get. by intros ->.
  - unfold dict_get. by intros ->.
  - intros Hd1 Hd7 Hd30. by rewrite recency_default.
Qed.

Lemma format_recency_filter_witness :
  example_formatted !! "posted_at_max_age_days" = Some (PInt 7).
Proof.
  destruct (format_recency_filter example_preferences) as [_ H].
  destruct (H example_formatted format_example) as (_ & H7 & _).
  apply H7. vm_compute. reflexivity.
Defined.

Lemma dict_get_Some (q : gmap string pyval) (k : string) (v : pyval) :
  v ≠ PNone → dict_get q k = v ↔ q !! k = Some v.
Proof.
  unfold dict_get. intros Hv. destruct (q !! k) as [w|]; simpl; split;
    congruence.
Qed.

Lemma is_Some_if {A} (c : bool) (x : A) :
  is_Some (if c then Some x else None) ↔ c = true.
Proof. destruct c; split; (done || by intros []). Qed.

Lemma seniority_entry_is_Some (v : pyval) :
  is_Some (seniority_entry v)
  ↔ ∃ s, v = PStr s ∧ str_in (lower s) ["entry"; "mid"; "senior"] = true.
Proof.
  unfold seniority_entry. split.
  - destruct v as [| | |s| |]; try (by intros []).
    rewrite is_Some_if. eauto.
  - intros (s & -> & Hs). by rewrite is_Some_if.
Qed.

Lemma format_lookup_text (q fq : gmap string pyval) (src key : string) :
  _format_search_query q = Ok fq →
  (src, key) ∈ [("company", "company_name_or");
                ("title", "job_title_contains_any");
                ("location", "location_contains_any")] →
  fq !! key = (if truthy (dict_get q src)
               then Some (PList [dict_get q src]) else None).
Proof.
  intros H Hin. pose proof (format_lookup q fq key H) as Hk.
  repeat match goal with
  | Hin : _ ∈ _ :: _ |- _ => apply elem_of_cons in Hin as [[= -> ->]|Hin]
  | Hin : _ ∈ [] |- _ => by apply elem_of_nil in Hin
  end;
  repeat (case_decide; [discriminate|]); (case_decide; [exact Hk|done]).
Qed.

Lemma format_lookup_remote (q fq : gmap string pyval) :
  _format_search_query q = Ok fq →
  fq !! "remote_contains_any" =
    (if is_True (dict_get q "remote") then Some (PList [PStr "true"]) else None).
Proof. intros H. format_lookup_at q fq "remote_contains_any" H. Qed.

Lemma format_lookup_technologies (q fq : gmap string pyval) :
  _format_search_query q = Ok fq →
  fq !! "technologies_contains_any" =
    (if isinstance_list (dict_get q "skills") && truthy (dict_get q "skills")
     then Some (dict_get q "skills") else None).
Proof. intros H. format_lookup_at q fq "technologies_contains_any" H. Qed.

Lemma format_lookup_seniority (q fq : gmap string pyval) :
  _format_search_query q = Ok fq →
  fq !! "seniority_contains_any" = seniority_entry (dict_get q "experience_level").
Proof. intros H. format_lookup_at q fq "seniority_contains_any" H. Qed.

(** C4. In every query that [_format_search_query] produces, each optional
    filter key is present exactly when its condition holds, with the value the
    code stores: company, title and location when the entry is truthy (for a
    string: non-empty), remote when the flag is [True] itself, technologies
    when skills is a non-empty list, seniority when the lower-cased level is
    one of entry, mid, senior; a key whose source entry is absent is not
    emitted, no other key is emitted, and the example preferences format to
    exactly the example query. *)
Theorem format_optional_filters :
  (∀ q fq : gmap string pyval, _format_search_query q = Ok fq →
    (∀ src key, (src, key) ∈ [("company", "company_name_or");
                              ("title", "job_title_contains_any");
                              ("location", "location_contains_any")] →
       fq !! key = (if truthy (dict_get q src)
                    then Some (PList [dict_get q src]) else None)
       ∧ (∀ s, q !! src = Some (PStr s) → (is_Some (fq !! key) ↔ s ≠ ""))
       ∧ (q !! src = None → fq !! key = None))
    ∧ (fq !! "remote_contains_any" =
         (if is_True (dict_get q "remote") then Some (PList [PStr "true"]) else None)
       ∧ (is_Some (fq !! "remote_contains_any") ↔ q !! "remote" = Some (PBool true)))
    ∧ (fq !! "technologies_contains_any" =
         (if isinstance_list (dict_get q "skills") && truthy (dict_get q "skills")
          then Some (dict_get q "skills") else None)
       ∧ (is_Some (fq !! "technologies_contains_any")
          ↔ ∃ x l, q !! "skills" = Some (PList (x :: l))))
    ∧ (fq !! "seniority_contains_any" = seniority_entry (dict_get q "experience_level")
       ∧ (is_Some (fq !! "seniority_contains_any")
          ↔ ∃ s, q !! "experience_level" = Some (PStr s)
                 ∧ str_in (lower s) ["entry"; "mid"; "senior"] = true))
    ∧ dom fq ⊆ filter_keys)
  ∧ _format_search_query example_preferences = Ok example_formatted.
Proof.
  split; [|exact format_example].
  intros q fq H.
  pose proof (format_lookup_remote q fq H) as Hr.
  pose proof (format_lookup_technologies q fq H) as Ht.
  pose proof (format_lookup_seniority q fq H) as Hs.
  split; [|split; [|split; [|split]]].
  - intros src key Hin.
    rewrite (format_lookup_text q fq src key H Hin).
    split; [done|split].
    + intros s Hq. rewrite is_Some_if. unfold dict_get. rewrite Hq.
      apply truthy_PStr.
    + intros Hn. by rewrite (dict_get_absent _ _ Hn).
  - split; [done|].
    rewrite Hr, is_Some_if, is_True_spec. by apply dict_get_Some.
  - split; [done|].
    rewrite Ht, is_Some_if, nonempty_list_spec.
    split; intros (x & l & Hx); exists x, l;
      by apply (dict_get_Some q "skills" (PList (x :: l))).
  - split; [done|].
    rewrite Hs, seniority_entry_is_Some.
    split; intros (s & Hv & Hin); exists s; (split; [|done]);
      by apply (dict_get_Some q "experience_level" (PStr s)).
  - by apply (format_dom q).
Qed.

Lemma format_optional_filters_witness :
  example_formatted !! "remote_contains_any" = Some (PList [PStr "true"])
  ∧ dom example_formatted ⊆ filter_keys.
Proof.
  destruct format_optional_filters as [H _].
  destruct (H example_preferences example_formatted format_example)
    as (_ & [Hr _] & _ & _ & Hd).
  split; [|exact Hd].
  rewrite Hr. reflexivity.
Defined.

Example format_remote_only :
  _format_search_query remote_only_preferences = Ok remote_only_formatted.
Proof. unfold _format_search_query. eval_dict_get. reflexivity. Qed.

(** C5, as stated, fails: preferences that hold only [remote: True] have no
    title, company, location or skills, yet format to a query with two keys,
    the recency filter and the remote filter. So do preferences that hold
    only a seniority: the level is compared in lower case, so "SENIOR",
    which is not literally one of entry, mid, senior, still emits the
    seniority filter. *)
Lemma format_recency_only_counterexample :
  lacks_search_terms remote_only_preferences
  ∧ _format_search_query remote_only_preferences = Ok remote_only_formatted
  ∧ remote_only_formatted !! "remote_contains_any" = Some (PList [PStr "true"])
  ∧ dom remote_only_formatted ≠ {["posted_at_max_age_days"]}
  ∧ lacks_search_terms capital_seniority_preferences
  ∧ _format_search_query capital_seniority_preferences
    = Ok capital_seniority_formatted
  ∧ capital_seniority_formatted !! "seniority_contains_any"
    = Some (PList [PStr "senior"])
  ∧ dom capital_seniority_formatted ≠ {["posted_at_max_age_days"]}.
Proof.
  assert (Hr : remote_only_formatted !! "remote_contains_any"
               = Some (PList [PStr "true"])).
  { unfold remote_only_formatted, mkdict. simpl. apply lookup_insert_eq. }
  assert (Hs : capital_seniority_formatted !! "seniority_contains_any"
               = Some (PList [PStr "senior"])).
  { unfold capital_seniority_formatted, mkdict. simpl. apply lookup_insert_eq. }
  split; [|split; [exact format_remote_only|split; [exact Hr|split; [|split;
    [|split; [|split; [exact Hs|]]]]]]].
  - unfold lacks_search_terms. eval_dict_get. done.
  - intros Hd.
    assert (Hin : "remote_contains_any" ∈ dom remote_only_formatted)
      by (apply elem_of_dom; by rewrite Hr).
    rewrite Hd in Hin. by apply elem_of_singleton in Hin.
  - unfold lacks_search_terms. eval_dict_get. done.
  - unfold _format_search_query. eval_dict_get. reflexivity.
  - intros Hd.
    assert (Hin : "seniority_contains_any" ∈ dom capital_seniority_formatted)
      by (apply elem_of_dom; by rewrite Hs).
    rewrite Hd in Hin. by apply elem_of_singleton in Hin.
Qed.

(** C5, amended. When title, company, location and skills are all absent or
    empty, the remote flag is not [True], and the seniority entry is absent
    or empty, or is a string that, put in lower case, is none of entry, mid,
    senior (as the code compares it: "Senior" and "SENIOR" are accepted
    levels), the formatted query has exactly one key,
    [posted_at_max_age_days], and its value is 90 unless the label is one of
    the three recognised ones. *)
Theorem format_recency_only (q : gmap string pyval) :
  lacks_search_terms q →
  is_True (dict_get q "remote") = false →
  seniority_filtered_out q →
  ∃ n, _format_search_query q = Ok {["posted_at_max_age_days" := PInt n]}
       ∧ (q !! "date_posted" ≠ Some (PStr "Last 24 hours") →
          q !! "date_posted" ≠ Some (PStr "Last 7 days") →
          q !! "date_posted" ≠ Some (PStr "Last 30 days") → n = 90).
Proof.
  intros (Ht & Hc & Hl & Hs) Hr Hout.
  assert (Htext : seniority_is_text q).
  { destruct Hout as [Hf|(s & Hv & _)]; [by left|right; by exists s]. }
  assert (Hsen : seniority_entry (dict_get q "experience_level") = None).
  { destruct Hout as [Hf|(s & -> & Hno)].
    - destruct (dict_get q "experience_level") as [| | |s| |];
        try reflexivity.
      apply negb_false_iff, String.eqb_eq in Hf. by subst s.
    - cbn [seniority_entry]. by rewrite Hno. }
  destruct (format_total q Htext) as [fq Hfq].
  pose proof (λ k, format_lookup q fq k Hfq) as Hk. cbv beta in Hk.
  eexists. split.
  - rewrite Hfq. f_equal. apply map_eq. intros k. rewrite Hk.
    rewrite Hsen, Ht, Hc, Hl, Hs, Hr, andb_false_r.
    repeat (case_decide; [subst k; by rewrite lookup_singleton_ne|]).
    case_decide; [subst k; by rewrite lookup_singleton_eq|].
    by rewrite lookup_singleton_ne.
  - intros H1 H7 H30.
    pose proof (format_lookup_recency q fq Hfq) as H90.
    rewrite (recency_default q H1 H7 H30) in H90.
    rewrite Hk in H90.
    repeat (case_decide; [discriminate|]).
    case_decide; [|done]. by injection H90.
Qed.

Lemma format_recency_only_witness :
  ∃ n, _format_search_query stale_preferences
       = Ok {["posted_at_max_age_days" := PInt n]}
     ∧ (stale_preferences !! "date_posted" ≠ Some (PStr "Last 24 hours") →
        stale_preferences !! "date_posted" ≠ Some (PStr "Last 7 days") →
        stale_preferences !! "date_posted" ≠ Some (PStr "Last 30 days") → n = 90).
Proof.
  apply (format_recency_only stale_preferences).
  - unfold lacks_search_terms. eval_dict_get. done.
  - eval_dict_get. reflexivity.
  - right. exists "Principal". split; [|reflexivity].
    eval_dict_get. reflexivity.
Defined.

(** * Properties of the job search call *)

Ltac io_unfold :=
  unfold mbind, io_mbind, io_bind, mret, io_mret, io_ret, lift, emit,
    set_session, get_session, try_except, st_rerun in *.

Lemma requests_made_app (t u : list event) :
  requests_made (t ++ u) = (requests_made t + requests_made u)%nat.
Proof.
  induction t as [|e t IH]; [done|].
  destruct e; simpl; rewrite IH; done.
Qed.

Lemma raise_for_status_error (url : string) (r : http_response) :
  400 ≤ status_code r < 600 →
  ∃ msg, raise_for_status url r = Raise (Exn HTTPError msg)
         ∧ String.prefix (pretty (status_code r)) msg = true.
Proof.
  intros Hs. unfold raise_for_status.
  assert (Hp : ∀ a b : string, String.prefix a (a ++ b) = true).
  { intros a b. induction a as [|c a IH]; simpl; [by destruct b|].
    destruct (Ascii.ascii_dec c c); [exact IH|done]. }
  destruct ((400 <=? status_code r) && (status_code r <? 500)) eqn:H4.
  - eexists. split; [reflexivity|]. apply Hp.
  - destruct ((500 <=? status_code r) && (status_code r <? 600)) eqn:H5.
    + eexists. split; [reflexivity|]. apply Hp.
    + apply andb_false_iff in H4, H5. lia.
Qed.

Lemma raise_for_status_ok (url : string) (r : http_response) :
  ¬ (400 ≤ status_code r < 600) → raise_for_status url r = Ok tt.
Proof.
  intros Hs. unfold raise_for_status.
  destruct ((400 <=? status_code r) && (status_code r <? 500)) eqn:H4;
    [apply andb_true_iff in H4; lia|].
  destruct ((500 <=? status_code r) && (status_code r <? 600)) eqn:H5;
    [apply andb_true_iff in H5; lia|done].
Qed.

Section search_jobs_facts.
Variable json_dumps : gmap string pyval → string.
Variable network : nat → string → gmap string pyval → http_outcome.

Let url := THEIRSTACK_API_URL ++ "/jobs/search".

Lemma search_jobs_failed self q api_query w e :
  _format_search_query q = Ok api_query →
  network (requests_made (trace w)) url api_query = Failed e →
  caught_by_except_Exception e = true →
  search_jobs json_dumps network self q w
  = (Ok (PList []),
     World (session w)
       (trace w ++ search_prelude json_dumps self api_query
                ++ [StError ("Error searching jobs: " ++ exn_msg e)])).
Proof.
  intros Hq Hn He. unfold search_jobs, requests_post. io_unfold.
  rewrite Hq. cbn [session trace]. rewrite requests_made_app.
  cbn [requests_made]. rewrite Nat.add_0_r. fold url. rewrite Hn, He.
  cbn [session trace]. rewrite <-!app_assoc. reflexivity.
Qed.

Lemma search_jobs_error_status self q api_query w r :
  _format_search_query q = Ok api_query →
  network (requests_made (trace w)) url api_query = Responded r →
  400 ≤ status_code r < 600 →
  ∃ msg,
    raise_for_status url r = Raise (Exn HTTPError msg)
    ∧ String.prefix (pretty (status_code r)) msg = true
    ∧ search_jobs json_dumps network self q w
      = (Ok (PList []),
         World (session w)
           (trace w ++ search_prelude json_dumps self api_query
              ++ [Printed ("API Response: " ++ pretty (status_code r)
                           ++ " - " ++ text r);
                  StError ("Error searching jobs: " ++ msg)])).
Proof.
  intros Hq Hn Hs.
  destruct (raise_for_status_error url r Hs) as (msg & Hr & Hp).
  exists msg. split; [exact Hr|split; [exact Hp|]].
  unfold search_jobs, requests_post. io_unfold.
  rewrite Hq. cbn [session trace]. rewrite requests_made_app.
  cbn [requests_made]. rewrite Nat.add_0_r. fold url. rewrite Hn.
  assert (H200 : (status_code r =? 200) = false) by (apply Z.eqb_neq; lia).
  rewrite H200. cbn [negb session trace]. rewrite Hr.
  cbn [caught_by_except_Exception exn_cls session trace exn_msg].
  rewrite <-!app_assoc. reflexivity.
Qed.

(** Any other status: the body is parsed and returned when it is JSON. *)
Lemma search_jobs_other_status self q api_query w r v :
  _format_search_query q = Ok api_query →
  network (requests_made (trace w)) url api_query = Responded r →
  ¬ (400 ≤ status_code r < 600) →
  json_body r = Ok v →
  search_jobs json_dumps network self q w
  = (Ok v,
     World (session w)
       (trace w ++ search_prelude json_dumps self api_query
          ++ (if status_code r =? 200 then []
              else [Printed ("API Response: " ++ pretty (status_code r)
                             ++ " - " ++ text r)]))).
Proof.
  intros Hq Hn Hs Hj.
  unfold search_jobs, requests_post. io_unfold.
  rewrite Hq. cbn [session trace]. rewrite requests_made_app.
  cbn [requests_made]. rewrite Nat.add_0_r. fold url. rewrite Hn.
  rewrite (raise_for_status_ok url r Hs), Hj.
  destruct (status_code r =? 200); cbn [negb session trace];
    rewrite <-?app_assoc, ?app_nil_r; reflexivity.
Qed.

(** Once the query is formatted, the call site lets no [Exception] out
    and sends exactly one request. *)
Lemma search_jobs_one_request self q api_query w :
  _format_search_query q = Ok api_query →
  (∀ e, network (requests_made (trace w)) url api_query = Failed e →
        caught_by_except_Exception e = true) →
  (∀ r e, network (requests_made (trace w)) url api_query = Responded r →
          json_body r = Raise e → caught_by_except_Exception e = true) →
  ∃ v w', search_jobs json_dumps network self q w = (Ok v, w')
          ∧ session w' = session w
          ∧ requests_made (trace w') = S (requests_made (trace w)).
Proof.
  intros Hq Hnet Hjson.
  destruct (network (requests_made (trace w)) url api_query) as [r|e] eqn:Hn.
  - destruct (decide (400 ≤ status_code r < 600)) as [Hs|Hs].
    + destruct (search_jobs_error_status self q api_query w r Hq Hn Hs)
        as (msg & _ & _ & ->).
      eexists _, _. split; [reflexivity|]. split; [done|].
      cbn [trace]. rewrite !requests_made_app. cbn. lia.
    + destruct (json_body r) as [v|e] eqn:Hj.
      * rewrite (search_jobs_other_status self q api_query w r v Hq Hn Hs Hj).
        eexists _, _. split; [reflexivity|]. split; [done|].
        cbn [trace]. rewrite !requests_made_app.
        destruct (status_code r =? 200); cbn; lia.
      * unfold search_jobs, requests_post. io_unfold.
        rewrite Hq. cbn [session trace]. rewrite requests_made_app.
        cbn [requests_made]. rewrite Nat.add_0_r. fold url. rewrite Hn.
        rewrite (raise_for_status_ok url r Hs), Hj.
        destruct (status_code r =? 200); cbn [negb session trace];
          rewrite (Hjson r e eq_refl Hj);
          (eexists _, _; split; [reflexivity|]; split; [done|]);
          cbn [trace]; rewrite !requests_made_app; cbn; lia.
  - rewrite (search_jobs_failed self q api_query w e Hq Hn (Hnet e eq_refl)).
    eexists _, _. split; [reflexivity|]. split; [done|].
    cbn [trace]. rewrite !requests_made_app. cbn. lia.
Qed.
End search_jobs_facts.

(** C7, as stated, fails: a status that is not a success (300) with a JSON
    body is printed as an error detail but is not raised by
    [raise_for_status], and the parsed body is returned as the job list. *)
Lemma search_jobs_non_success_counterexample :
  status_code multiple_choices ≠ 200
  ∧ ¬ (200 ≤ status_code multiple_choices < 300)
  ∧ (search_jobs (λ _, "") (always multiple_choices) (JobMatcher_init "key")
       example_preferences fresh_world).1 = Ok (PList [sample_job])
  ∧ PList [sample_job] ≠ PList [].
Proof.
  split; [done|]. split; [simpl; lia|]. split; [|done].
  rewrite (search_jobs_other_status _ _ _ _ example_formatted _
             multiple_choices (PList [sample_job]));
    [reflexivity|exact format_example|reflexivity|simpl; lia|reflexivity].
Qed.

(** C7, amended. Once the query is formatted, when the HTTP call raises, or
    answers with an error status (400 to 599, the statuses on which
    [raise_for_status] raises), [search_jobs] catches the failure, reports it
    (the status and body on standard output for a status, the exception text
    through [st.error]), returns the empty list, raises nothing, and has sent
    exactly one request. *)
Theorem search_jobs_failure_reported
    (json_dumps : gmap string pyval → string)
    (network : nat → string → gmap string pyval → http_outcome)
    (self : JobMatcher) (q api_query : gmap string pyval) (w : world) :
  _format_search_query q = Ok api_query →
  (∀ e, network (requests_made (trace w))
          (THEIRSTACK_API_URL ++ "/jobs/search") api_query = Failed e →
        caught_by_except_Exception e = true →
        search_jobs json_dumps network self q w
        = (Ok (PList []),
           World (session w)
             (trace w ++ search_prelude json_dumps self api_query
                ++ [StError ("Error searching jobs: " ++ exn_msg e)])))
  ∧ (∀ r, network (requests_made (trace w))
            (THEIRSTACK_API_URL ++ "/jobs/search") api_query = Responded r →
          400 ≤ status_code r < 600 →
          ∃ msg,
            String.prefix (pretty (status_code r)) msg = true
            ∧ search_jobs json_dumps network self q w
              = (Ok (PList []),
                 World (session w)
                   (trace w ++ search_prelude json_dumps self api_query
                      ++ [Printed ("API Response: " ++ pretty (status_code r)
                                   ++ " - " ++ text r);
                          StError ("Error searching jobs: " ++ msg)])))
  ∧ (∀ v w', search_jobs json_dumps network self q w = (v, w') →
             requests_made (trace w') = S (requests_made (trace w))).
Proof.
  intros Hq. split; [|split].
  - intros e Hn He. by apply search_jobs_failed.
  - intros r Hn Hs.
    destruct (search_jobs_error_status json_dumps network self q api_query w r
                Hq Hn Hs) as (msg & _ & Hp & Hrun).
    by exists msg.
  - intros v w'. unfold search_jobs, requests_post. io_unfold.
    rewrite Hq. cbn [session trace].
    destruct (network _ _ _) as [r|e].
    + destruct (negb _); cbn [session trace];
        destruct (raise_for_status _ _) as [[]|e];
        try destruct (json_body r) as [j|e];
        try destruct (caught_by_except_Exception e);
        intros [= <- <-]; cbn [trace];
        rewrite !requests_made_app; cbn; lia.
    + destruct (caught_by_except_Exception e); intros [= <- <-]; cbn [trace];
        rewrite !requests_made_app; cbn; lia.
Qed.

Lemma search_jobs_failure_reported_witness :
  ∃ msg,
    String.prefix "404" msg = true
    ∧ search_jobs (λ _, "") (always not_found) (JobMatcher_init "key")
        example_preferences fresh_world
      = (Ok (PList []),
         World ∅
           (search_prelude (λ _, "") (JobMatcher_init "key") example_formatted
              ++ [Printed "API Response: 404 - no such route";
                  StError ("Error searching jobs: " ++ msg)])).
Proof.
  destruct (search_jobs_failure_reported (λ _, "") (always not_found)
              (JobMatcher_init "key") example_preferences example_formatted
              fresh_world format_example) as (_ & H & _).
  destruct (H not_found eq_refl) as (msg & Hp & Hrun); [simpl; lia|].
  exists msg. split; [exact Hp|exact Hrun].
Defined.

(** * Properties of the file intake *)

Lemma split_on_nonempty (sep : ascii) (s : string) : split_on sep s ≠ [].
Proof.
  destruct s as [|c r]; simpl; [done|].
  destruct (Ascii.eqb c sep); [done|]. by destruct (split_on sep r).
Qed.

Lemma split_on_no_sep (sep : ascii) (s : string) :
  occurs sep s = false → split_on sep s = [s].
Proof.
  induction s as [|c r IH]; simpl; [done|].
  intros [Hc Hr]%orb_false_iff. rewrite Hc, (IH Hr). done.
Qed.

Lemma split_on_app (sep : ascii) (pre suf : string) :
  ∃ h t, split_on sep (pre ++ String sep suf) = h :: t ∧ t ≠ []
         ∧ List.last t EmptyString = List.last (split_on sep suf) EmptyString.
Proof.
  induction pre as [|c r (h & t & Hs & Ht & Hl)]; simpl.
  - rewrite Ascii.eqb_refl. eexists _, _. split; [reflexivity|].
    split; [apply split_on_nonempty|done].
  - rewrite Hs. destruct (Ascii.eqb c sep).
    + eexists _, _. split; [reflexivity|]. split; [done|].
      rewrite <-Hl. by destruct t.
    + eexists _, _. split; [reflexivity|]. done.
Qed.

Lemma last_split_on_app (sep : ascii) (pre suf : string) :
  List.last (split_on sep (pre ++ String sep suf)) EmptyString
  = List.last (split_on sep suf) EmptyString.
Proof.
  destruct (split_on_app sep pre suf) as (h & t & -> & Ht & <-).
  by destruct t.
Qed.

(** The extension is the lower-cased text after the last dot, and the whole
    lower-cased name when there is no dot. *)
Lemma file_extension_after_last_dot (pre suf : string) :
  occurs "." suf = false → file_extension (pre ++ "." ++ suf) = lower suf.
Proof.
  intros Hs. unfold file_extension.
  change (pre ++ "." ++ suf) with (pre ++ String "." suf).
  by rewrite last_split_on_app, (split_on_no_sep _ _ Hs).
Qed.

Lemma file_extension_no_dot (name : string) :
  occurs "." name = false → file_extension name = lower name.
Proof. intros Hs. unfold file_extension. by rewrite (split_on_no_sep _ _ Hs). Qed.

Section process_uploaded_file_facts.
Variable pdf_pages : string → result (list (result string)).
Variable docx_paragraphs : string → result (list string).
Variable decode_utf8 : string → result string.

Lemma process_unsupported (f : uploaded_file) (w : world) :
  file_extension (name f) ≠ "pdf" →
  file_extension (name f) ≠ "docx" →
  file_extension (name f) ≠ "txt" →
  process_uploaded_file pdf_pages docx_paragraphs decode_utf8 (Some f) w
  = (Ok PNone,
     World (session w)
       (trace w ++ [StError ("Unsupported file format: "
                             ++ file_extension (name f))])).
Proof.
  intros Hp Hd Ht. unfold process_uploaded_file. io_unfold.
  apply String.eqb_neq in Hp, Hd, Ht. rewrite Hp, Hd, Ht. reflexivity.
Qed.

Lemma process_never_raises (uf : option uploaded_file) (w : world) :
  (∀ f, uf = Some f →
     raises_only_Exception (pdf_pages (content f))
     ∧ (∀ pages, pdf_pages (content f) = Ok pages →
                 raises_only_Exception (concat_pages "" pages))
     ∧ raises_only_Exception (docx_paragraphs (content f))
     ∧ raises_only_Exception (decode_utf8 (content f))) →
  ∃ v w', process_uploaded_file pdf_pages docx_paragraphs decode_utf8 uf w
          = (Ok v, w')
        ∧ session w' = session w
        ∧ ((∃ text, v = PStr text ∧ w' = w)
           ∨ (v = PNone ∧ (uf = None ∧ w' = w
                           ∨ ∃ msg : string,
                               trace w' = (trace w ++ [StError msg])%list))).
Proof.
  intros Hlib. destruct uf as [f|]; [|exists PNone, w; by eauto 10].
  destruct (Hlib f eq_refl) as (Hpdf & Hcat & Hdocx & Hdec). clear Hlib.
  unfold process_uploaded_file. io_unfold.
  destruct (String.eqb _ "pdf").
  { destruct (pdf_pages (content f)) as [pages|e] eqn:Hp.
    - destruct (concat_pages "" pages) as [text|e] eqn:Hc.
      + exists (PStr text), w. destruct w; eauto 10.
      + rewrite (Hcat pages eq_refl e Hc). eexists _, _.
        split; [reflexivity|]. split; [done|]. right. eauto 10.
    - rewrite (Hpdf e eq_refl). eexists _, _.
      split; [reflexivity|]. split; [done|]. right. eauto 10. }
  destruct (String.eqb _ "docx").
  { destruct (docx_paragraphs (content f)) as [ps|e] eqn:Hp.
    - eexists _, w. destruct w; eauto 10.
    - rewrite (Hdocx e eq_refl). eexists _, _.
      split; [reflexivity|]. split; [done|]. right. eauto 10. }
  destruct (String.eqb _ "txt").
  { destruct (decode_utf8 (content f)) as [text|e] eqn:Hp.
    - eexists _, w. destruct w; eauto 10.
    - rewrite (Hdec e eq_refl). eexists _, _.
      split; [reflexivity|]. split; [done|]. right. eauto 10. }
  eexists _, _. split; [reflexivity|]. split; [done|]. right. eauto 10.
Qed.
End process_uploaded_file_facts.

(** C8. A file whose extension (the lower-cased text after the last dot of
    its name) is none of pdf, docx, txt yields [None] and one reported
    "Unsupported file format" error; and whatever the input, when the
    document libraries fail only with [Exception]s, the function raises
    nothing: it returns a text, or [None] with the failure reported. *)
Theorem process_uploaded_file_unsupported
    (pdf_pages : string → result (list (result string)))
    (docx_paragraphs : string → result (list string))
    (decode_utf8 : string → result string) :
  (∀ (f : uploaded_file) (w : world),
     file_extension (name f) ≠ "pdf" →
     file_extension (name f) ≠ "docx" →
     file_extension (name f) ≠ "txt" →
     process_uploaded_file pdf_pages docx_paragraphs decode_utf8 (Some f) w
     = (Ok PNone,
        World (session w)
          (trace w ++ [StError ("Unsupported file format: "
                                ++ file_extension (name f))])))
  ∧ (∀ (uf : option uploaded_file) (w : world),
       (∀ f, uf = Some f →
          raises_only_Exception (pdf_pages (content f))
          ∧ (∀ pages, pdf_pages (content f) = Ok pages →
                      raises_only_Exception (concat_pages "" pages))
          ∧ raises_only_Exception (docx_paragraphs (content f))
          ∧ raises_only_Exception (decode_utf8 (content f))) →
       ∃ v w', process_uploaded_file pdf_pages docx_paragraphs decode_utf8 uf w
               = (Ok v, w')
             ∧ session w' = session w
             ∧ ((∃ text, v = PStr text ∧ w' = w)
                ∨ (v = PNone
                   ∧ (uf = None ∧ w' = w
                      ∨ ∃ msg : string,
                          trace w' = (trace w ++ [StError msg])%list))))
  ∧ (∀ pre suf : string, occurs "." suf = false →
       file_extension (pre ++ "." ++ suf) = lower suf).
Proof.
  split; [|split].
  - apply process_unsupported.
  - apply process_never_raises.
  - apply file_extension_after_last_dot.
Qed.

Lemma process_uploaded_file_unsupported_witness :
  process_uploaded_file (λ _, Ok []) (λ _, Ok []) (λ s, Ok s)
    (Some {| name := "Resume.CSV"; content := "a,b" |}) fresh_world
  = (Ok PNone, World ∅ [StError "Unsupported file format: csv"]).
Proof.
  destruct (process_uploaded_file_unsupported (λ _, Ok []) (λ _, Ok [])
              (λ s, Ok s)) as (H & _ & _).
  apply (H {| name := "Resume.CSV"; content := "a,b" |} fresh_world);
    vm_compute; discriminate.
Defined.

(** * Properties of the searching step *)

Lemma search_jobs_session json_dumps network self q w r w' :
  search_jobs json_dumps network self q w = (r, w') → session w' = session w.
Proof.
  unfold search_jobs, requests_post. io_unfold.
  destruct (_format_search_query q) as [aq|e]; [|by intros [= <- <-]].
  cbn [session trace].
  destruct (network _ _ _) as [resp|e].
  - destruct (negb _); cbn [session trace];
      destruct (raise_for_status _ _) as [[]|e];
      try destruct (json_body resp) as [j|e];
      try destruct (caught_by_except_Exception e);
      by intros [= <- <-].
  - destruct (caught_by_except_Exception e); by intros [= <- <-].
Qed.

Section main_step3_facts.
Variable json_dumps : gmap string pyval → string.
Variable network : nat → string → gmap string pyval → http_outcome.
Variable clicked : string → bool.

Lemma main_step3_searched key w analysis prefs :
  key ≠ "" →
  dict_get_or (session w) "resume_analysis" (PDict ∅) = PDict analysis →
  dict_get_or (session w) "job_preferences" (PDict ∅) = PDict prefs →
  main_step3 json_dumps network clicked key w
  = try_except
      (jobs ← search_jobs json_dumps network (JobMatcher_init key)
                (step3_query analysis prefs);
       if truthy jobs then
         set_session "jobs" jobs;; set_session "step" (PInt 4);; st_rerun
       else
         emit (StWarning no_jobs_warning);;
         adjust ← st_button clicked "Adjust Preferences";
         if (adjust : bool) then set_session "step" (PInt 2);; st_rerun
         else mret tt)
      (λ e,
         emit (StError ("Error during job search: " ++ exn_msg e));;
         emit (StInfo
           "Try simplifying your search criteria or check your API key.");;
         emit (StCode (exn_msg e)))
      (World (session w)
         (trace w ++ [StWrite "Debug - Search Query:"
                        (PDict (step3_query analysis prefs))])).
Proof.
  intros Hk%String.eqb_neq Ha Hp. unfold main_step3.
  cbn [truthy]. rewrite Hk. cbn [negb].
  unfold mbind at 1, io_mbind at 1, io_bind at 1, get_session at 1.
  cbv beta iota zeta. rewrite Ha, Hp.
  reflexivity.
Qed.

Lemma main_step3_outcome key w analysis prefs r1 w1 :
  key ≠ "" →
  dict_get_or (session w) "resume_analysis" (PDict ∅) = PDict analysis →
  dict_get_or (session w) "job_preferences" (PDict ∅) = PDict prefs →
  search_jobs json_dumps network (JobMatcher_init key)
    (step3_query analysis prefs)
    (World (session w)
       (trace w ++ [StWrite "Debug - Search Query:"
                      (PDict (step3_query analysis prefs))])) = (r1, w1) →
  main_step3 json_dumps network clicked key w
  = match r1 with
    | Ok jobs =>
        if truthy jobs then
          (Raise (Exn RerunException ""),
           World (<["step" := PInt 4]> (<["jobs" := jobs]> (session w)))
             (trace w1))
        else if clicked "Adjust Preferences" then
          (Raise (Exn RerunException ""),
           World (<["step" := PInt 2]> (session w))
             (trace w1 ++ [StWarning no_jobs_warning;
                           StButton "Adjust Preferences"]))
        else
          (Ok tt,
           World (session w)
             (trace w1 ++ [StWarning no_jobs_warning;
                           StButton "Adjust Preferences"]))
    | Raise e =>
        if caught_by_except_Exception e then
          (Ok tt,
           World (session w)
             (trace w1 ++ [StError ("Error during job search: " ++ exn_msg e);
                           StInfo "Try simplifying your search criteria or check your API key.";
                           StCode (exn_msg e)]))
        else (Raise e, w1)
    end.
Proof.
  intros Hk Ha Hp Hs.
  rewrite (main_step3_searched key w analysis prefs Hk Ha Hp).
  pose proof (search_jobs_session _ _ _ _ _ _ _ Hs) as Hsess.
  cbn [session] in Hsess.
  unfold try_except, st_button.
  unfold mbind at 1, io_mbind at 1, io_bind at 1. rewrite Hs.
  destruct w1 as [s1 t1]. cbn [session trace] in *. subst s1.
  destruct r1 as [jobs|e].
  - destruct (truthy jobs); [reflexivity|].
    io_unfold. cbn [session trace].
    destruct (clicked "Adjust Preferences"); cbn [session trace];
      rewrite <-?app_assoc; reflexivity.
  - destruct (caught_by_except_Exception e); [|reflexivity].
    io_unfold. cbn [session trace]. rewrite <-!app_assoc. reflexivity.
Qed.
End main_step3_facts.

(** C9. In a run of the searching step in which the job search returns no
    jobs (an empty list, or any falsy value), the session does not move to
    step 4: the warning and the "Adjust Preferences" button are all that is
    shown after the search, the session is left as it was unless that button
    was pressed, and then the step becomes 2. The step becomes 4 only when
    the search returned a truthy value, which for a list means at least one
    job. *)
Theorem main_step3_zero_jobs
    (json_dumps : gmap string pyval → string)
    (network : nat → string → gmap string pyval → http_outcome)
    (clicked : string → bool) (key : string) (w : world)
    (analysis prefs : gmap string pyval) (r1 : result pyval) (w1 : world) :
  session w !! "step" = Some (PInt 3) →
  key ≠ "" →
  dict_get_or (session w) "resume_analysis" (PDict ∅) = PDict analysis →
  dict_get_or (session w) "job_preferences" (PDict ∅) = PDict prefs →
  search_jobs json_dumps network (JobMatcher_init key)
    (step3_query analysis prefs)
    (World (session w)
       (trace w ++ [StWrite "Debug - Search Query:"
                      (PDict (step3_query analysis prefs))])) = (r1, w1) →
  let run := main_step3 json_dumps network clicked key w in
  (∀ jobs, r1 = Ok jobs → truthy jobs = false →
     session run.2 !! "step" ≠ Some (PInt 4)
     ∧ trace run.2 = (trace w1 ++ [StWarning no_jobs_warning;
                                   StButton "Adjust Preferences"])%list
     ∧ (clicked "Adjust Preferences" = false →
          run.1 = Ok tt ∧ session run.2 = session w)
     ∧ (clicked "Adjust Preferences" = true →
          run.1 = Raise (Exn RerunException "")
          ∧ session run.2 = <["step" := PInt 2]> (session w)))
  ∧ (session run.2 !! "step" = Some (PInt 4) →
       ∃ jobs, r1 = Ok jobs ∧ truthy jobs = true
               ∧ (∀ l, jobs = PList l → l ≠ [])).
Proof.
  intros Hstep Hk Ha Hp Hs run. subst run.
  rewrite (main_step3_outcome json_dumps network clicked key w analysis prefs
             r1 w1 Hk Ha Hp Hs).
  pose proof (search_jobs_session _ _ _ _ _ _ _ Hs) as Hsess.
  cbn [session] in Hsess.
  split.
  - intros jobs -> Hj. rewrite Hj.
    destruct (clicked "Adjust Preferences"); cbn [fst snd session trace].
    + rewrite lookup_insert_eq. repeat split; (done || by intros [=]).
    + rewrite Hstep. repeat split; (done || by intros [=]).
  - destruct r1 as [jobs|e].
    + destruct (truthy jobs) eqn:Hj.
      * intros _. exists jobs. split; [done|]. split; [done|].
        intros l ->. by destruct l.
      * destruct (clicked "Adjust Preferences"); cbn [snd session];
          [rewrite lookup_insert_eq|rewrite Hstep]; by intros [=].
    + destruct (caught_by_except_Exception e); cbn [snd session];
        rewrite ?Hsess, Hstep; by intros [=].
Qed.

Example format_default_query :
  _format_search_query (step3_query ∅ ∅) = Ok default_api_query.
Proof. unfold _format_search_query. eval_dict_get. reflexivity. Qed.

Lemma main_step3_zero_jobs_witness :
  session (main_step3 (λ _, "") (always no_jobs) (λ _, false) "key"
             searching_world).2 !! "step" ≠ Some (PInt 4).
Proof.
  eapply (main_step3_zero_jobs (λ _, "") (always no_jobs) (λ _, false) "key"
            searching_world ∅ ∅ (Ok (PList []))).
  - reflexivity.
  - discriminate.
  - reflexivity.
  - reflexivity.
  - apply (search_jobs_other_status _ _ _ _ default_api_query _ no_jobs);
      [exact format_default_query|reflexivity|simpl; lia|reflexivity].
  - reflexivity.
  - reflexivity.
Defined.

(** * Rounding to binary64 *)
Module B64_facts.
Import B64.
Local Open Scope Q_scope.

Lemma pow2_pos (e : Z) : 0 < pow2 e.
Proof. apply Qpower_0_lt. reflexivity. Qed.

Lemma pow2_add (a b : Z) : pow2 (a + b) == pow2 a * pow2 b.
Proof. apply Qpower_plus. discriminate. Qed.

Lemma pow2_succ (a : Z) : pow2 (a + 1) == 2 * pow2 a.
Proof. rewrite pow2_add. unfold pow2 at 2. simpl. ring. Qed.

Lemma pow2_le (a b : Z) : (a <= b)%Z → pow2 a <= pow2 b.
Proof. intros H. apply Qpower_le_compat_l; [exact H|discriminate]. Qed.

Lemma pow2_lt (a b : Z) : (a < b)%Z → pow2 a < pow2 b.
Proof. intros H. apply Qpower_lt_compat_l; [exact H|reflexivity]. Qed.

Lemma pow2_lt_inv (a b : Z) : pow2 a < pow2 b → (a < b)%Z.
Proof. intros H. apply (Qpower_lt_compat_l_inv (2 # 1)); [exact H|reflexivity]. Qed.

Lemma pow2_inject (n : Z) : (0 <= n)%Z → pow2 n == inject_Z (2 ^ n).
Proof. intros H. unfold pow2. by rewrite (Zpower_Qpower 2 n H). Qed.

Lemma pow2_sub (a b : Z) : pow2 (a - b) == pow2 a / pow2 b.
Proof.
  unfold Z.sub. rewrite pow2_add. unfold pow2 at 2. rewrite Qpower_opp.
  reflexivity.
Qed.

(** [ilog2 q] is the binary order of magnitude of a positive [q]. *)
Lemma ilog2_spec (q : Q) :
  0 < q → pow2 (ilog2 q) <= q ∧ q < pow2 (ilog2 q + 1).
Proof.
  intros Hq. unfold ilog2.
  destruct q as [n d]. cbn [Qnum Qden].
  assert (Hn : (0 < n)%Z).
  { unfold Qlt in Hq. simpl in Hq. lia. }
  set (a := Z.log2 n). set (b := Z.log2 (Zpos d)).
  destruct (Z.log2_spec n Hn) as [Ha1 Ha2]. fold a in Ha1, Ha2.
  destruct (Z.log2_spec (Zpos d) eq_refl) as [Hb1 Hb2]. fold b in Hb1, Hb2.
  assert (Ha0 : (0 <= a)%Z) by apply Z.log2_nonneg.
  assert (Hb0 : (0 <= b)%Z) by apply Z.log2_nonneg.
  assert (HA := pow2_inject a Ha0). assert (HB := pow2_inject b Hb0).
  assert (HA1 := pow2_succ a). assert (HB1 := pow2_succ b).
  assert (HPa := pow2_pos a). assert (HPb := pow2_pos b).
  assert (Hq' : n # d == inject_Z n / inject_Z (Zpos d)) by apply Qmake_Qdiv.
  assert (Hd : 0 < inject_Z (Zpos d)) by reflexivity.
  assert (HnA : pow2 a <= inject_Z n).
  { rewrite HA. by rewrite <-Zle_Qle. }
  assert (HnA' : inject_Z n < 2 * pow2 a).
  { rewrite <-HA1, pow2_inject by lia. by rewrite <-Zlt_Qlt. }
  assert (HdB : pow2 b <= inject_Z (Zpos d)).
  { rewrite HB. by rewrite <-Zle_Qle. }
  assert (HdB' : inject_Z (Zpos d) < 2 * pow2 b).
  { rewrite <-HB1, pow2_inject by lia. by rewrite <-Zlt_Qlt. }
  assert (Hlo : pow2 (a - b - 1) <= n # d).
  { rewrite Hq'. apply Qle_shift_div_l; [exact Hd|].
    assert (HP := pow2_pos (a - b - 1)).
    assert (HPe : pow2 (a - b - 1) * (2 * pow2 b) == pow2 a).
    { rewrite <-HB1, <-pow2_add. by replace (a - b - 1 + (b + 1))%Z with a by lia. }
    nra. }
  assert (Hhi : n # d < pow2 (a - b + 1)).
  { rewrite Hq'. apply Qlt_shift_div_r; [exact Hd|].
    assert (HP := pow2_pos (a - b + 1)).
    assert (HPe : pow2 (a - b + 1) * pow2 b == 2 * pow2 a).
    { rewrite <-HA1, <-pow2_add. by replace (a - b + 1 + b)%Z with (a + 1)%Z by lia. }
    nra. }
  destruct (Qle_bool (pow2 (a - b)) (n # d)) eqn:Hc.
  - apply Qle_bool_iff in Hc. split; [exact Hc|exact Hhi].
  - split; [exact Hlo|].
    replace (a - b - 1 + 1)%Z with (a - b)%Z by lia.
    apply Qnot_le_lt. intros Hle. apply Qle_bool_iff in Hle. congruence.
Qed.

Lemma ilog2_unique (q : Q) (k : Z) :
  pow2 k <= q → q < pow2 (k + 1) → ilog2 q = k.
Proof.
  intros Hlo Hhi.
  assert (Hq : 0 < q) by (pose proof (pow2_pos k); lra).
  destruct (ilog2_spec q Hq) as [Hl Hh].
  assert (ilog2 q < k + 1)%Z by (apply pow2_lt_inv; lra).
  assert (k < ilog2 q + 1)%Z by (apply pow2_lt_inv; lra).
  lia.
Qed.

Lemma ilog2_mono (q q' : Q) : 0 < q → q <= q' → (ilog2 q <= ilog2 q')%Z.
Proof.
  intros Hq Hle.
  destruct (ilog2_spec q Hq) as [Hl _].
  destruct (ilog2_spec q' ltac:(lra)) as [_ Hh].
  assert (ilog2 q < ilog2 q' + 1)%Z by (apply pow2_lt_inv; lra).
  lia.
Qed.

(** ** Rounding to an integer *)

Lemma round_half_even_cases (q : Q) :
  let f := Qfloor q in
  inject_Z f <= q ∧ q < inject_Z f + 1
  ∧ ((q - inject_Z f < 1 # 2 ∧ round_half_even q = f)
     ∨ (q - inject_Z f == 1 # 2
        ∧ round_half_even q = (if Z.even f then f else f + 1)%Z)
     ∨ (1 # 2 < q - inject_Z f ∧ round_half_even q = (f + 1)%Z)).
Proof.
  intros f. split; [apply Qfloor_le|]. split.
  { pose proof (Qlt_floor q) as H. rewrite inject_Z_plus in H. exact H. }
  unfold round_half_even. fold f.
  destruct (Qcompare_spec (q - inject_Z f) (1 # 2)); auto.
Qed.

Lemma round_half_even_near (q : Q) :
  inject_Z (round_half_even q) - (1 # 2) <= q
  ∧ q <= inject_Z (round_half_even q) + (1 # 2).
Proof.
  destruct (round_half_even_cases q) as (Hlo & Hhi & [[Hc ->]|[[Hc ->]|[Hc ->]]]).
  - lra.
  - destruct (Z.even _); rewrite ?inject_Z_plus; change (inject_Z 1) with 1; lra.
  - rewrite inject_Z_plus. change (inject_Z 1) with 1. lra.
Qed.

Lemma round_half_even_mono (q q' : Q) :
  q <= q' → (round_half_even q <= round_half_even q')%Z.
Proof.
  intros Hle.
  pose proof (Qfloor_resp_le q q' Hle) as Hf.
  destruct (round_half_even_cases q) as (Hlo & Hhi & Hq).
  destruct (round_half_even_cases q') as (Hlo' & Hhi' & Hq').
  destruct (Z.eq_dec (Qfloor q) (Qfloor q')) as [He|Hne].
  - rewrite He in *.
    destruct Hq as [[Hc ->]|[[Hc ->]|[Hc ->]]];
      destruct Hq' as [[Hc' ->]|[[Hc' ->]|[Hc' ->]]];
      try destruct (Z.even _); try lia; exfalso; lra.
  - assert (Qfloor q + 1 <= Qfloor q')%Z by lia.
    assert (round_half_even q <= Qfloor q + 1)%Z.
    { destruct Hq as [[_ ->]|[[_ ->]|[_ ->]]]; try destruct (Z.even (Qfloor q)); lia. }
    assert (Qfloor q' <= round_half_even q')%Z.
    { destruct Hq' as [[_ ->]|[[_ ->]|[_ ->]]]; try destruct (Z.even (Qfloor q')); lia. }
    lia.
Qed.

Lemma round_half_even_Z (z : Z) : round_half_even (inject_Z z) = z.
Proof.
  destruct (round_half_even_cases (inject_Z z)) as (_ & _ & H).
  rewrite Qfloor_Z in H.
  destruct H as [[_ ->]|[[Hc _]|[Hc _]]]; [done|lra|lra].
Qed.

Lemma round_half_even_Qeq (q q' : Q) :
  q == q' → round_half_even q = round_half_even q'.
Proof.
  intros H. apply Z.le_antisymm; apply round_half_even_mono; lra.
Qed.

Lemma round_half_even_nonneg (q : Q) : 0 <= q → (0 <= round_half_even q)%Z.
Proof.
  intros H. rewrite <-(round_half_even_Z 0). by apply round_half_even_mono.
Qed.

(** ** The value of a rounded rational *)

Lemma Qdiv_le_compat (a b c : Q) : 0 < c → a <= b → a / c <= b / c.
Proof.
  intros Hc Hab. apply Qle_shift_div_l; [exact Hc|].
  assert (Hx : a / c * c == a) by (field; lra). by rewrite Hx.
Qed.

Lemma expo_ge_emin (q : Q) : (emin <= expo q)%Z.
Proof. unfold expo. lia. Qed.

Lemma expo_mono (q q' : Q) : 0 < q → q <= q' → (expo q <= expo q')%Z.
Proof.
  intros Hq Hle. unfold expo. pose proof (ilog2_mono q q' Hq Hle). lia.
Qed.

(** The scaled mantissa has at most 53 bits before rounding. *)
Lemma scaled_lt (q : Q) : 0 < q → q / pow2 (expo q) < pow2 prec.
Proof.
  intros Hq. destruct (ilog2_spec q Hq) as [_ Hh].
  apply Qlt_shift_div_r; [apply pow2_pos|].
  rewrite <-pow2_add.
  assert (ilog2 q + 1 <= prec + expo q)%Z by (unfold expo, prec; lia).
  pose proof (pow2_le _ _ H). lra.
Qed.

(** In the normal range it has exactly 53 bits. *)
Lemma scaled_ge (q : Q) :
  0 < q → (emin < expo q)%Z → pow2 (prec - 1) <= q / pow2 (expo q).
Proof.
  intros Hq He. destruct (ilog2_spec q Hq) as [Hl _].
  apply Qle_shift_div_l; [apply pow2_pos|].
  rewrite <-pow2_add.
  assert (prec - 1 + expo q = ilog2 q)%Z as -> by (unfold expo, prec in *; lia).
  exact Hl.
Qed.

Lemma mantissa_le (q : Q) :
  0 < q → (round_half_even (q / pow2 (expo q)) <= 2 ^ prec)%Z.
Proof.
  intros Hq. rewrite <-(round_half_even_Z (2 ^ prec)).
  apply round_half_even_mono. rewrite <-pow2_inject by done.
  apply Qlt_le_weak. by apply scaled_lt.
Qed.

Lemma mantissa_ge (q : Q) :
  0 < q → (emin < expo q)%Z →
  (2 ^ (prec - 1) <= round_half_even (q / pow2 (expo q)))%Z.
Proof.
  intros Hq He. rewrite <-(round_half_even_Z (2 ^ (prec - 1))).
  apply round_half_even_mono. rewrite <-pow2_inject by done.
  by apply scaled_ge.
Qed.

Lemma round_val_nonneg (q : Q) : 0 <= q → 0 <= round_val q.
Proof.
  intros Hq. unfold round_val.
  assert (0 <= q / pow2 (expo q)).
  { apply Qle_shift_div_l; [apply pow2_pos|]. lra. }
  pose proof (round_half_even_nonneg _ H) as Hm.
  rewrite Zle_Qle in Hm. change (inject_Z 0) with 0 in Hm.
  pose proof (pow2_pos (expo q)).
  apply Qmult_le_0_compat; lra.
Qed.

Lemma round_val_zero (q : Q) : q == 0 → round_val q == 0.
Proof.
  intros Hq. unfold round_val.
  rewrite (round_half_even_Qeq _ 0).
  - change (round_half_even 0) with 0%Z. ring.
  - generalize (expo q). intros e. rewrite Hq. field.
    pose proof (pow2_pos e). lra.
Qed.

(** Rounding is monotone. *)
Lemma round_val_mono (q q' : Q) :
  0 <= q → q <= q' → round_val q <= round_val q'.
Proof.
  intros Hq0 Hle.
  destruct (Qlt_le_dec 0 q) as [Hq|Hq].
  2: { rewrite (round_val_zero q) by lra. apply round_val_nonneg. lra. }
  assert (Hq' : 0 < q') by lra.
  pose proof (expo_mono q q' Hq Hle) as He.
  pose proof (pow2_pos (expo q)) as Hp. pose proof (pow2_pos (expo q')) as Hp'.
  unfold round_val.
  destruct (Z.eq_dec (expo q) (expo q')) as [Heq|Hne].
  - rewrite <-Heq.
    assert (Hm : (round_half_even (q / pow2 (expo q))
                  <= round_half_even (q' / pow2 (expo q)))%Z).
    { apply round_half_even_mono. by apply Qdiv_le_compat. }
    rewrite Zle_Qle in Hm. nra.
  - assert (Hlt : (expo q < expo q')%Z) by lia.
    pose proof (mantissa_le q Hq) as Hm. rewrite Zle_Qle in Hm.
    rewrite <-pow2_inject in Hm by done.
    pose proof (expo_ge_emin q).
    pose proof (mantissa_ge q' Hq' ltac:(lia)) as Hm'. rewrite Zle_Qle in Hm'.
    rewrite <-pow2_inject in Hm' by done.
    assert (Hpp : pow2 prec * pow2 (expo q) <= pow2 (prec - 1) * pow2 (expo q')).
    { rewrite <-!pow2_add. apply pow2_le. unfold prec. lia. }
    pose proof (pow2_pos prec). pose proof (pow2_pos (prec - 1)).
    nra.
Qed.

Lemma round_val_Qeq (q q' : Q) : 0 <= q → q == q' → round_val q == round_val q'.
Proof.
  intros Hq He. apply Qle_antisym; apply round_val_mono; lra.
Qed.

(** ** The floats that the operations return *)

Lemma expo_le_safe (q : Q) : 0 < q → q < safe → (expo q <= emax - 1)%Z.
Proof.
  intros Hq Hs. destruct (ilog2_spec q Hq) as [Hl _].
  assert (ilog2 q < 1023)%Z by (apply pow2_lt_inv; unfold safe in Hs; lra).
  unfold expo, prec, emin, emax. lia.
Qed.

Lemma round_pos_spec (s : bool) (q : Q) :
  0 < q → q < safe →
  F2Q (round_pos s q) == (if s then - round_val q else round_val q)
  ∧ (round_pos s q = S754_zero s ∨ ∃ m e, round_pos s q = S754_finite s m e).
Proof.
  intros Hq Hs. pose proof (expo_le_safe q Hq Hs) as He.
  assert (Hm0 : (0 <= round_half_even (q / pow2 (expo q)))%Z).
  { apply round_half_even_nonneg. apply Qle_shift_div_l; [apply pow2_pos|lra]. }
  unfold round_pos, round_val.
  destruct (Z.eqb_spec (round_half_even (q / pow2 (expo q))) (2 ^ prec)) as [->|Hne].
  - change (2 ^ (prec - 1))%Z with (Zpos 4503599627370496).
    destruct (Z.gtb_spec (expo q + 1) emax) as [Hgt|_]; [lia|].
    split; [|right; by eexists _, _].
    cbn [F2Q]. rewrite pow2_succ.
    change (inject_Z (2 ^ prec)) with (2 * inject_Z (Zpos 4503599627370496)).
    destruct s; ring.
  - destruct (round_half_even (q / pow2 (expo q))) as [|p|p] eqn:Hm; [| |lia].
    + split; [|by left]. cbn [F2Q]. change (inject_Z 0) with 0.
      destruct s; ring.
    + destruct (Z.gtb_spec (expo q) emax) as [Hgt|_]; [lia|].
      split; [|right; by eexists _, _]. cbn [F2Q]. destruct s; ring.
Qed.

Lemma round_spec (q : Q) :
  0 <= q → q < safe → F2Q (round q) == round_val q ∧ nonneg (round q).
Proof.
  intros Hq Hs. unfold round, nonneg.
  destruct (Qcompare_spec q 0) as [He|Hlt|Hgt].
  - split; [|by left]. by rewrite round_val_zero.
  - lra.
  - apply (round_pos_spec false q Hgt Hs).
Qed.

Lemma F2Q_nonneg (x : spec_float) : nonneg x → 0 <= F2Q x.
Proof.
  intros [->|(m & e & ->)]; cbn [F2Q]; [lra|].
  pose proof (pow2_pos e). assert (0 < inject_Z (Zpos m)) by reflexivity. nra.
Qed.

Lemma mul_spec (x y : spec_float) :
  nonneg x → nonneg y → F2Q x * F2Q y < safe →
  F2Q (mul x y) == round_val (F2Q x * F2Q y) ∧ nonneg (mul x y).
Proof.
  intros [->|(mx & ex & ->)] [->|(my & ey & ->)] Hs.
  - split; [|by left]. cbn [F2Q mul SFmul xorb]. rewrite round_val_zero; lra.
  - split; [|by left]. cbn [F2Q mul SFmul xorb]. rewrite round_val_zero; lra.
  - split; [|by left]. cbn [F2Q mul SFmul xorb]. rewrite round_val_zero; lra.
  - cbn [mul xorb].
    assert (Hv : inject_Z (Zpos (mx * my)) * pow2 (ex + ey)
                 == F2Q (S754_finite false mx ex) * F2Q (S754_finite false my ey)).
    { cbn [F2Q]. rewrite pow2_add. rewrite Pos2Z.inj_mul, inject_Z_mult. ring. }
    assert (Hpos : 0 < inject_Z (Zpos (mx * my)) * pow2 (ex + ey)).
    { pose proof (pow2_pos (ex + ey)).
      assert (0 < inject_Z (Zpos (mx * my))) by reflexivity. nra. }
    destruct (round_pos_spec false _ Hpos ltac:(lra)) as [Hval Hform].
    split; [|exact Hform]. rewrite Hval.
    apply round_val_Qeq; [lra|exact Hv].
Qed.

Lemma round2_spec (x : spec_float) :
  nonneg x → F2Q x * 100 + 1 < safe * 100 →
  F2Q (round2 x)
    == round_val (inject_Z (round_half_even (F2Q x * 100)) / 100)
  ∧ nonneg (round2 x)
  ∧ round2 x = of_hundredths (round_half_even (F2Q x * 100)).
Proof.
  intros Hx Hs. pose proof (F2Q_nonneg x Hx) as H0.
  destruct Hx as [->|(m & e & ->)].
  - cbn [round2 F2Q].
    rewrite (round_half_even_Qeq (0 * 100) 0) by ring.
    change (round_half_even 0) with 0%Z.
    split; [|split; [by left|reflexivity]].
    rewrite round_val_zero; [reflexivity|]. reflexivity.
  - set (x := S754_finite false m e) in *. unfold round2. fold x.
    cbv match beta.
    rewrite (round_half_even_Qeq (Qabs (F2Q x) * 100) (F2Q x * 100))
      by (rewrite Qabs_pos; [reflexivity|exact H0]).
    set (k := round_half_even (F2Q x * 100)).
    assert (Hk0 : (0 <= k)%Z) by (apply round_half_even_nonneg; lra).
    destruct (round_half_even_near (F2Q x * 100)) as [Hk1 _]. fold k in Hk1.
    destruct k as [|p|p] eqn:Hk; [| |lia].
    + split; [|split; [by left|reflexivity]].
      cbn [F2Q]. rewrite round_val_zero; reflexivity.
    + assert (Hpos : 0 < inject_Z (Zpos p) / 100).
      { apply Qlt_shift_div_l; [reflexivity|]. reflexivity. }
      assert (Hsafe : inject_Z (Zpos p) / 100 < safe).
      { apply Qlt_shift_div_r; [reflexivity|]. lra. }
      destruct (round_pos_spec false _ Hpos Hsafe) as [Hval Hform].
      split; [exact Hval|split; [exact Hform|]].
      unfold of_hundredths, round.
      destruct (Qcompare_spec (inject_Z (Zpos p) / 100) 0); [lra|lra|reflexivity].
Qed.

(** ** Agreement with the Standard Library's binary64 operations

    On sample inputs the operations above return what [SFdiv] and [SFmul],
    the library's executable specification of IEEE 754 arithmetic, return. *)

Example int_truediv_agrees :
  Forall (λ '(a, b), int_truediv a b
                     = SFdiv prec 1024 (float_of_Z a) (float_of_Z b))
    [(2, 3); (1, 3); (1, 800); (7, 800); (3, 32); (5, 7); (999, 1000);
     (1, 1); (0, 5); (123456789, 987654321)]%Z.
Proof. repeat constructor. Qed.

Example mul_agrees :
  Forall (λ '(a, b), mul (int_truediv a b) (float_of_Z 100)
                     = SFmul prec 1024 (int_truediv a b) (float_of_Z 100))
    [(2, 3); (1, 3); (1, 800); (7, 800); (3, 32); (5, 7); (999, 1000);
     (1, 1); (0, 5); (123456789, 987654321)]%Z.
Proof. repeat constructor. Qed.

Example of_hundredths_agrees :
  Forall (λ k, of_hundredths k
               = SFdiv prec 1024 (float_of_Z k) (float_of_Z 100))
    [6667; 3333; 12; 88; 938; 7143; 9990; 10000; 0; 1]%Z.
Proof. repeat constructor. Qed.

Example float_of_Z_agrees :
  Forall (λ z, float_of_Z z = binary_normalize prec 1024 z 0 false)
    [0; 1; 2; 3; 100; 6667; 10000; 9007199254740993]%Z.
Proof. repeat constructor. Qed.

(** ** The arithmetic of the match score *)

Lemma round_val_1 : round_val 1 == 1.
Proof. vm_compute. reflexivity. Qed.

Lemma round_val_100 : round_val 100 == 100.
Proof. vm_compute. reflexivity. Qed.

Lemma float_of_Z_100 : float_of_Z 100 = S754_finite false 7036874417766400 (-46).
Proof. vm_compute. reflexivity. Qed.

Lemma F2Q_100 : F2Q (float_of_Z 100) == 100.
Proof. vm_compute. reflexivity. Qed.

Lemma safe_large : 20000 < safe.
Proof.
  unfold safe. pose proof (pow2_lt 15 1023 eq_refl) as H.
  assert (20000 < pow2 15) by (vm_compute; reflexivity). lra.
Qed.

Lemma ratio_bounds (i r : Z) :
  (0 <= i <= r)%Z → (0 < r)%Z →
  0 <= inject_Z i / inject_Z r ∧ inject_Z i / inject_Z r <= 1.
Proof.
  intros [Hi Hir] Hr.
  rewrite Zle_Qle in Hi, Hir. rewrite Zlt_Qlt in Hr.
  change (inject_Z 0) with 0 in *.
  split.
  - apply Qle_shift_div_l; lra.
  - apply Qle_shift_div_r; lra.
Qed.

Section score.
Variables i r : Z.
Hypothesis Hi : (0 <= i <= r)%Z.
Hypothesis Hr : (0 < r)%Z.

Let v1 := round_val (inject_Z i / inject_Z r).
Let v2 := round_val (v1 * 100).

Lemma quotient_val_bounds : 0 <= v1 ∧ v1 <= 1.
Proof.
  destruct (ratio_bounds i r Hi Hr) as [H0 H1]. subst v1. split.
  - by apply round_val_nonneg.
  - pose proof round_val_1 as E.
    pose proof (round_val_mono _ 1 H0 H1). lra.
Qed.

Lemma percent_val_bounds : 0 <= v2 ∧ v2 <= 100.
Proof.
  destruct quotient_val_bounds as [H0 H1]. subst v2. split.
  - apply round_val_nonneg. lra.
  - pose proof round_val_100 as E.
    assert (round_val (v1 * 100) <= round_val 100)
      by (apply round_val_mono; lra).
    lra.
Qed.

Lemma score_hundredths_bounds : (0 <= score_hundredths i r <= 10000)%Z.
Proof.
  destruct percent_val_bounds as [H0 H1]. unfold score_hundredths.
  fold v1. fold v2. split.
  - apply round_half_even_nonneg. lra.
  - rewrite <-(round_half_even_Z 10000). apply round_half_even_mono.
    change (inject_Z 10000) with 10000. lra.
Qed.

(** What the three float operations of the score return. *)
Lemma score_float :
  round2 (mul (int_truediv i r) (float_of_Z 100))
  = of_hundredths (score_hundredths i r)
  ∧ nonneg (of_hundredths (score_hundredths i r))
  ∧ F2Q (of_hundredths (score_hundredths i r))
    == round_val (inject_Z (score_hundredths i r) / 100).
Proof.
  destruct (ratio_bounds i r Hi Hr) as [Hq0 Hq1].
  destruct quotient_val_bounds as [Hv0 Hv1].
  destruct percent_val_bounds as [Hp0 Hp1].
  pose proof safe_large as Hsafe.
  destruct (round_spec (inject_Z i / inject_Z r) Hq0 ltac:(lra))
    as [Hx1 Hn1]. fold (int_truediv i r) in Hx1, Hn1. fold v1 in Hx1.
  assert (Hn100 : nonneg (float_of_Z 100)).
  { right. rewrite float_of_Z_100. by eexists _, _. }
  destruct (mul_spec (int_truediv i r) (float_of_Z 100) Hn1 Hn100)
    as [Hx2 Hn2].
  { rewrite Hx1, F2Q_100. lra. }
  assert (Hx2' : F2Q (mul (int_truediv i r) (float_of_Z 100)) == v2).
  { rewrite Hx2. subst v2. apply round_val_Qeq.
    - rewrite Hx1, F2Q_100. lra.
    - by rewrite Hx1, F2Q_100. }
  destruct (round2_spec _ Hn2) as (Hx3 & Hn3 & He3).
  { rewrite Hx2'. lra. }
  assert (Hk : round_half_even
                 (F2Q (mul (int_truediv i r) (float_of_Z 100)) * 100)
               = score_hundredths i r).
  { unfold score_hundredths. fold v1. fold v2.
    apply round_half_even_Qeq. by rewrite Hx2'. }
  rewrite Hk in *. rewrite <-He3. auto.
Qed.
End score.

(** More matches never lower the score. *)
Lemma score_hundredths_mono (i i' r : Z) :
  (0 <= i <= i')%Z → (0 < r)%Z →
  (score_hundredths i r <= score_hundredths i' r)%Z.
Proof.
  intros [Hi Hii] Hr. unfold score_hundredths.
  rewrite Zle_Qle in Hi, Hii. rewrite Zlt_Qlt in Hr.
  change (inject_Z 0) with 0 in *.
  assert (H0 : 0 <= inject_Z i / inject_Z r) by (apply Qle_shift_div_l; lra).
  assert (Hq : inject_Z i / inject_Z r <= inject_Z i' / inject_Z r)
    by (by apply Qdiv_le_compat).
  pose proof (round_val_mono _ _ H0 Hq) as H1.
  pose proof (round_val_nonneg _ H0) as H1'.
  apply round_half_even_mono.
  assert (H2 : round_val (round_val (inject_Z i / inject_Z r) * 100)
               <= round_val (round_val (inject_Z i' / inject_Z r) * 100)).
  { apply round_val_mono; lra. }
  lra.
Qed.

Lemma of_hundredths_mono (k k' : Z) :
  (0 <= k <= k')%Z →
  round_val (inject_Z k / 100) <= round_val (inject_Z k' / 100).
Proof.
  intros [Hk Hkk]. rewrite Zle_Qle in Hk, Hkk.
  change (inject_Z 0) with 0 in *.
  apply round_val_mono; [|by apply Qdiv_le_compat].
  apply Qle_shift_div_l; [reflexivity|lra].
Qed.

(** ** How far a rounded value is from the exact one *)

(** Half a unit in the last place, relative to the value: [2^-53]. *)
Lemma round_val_error (q : Q) :
  pow2 (-1021) <= q →
  round_val q - q <= q * (1 # 9007199254740992)
  ∧ q - round_val q <= q * (1 # 9007199254740992).
Proof.
  intros Hn. assert (Hq : 0 < q) by (pose proof (pow2_pos (-1021)); lra).
  destruct (ilog2_spec q Hq) as [_ Hh].
  assert (Hlog : (-1021 < ilog2 q + 1)%Z) by (apply pow2_lt_inv; lra).
  assert (He : (emin < expo q)%Z) by (unfold expo, prec, emin; lia).
  pose proof (scaled_ge q Hq He) as Hs.
  pose proof (pow2_pos (expo q)) as HP.
  destruct (round_half_even_near (q / pow2 (expo q))) as [Hlo Hhi].
  unfold round_val.
  set (m := inject_Z (round_half_even (q / pow2 (expo q)))) in *.
  set (P := pow2 (expo q)) in *.
  assert (Hqs : q == q / P * P) by (field; lra).
  set (s := q / P) in *.
  assert (HT : pow2 (prec - 1) == 4503599627370496) by (vm_compute; reflexivity).
  rewrite HT in Hs. clearbody s m P.
  assert (H1 : (m - s) * P <= (1 # 2) * P) by nra.
  assert (H2 : (s - m) * P <= (1 # 2) * P) by nra.
  assert (H3 : 4503599627370496 * P <= s * P) by nra.
  split; lra.
Qed.

(** The score in hundredths is a rounding of the exact percentage to two
    decimal places, for any set of fewer than 10^11 required skills. *)
Lemma score_hundredths_rounds (i r : Z) :
  (0 <= i <= r)%Z → (0 < r < 10 ^ 11)%Z →
  (2 * Z.abs (score_hundredths i r * r - 10000 * i) <= r)%Z.
Proof.
  intros [Hi Hir] [Hr Hbig].
  destruct (Z.eq_dec i 0%Z) as [->|Hne].
  { unfold score_hundredths.
    assert (Hz : round_half_even
                   (round_val (round_val (inject_Z 0 / inject_Z r) * 100) * 100)
                 = 0%Z).
    { rewrite <-(round_half_even_Z 0). apply round_half_even_Qeq.
      change (inject_Z 0) with 0.
      assert (E1 : round_val (0 / inject_Z r) == 0).
      { apply round_val_zero. field. rewrite Zlt_Qlt in Hr.
        change (inject_Z 0) with 0 in Hr. lra. }
      assert (E2 : round_val (round_val (0 / inject_Z r) * 100) == 0).
      { apply round_val_zero. rewrite E1. ring. }
      rewrite E2. ring. }
    rewrite Hz. lia. }
  assert (Hi1 : (1 <= i)%Z) by lia.
  unfold score_hundredths.
  set (q := inject_Z i / inject_Z r).
  set (v1 := round_val q). set (v2 := round_val (v1 * 100)).
  set (k := round_half_even (v2 * 100)).
  rewrite Zle_Qle in Hi1, Hir. rewrite Zlt_Qlt in Hr, Hbig.
  change (inject_Z 1) with 1 in Hi1. change (inject_Z 0) with 0 in Hr.
  change (inject_Z (10 ^ 11)) with 100000000000 in Hbig.
  set (I := inject_Z i) in *. set (R := inject_Z r) in *.
  assert (HqR : q * R == I) by (subst q; field; lra).
  assert (Hq1 : q <= 1) by (subst q; apply Qle_shift_div_r; lra).
  assert (Hqlo : 1 # 100000000000 <= q).
  { subst q. apply Qle_shift_div_l; [lra|]. lra. }
  assert (Hsmall : pow2 (-1021) <= 1 # 200000000000).
  { pose proof (pow2_le (-1021) (-40) ltac:(lia)).
    assert (pow2 (-40) <= 1 # 200000000000) by (vm_compute; discriminate).
    lra. }
  destruct (round_val_error q ltac:(lra)) as [Ha1 Ha2]. fold v1 in Ha1, Ha2.
  destruct (round_val_error (v1 * 100) ltac:(lra)) as [Hb1 Hb2].
  fold v2 in Hb1, Hb2.
  destruct (round_half_even_near (v2 * 100)) as [Hk1 Hk2]. fold k in Hk1, Hk2.
  set (K := inject_Z k) in *.
  assert (HX1 : K - 10000 * q <= (1 # 2) + (1 # 400000000000)) by lra.
  assert (HX2 : 10000 * q - K <= (1 # 2) + (1 # 400000000000)) by lra.
  assert (Hup : (K - 10000 * q) * R <= ((1 # 2) + (1 # 400000000000)) * R)
    by (apply Qmult_le_compat_r; lra).
  assert (Hdn : (10000 * q - K) * R <= ((1 # 2) + (1 # 400000000000)) * R)
    by (apply Qmult_le_compat_r; lra).
  assert (Hlt1 : inject_Z (2 * (k * r - 10000 * i)) < inject_Z (r + 1)).
  { unfold Z.sub. rewrite !inject_Z_mult, !inject_Z_plus, inject_Z_opp, !inject_Z_mult.
    fold K R I. change (inject_Z 2) with 2. change (inject_Z 10000) with 10000.
    change (inject_Z 1) with 1. lra. }
  assert (Hlt2 : inject_Z (2 * (10000 * i - k * r)) < inject_Z (r + 1)).
  { unfold Z.sub. rewrite !inject_Z_mult, !inject_Z_plus, inject_Z_opp, !inject_Z_mult.
    fold K R I. change (inject_Z 2) with 2. change (inject_Z 10000) with 10000.
    change (inject_Z 1) with 1. lra. }
  rewrite <-Zlt_Qlt in Hlt1, Hlt2. lia.
Qed.
End B64_facts.

(** * Properties of the match score *)

Lemma hash_all_Ok (l : list pyval) (ks : list hkey) :
  hash_all l = Ok ks ↔ Forall2 (λ v k, hash_key v = Ok k) l ks.
Proof.
  revert ks. induction l as [|v l IH]; intros ks; simpl.
  - split; [intros [= <-]; constructor|by intros ->%Forall2_nil_inv_l].
  - unfold mbind, result_mbind, result_bind. split.
    + destruct (hash_key v) as [k|e] eqn:Hk; [|done].
      destruct (hash_all l) as [ks'|e] eqn:Hl; [|done].
      intros [= <-]. constructor; [done|]. by apply IH.
    + intros (k & ks' & Hk & Hl & ->)%Forall2_cons_inv_l.
      rewrite Hk. apply IH in Hl. by rewrite Hl.
Qed.

Lemma hash_all_elem_of (l : list pyval) (ks : list hkey) (k : hkey) :
  hash_all l = Ok ks → k ∈ ks ↔ ∃ v, v ∈ l ∧ hash_key v = Ok k.
Proof.
  intros H%hash_all_Ok. induction H as [|v k' l ks Hk _ IH].
  - split; [by intros ?%elem_of_nil|by intros (? & ?%elem_of_nil & _)].
  - rewrite elem_of_cons, IH. split.
    + intros [->|(w & Hw & Hkw)]; [exists v|exists w];
        rewrite elem_of_cons; auto.
    + intros (w & [->|Hw]%elem_of_cons & Hkw); [left; congruence|right; eauto].
Qed.

Lemma hash_all_hashable (l : list pyval) (ks : list hkey) (v : pyval) :
  hash_all l = Ok ks → v ∈ l → ∃ k, hash_key v = Ok k.
Proof.
  intros H%hash_all_Ok Hv. induction H as [|w k l ks Hk _ IH].
  - by apply elem_of_nil in Hv.
  - apply elem_of_cons in Hv as [->|Hv]; eauto.
Qed.

Lemma hash_all_total (l : list pyval) :
  (∀ v, v ∈ l → ∃ k, hash_key v = Ok k) → ∃ ks, hash_all l = Ok ks.
Proof.
  induction l as [|v l IH]; intros H; simpl; [by eexists|].
  destruct (H v) as [k Hk]; [by left|].
  destruct IH as [ks Hks]; [intros w Hw; apply H; by right|].
  exists (k :: ks). by rewrite Hk, Hks.
Qed.

(** The set built from a list depends only on which entries occur in it. *)
Lemma py_set_same_entries (l l' : list pyval) (S : gset hkey) :
  (∀ v, v ∈ l ↔ v ∈ l') →
  py_set (PList l) = Ok S → py_set (PList l') = Ok S.
Proof.
  intros Hsame. unfold py_set. simpl.
  unfold mbind, result_mbind, result_bind.
  destruct (hash_all l) as [ks|e] eqn:Hks; [|done]. intros [= <-].
  destruct (hash_all_total l') as [ks' Hks'].
  { intros v Hv. apply (hash_all_hashable l ks v Hks). by apply Hsame. }
  rewrite Hks'. f_equal. apply set_eq. intros k.
  rewrite !elem_of_list_to_set.
  rewrite (hash_all_elem_of l ks k Hks), (hash_all_elem_of l' ks' k Hks').
  by setoid_rewrite Hsame.
Qed.

Lemma py_set_str_list (l : list string) :
  py_set (str_list l) = Ok (list_to_set (HStr <$> l)).
Proof.
  unfold py_set, str_list. simpl.
  assert (H : hash_all (PStr <$> l) = Ok (HStr <$> l)).
  { induction l as [|s l IH]; [done|].
    rewrite !fmap_cons. cbn [hash_all]. rewrite IH. reflexivity. }
  by rewrite H.
Qed.

(** What [calculate_match_score] returns, in terms of the two sets. *)
Lemma calculate_match_score_sets job cand (R C : gset hkey) :
  py_set (dict_get_or job "required_skills" (PList [])) = Ok R →
  py_set cand = Ok C →
  calculate_match_score job cand
  = Ok (if bool_decide (R = ∅) then S754_zero false
        else B64.of_hundredths
               (B64.score_hundredths (Z.of_nat (size (R ∩ C)))
                                     (Z.of_nat (size R)))).
Proof.
  intros HR HC. unfold calculate_match_score. rewrite HR, HC. simpl.
  case_bool_decide as Hne; [done|]. f_equal.
  apply B64_facts.score_float.
  - split; [lia|]. apply Nat2Z.inj_le, subseteq_size, intersection_subseteq_l.
  - assert (size R ≠ 0%nat); [|lia].
    apply size_non_empty_iff. by intros ?%leibniz_equiv.
Qed.

Lemma calculate_match_score_Ok job cand x :
  calculate_match_score job cand = Ok x →
  ∃ R C, py_set (dict_get_or job "required_skills" (PList [])) = Ok R
         ∧ py_set cand = Ok C.
Proof.
  unfold calculate_match_score, mbind, result_mbind, result_bind.
  destruct (py_set (dict_get_or _ _ _)) as [R|e]; [|done].
  destruct (py_set cand) as [C|e]; [|done]. eauto.
Qed.

(** C2. When the job's required-skill set is empty (the key is absent, or
    holds an empty list, or anything that [set] turns into the empty set),
    the score is [+0.0] for every candidate skill list; nothing is raised
    and the result is neither 100 nor a NaN. *)
Theorem calculate_match_score_no_required_skills
    (job : gmap string pyval) (cand : pyval) :
  py_set (dict_get_or job "required_skills" (PList [])) = Ok ∅ →
  (∃ C, py_set cand = Ok C) →
  calculate_match_score job cand = Ok (S754_zero false)
  ∧ S754_zero false ≠ B64.of_hundredths 10000
  ∧ S754_zero false ≠ S754_nan.
Proof.
  intros HR [C HC].
  rewrite (calculate_match_score_sets job cand ∅ C HR HC).
  split; [|split]; [by rewrite bool_decide_eq_true_2|by vm_compute|done].
Qed.

Lemma calculate_match_score_no_required_skills_witness :
  calculate_match_score job_without_skills (str_list ["Python"])
  = Ok (S754_zero false).
Proof.
  apply (calculate_match_score_no_required_skills job_without_skills
           (str_list ["Python"])).
  - vm_compute. reflexivity.
  - eexists. apply py_set_str_list.
Defined.

(** C10. Every score that is returned is a finite float between 0.0 and
    100.0, and it is unchanged when the entries of the required-skill list
    or of the candidate list are duplicated or reordered (more generally,
    replaced by any list in which the same entries occur). *)
Theorem calculate_match_score_range_and_set_semantics :
  (∀ (job : gmap string pyval) (cand : pyval) (x : spec_float),
     calculate_match_score job cand = Ok x →
     B64.nonneg x ∧ (0 <= B64.F2Q x)%Q ∧ (B64.F2Q x <= 100)%Q)
  ∧ (∀ (job : gmap string pyval) (l l' c c' : list pyval) (x : spec_float),
       (∀ v, v ∈ l ↔ v ∈ l') → (∀ v, v ∈ c ↔ v ∈ c') →
       calculate_match_score (<["required_skills" := PList l]> job) (PList c)
       = Ok x →
       calculate_match_score (<["required_skills" := PList l']> job) (PList c')
       = Ok x).
Proof.
  split.
  - intros job cand x Hx.
    destruct (calculate_match_score_Ok job cand x Hx) as (R & C & HR & HC).
    rewrite (calculate_match_score_sets job cand R C HR HC) in Hx.
    injection Hx as <-.
    case_bool_decide as Hne.
    { split; [by left|]. simpl. split; by apply Qle_bool_iff. }
    assert (Hi : (0 <= Z.of_nat (size (R ∩ C)) <= Z.of_nat (size R))%Z).
    { split; [lia|].
      apply Nat2Z.inj_le, subseteq_size, intersection_subseteq_l. }
    assert (Hr : (0 < Z.of_nat (size R))%Z).
    { assert (size R ≠ 0%nat); [|lia].
      apply size_non_empty_iff. by intros ?%leibniz_equiv. }
    destruct (B64_facts.score_float _ _ Hi Hr) as (_ & Hn & Hv).
    pose proof (B64_facts.score_hundredths_bounds _ _ Hi Hr) as [Hk0 Hk1].
    split; [exact Hn|]. split; [by apply B64_facts.F2Q_nonneg|].
    rewrite Hv.
    pose proof (B64_facts.of_hundredths_mono _ 10000 (conj Hk0 Hk1)) as Hm.
    assert (H100 : (B64.round_val (inject_Z 10000 / 100) == 100)%Q)
      by (vm_compute; reflexivity).
    by rewrite H100 in Hm.
  - intros job l l' c c' x Hl Hc Hx.
    destruct (calculate_match_score_Ok _ _ x Hx) as (R & C & HR & HC).
    rewrite (calculate_match_score_sets _ _ R C HR HC) in Hx.
    unfold dict_get_or in HR. rewrite lookup_insert_eq in HR. simpl in HR.
    rewrite (calculate_match_score_sets _ (PList c') R C); [done| |].
    + unfold dict_get_or. rewrite lookup_insert_eq. simpl.
      by apply (py_set_same_entries l l').
    + by apply (py_set_same_entries c c').
Qed.

Lemma calculate_match_score_range_and_set_semantics_witness :
  calculate_match_score
    (<["required_skills" := str_list ["AWS"; "Python"; "SQL"; "Python"]]> example_job)
    (str_list ["SQL"; "Python"; "SQL"])
  = Ok (B64.of_hundredths 6667).
Proof.
  destruct calculate_match_score_range_and_set_semantics as [_ H].
  apply (H example_job (PStr <$> ["Python"; "SQL"; "AWS"]) _
           (PStr <$> ["Python"; "SQL"]) _).
  - intros v. rewrite !list_elem_of_fmap.
    split; intros (s & -> & Hs); exists s; (split; [done|]);
      apply list_elem_of_In in Hs; apply list_elem_of_In; simpl in *; tauto.
  - intros v. rewrite !list_elem_of_fmap.
    split; intros (s & -> & Hs); exists s; (split; [done|]);
      apply list_elem_of_In in Hs; apply list_elem_of_In; simpl in *; tauto.
  - vm_compute. reflexivity.
Defined.

(** C6. For one job, when the set of candidate skills grows, the score does
    not decrease: if it is returned for the smaller list, it is returned for
    the larger one too, and is at least as large. *)
Theorem calculate_match_score_monotone
    (job : gmap string pyval) (A B : pyval) (SA SB : gset hkey)
    (x : spec_float) :
  py_set A = Ok SA → py_set B = Ok SB → SA ⊆ SB →
  calculate_match_score job A = Ok x →
  ∃ y, calculate_match_score job B = Ok y ∧ (B64.F2Q x <= B64.F2Q y)%Q.
Proof.
  intros HA HB Hsub Hx.
  destruct (calculate_match_score_Ok job A x Hx) as (R & C & HR & HC).
  assert (C = SA) as -> by congruence.
  rewrite (calculate_match_score_sets job A R SA HR HA) in Hx.
  injection Hx as <-.
  rewrite (calculate_match_score_sets job B R SB HR HB).
  eexists. split; [reflexivity|].
  case_bool_decide as Hne; [apply Qle_refl|].
  assert (Hii : (0 <= Z.of_nat (size (R ∩ SA)) <= Z.of_nat (size (R ∩ SB)))%Z).
  { split; [lia|]. apply Nat2Z.inj_le, subseteq_size.
    intros k [Hk1 Hk2]%elem_of_intersection.
    apply elem_of_intersection. split; [done|by apply Hsub]. }
  assert (Hsb : (Z.of_nat (size (R ∩ SB)) <= Z.of_nat (size R))%Z).
  { apply Nat2Z.inj_le, subseteq_size, intersection_subseteq_l. }
  assert (Hr : (0 < Z.of_nat (size R))%Z).
  { assert (size R ≠ 0%nat); [|lia].
    apply size_non_empty_iff. by intros ?%leibniz_equiv. }
  assert (HiA : (0 <= Z.of_nat (size (R ∩ SA)) <= Z.of_nat (size R))%Z) by lia.
  assert (HiB : (0 <= Z.of_nat (size (R ∩ SB)) <= Z.of_nat (size R))%Z) by lia.
  destruct (B64_facts.score_float _ _ HiA Hr) as (_ & _ & ->).
  destruct (B64_facts.score_float _ _ HiB Hr) as (_ & _ & ->).
  apply B64_facts.of_hundredths_mono. split.
  - apply B64_facts.score_hundredths_bounds; lia.
  - by apply B64_facts.score_hundredths_mono.
Qed.

Lemma calculate_match_score_monotone_witness :
  ∃ y, calculate_match_score example_job (str_list ["Python"; "SQL"; "AWS"]) = Ok y
       ∧ (B64.F2Q (B64.of_hundredths 6667) <= B64.F2Q y)%Q.
Proof.
  apply (calculate_match_score_monotone example_job
           (str_list ["Python"; "SQL"]) (str_list ["Python"; "SQL"; "AWS"])
           (list_to_set (HStr <$> ["Python"; "SQL"]))
           (list_to_set (HStr <$> ["Python"; "SQL"; "AWS"]))).
  - apply py_set_str_list.
  - apply py_set_str_list.
  - intros k. rewrite !elem_of_list_to_set, !list_elem_of_fmap.
    intros (s & -> & Hs). exists s. split; [done|].
    apply list_elem_of_In in Hs. apply list_elem_of_In. simpl in *. tauto.
  - vm_compute. reflexivity.
Defined.

(** C1. For a job with a non-empty set of fewer than 10^11 required skills,
    the score is the float that the two-place decimal [k / 100] denotes,
    where [k / 100] is a rounding of [100 * |required ∩ candidate| /
    |required|] to two places (it differs from it by at most 0.005); for the
    required skills Python, SQL, AWS and the candidate skills Python, SQL it
    is the float 66.67. *)
Theorem calculate_match_score_formula :
  (∀ (job : gmap string pyval) (cand : pyval) (R C : gset hkey),
     py_set (dict_get_or job "required_skills" (PList [])) = Ok R →
     py_set cand = Ok C →
     R ≠ ∅ → (Z.of_nat (size R) < 10 ^ 11)%Z →
     ∃ k, calculate_match_score job cand = Ok (B64.of_hundredths k)
          ∧ rounds_to_hundredths (size (R ∩ C)) (size R) k)
  ∧ calculate_match_score example_job (str_list ["Python"; "SQL"])
    = Ok (B64.of_hundredths 6667).
Proof.
  split; [|by vm_compute].
  intros job cand R C HR HC Hne Hbig.
  rewrite (calculate_match_score_sets job cand R C HR HC).
  rewrite bool_decide_eq_false_2 by done.
  eexists. split; [reflexivity|].
  unfold rounds_to_hundredths.
  apply B64_facts.score_hundredths_rounds.
  - split; [lia|].
    apply Nat2Z.inj_le, subseteq_size, intersection_subseteq_l.
  - split; [|done]. assert (size R ≠ 0%nat); [|lia].
    apply size_non_empty_iff. by intros ?%leibniz_equiv.
Qed.

Lemma calculate_match_score_formula_witness :
  ∃ k, calculate_match_score example_job (str_list ["Python"; "SQL"])
       = Ok (B64.of_hundredths k)
     ∧ rounds_to_hundredths
         (size (list_to_set (HStr <$> ["Python"; "SQL"; "AWS"])
                ∩ list_to_set (HStr <$> ["Python"; "SQL"]) : gset hkey))
         (size (list_to_set (HStr <$> ["Python"; "SQL"; "AWS"]) : gset hkey)) k.
Proof.
  destruct calculate_match_score_formula as [H _].
  apply (H example_job (str_list ["Python"; "SQL"])).
  - vm_compute. reflexivity.
  - apply py_set_str_list.
  - intros He.
    assert (Hin : HStr "Python" ∈ (∅ : gset hkey)).
    { rewrite <-He. apply elem_of_list_to_set, list_elem_of_In. simpl. tauto. }
    by apply not_elem_of_empty in Hin.
  - vm_compute. reflexivity.
Defined.

(** * Further properties of the query formatter *)

(** X1. The formatter raises exactly when the seniority entry is truthy and is
    not a string: the error is the [AttributeError] of the missing [lower]
    method, naming the type of the entry. In every other case a query is
    returned. *)
Theorem format_query_raises_iff (q : gmap string pyval) (e : exn) :
  _format_search_query q = Raise e
  ↔ truthy (dict_get q "experience_level") = true
    ∧ (∀ s, dict_get q "experience_level" ≠ PStr s)
    ∧ e = Exn AttributeError
            ("'" ++ type_name (dict_get q "experience_level")
             ++ "' object has no attribute 'lower'").
Proof.
  unfold _format_search_query.
  destruct (truthy (dict_get q "experience_level")) eqn:Ht.
  - destruct (dict_get q "experience_level") as [| | |s| |] eqn:Hv;
      cbn [lower_method mbind result_mbind result_bind type_name];
      try (split; [intros [= <-]; by repeat split|by intros (_ & _ & ->)]).
    split; [done|]. intros (_ & Hs & _). by destruct (Hs s).
  - split; [done|]. by intros (? & _).
Qed.

(** X2. The formatter reads seven entries of the preferences and nothing else:
    two dictionaries that agree on them format alike. *)
Theorem format_query_reads_seven_entries (q q' : gmap string pyval) :
  (∀ k, k ∈ ["date_posted"; "company"; "title"; "location"; "remote";
             "skills"; "experience_level"] → q !! k = q' !! k) →
  _format_search_query q = _format_search_query q'.
Proof.
  intros H.
  assert (Hg : ∀ k, k ∈ ["date_posted"; "company"; "title"; "location";
                         "remote"; "skills"; "experience_level"] →
                    dict_get q k = dict_get q' k).
  { intros k Hk. unfold dict_get. by rewrite (H k Hk). }
  unfold _format_search_query.
  rewrite (Hg "date_posted"), (Hg "company"), (Hg "title"), (Hg "location"),
    (Hg "remote"), (Hg "skills"), (Hg "experience_level");
    (reflexivity || (apply list_elem_of_In; simpl; tauto)).
Qed.

Lemma format_query_reads_seven_entries_witness :
  _format_search_query (<["salary" := PInt 100000]> example_preferences)
  = _format_search_query example_preferences.
Proof.
  apply (format_query_reads_seven_entries
           (<["salary" := PInt 100000]> example_preferences)
           example_preferences).
  intros k Hk. apply lookup_insert_ne. intros <-.
  apply list_elem_of_In in Hk. simpl in Hk.
  repeat (destruct Hk as [Hk|Hk]; [discriminate Hk|]). exact Hk.
Defined.

(** X3. Every entry of a formatted query is the recency filter, holding one of
    the four numbers of days, or a filter that holds a non-empty list: no
    empty filter is ever sent. *)
Theorem format_query_entries (q fq : gmap string pyval) (k : string)
    (v : pyval) :
  _format_search_query q = Ok fq →
  fq !! k = Some v →
  (k = "posted_at_max_age_days" ∧ ∃ n, v = PInt n ∧ n ∈ [1; 7; 30; 90])
  ∨ (k ≠ "posted_at_max_age_days" ∧ ∃ x l, v = PList (x :: l)).
Proof.
  intros H Hk. rewrite (format_lookup q fq k H) in Hk.
  repeat case_decide; subst; try discriminate Hk.
  - right. split; [done|]. unfold seniority_entry in Hk.
    destruct (dict_get q "experience_level"); try discriminate Hk.
    destruct (str_in _ _); [|discriminate Hk]. injection Hk as <-. eauto.
  - right. split; [done|].
    destruct (isinstance_list _ && truthy _) eqn:Hl; [|discriminate Hk].
    injection Hk as <-. by apply nonempty_list_spec.
  - right. split; [done|]. destruct (is_True _); [|discriminate Hk].
    injection Hk as <-. eauto.
  - right. split; [done|]. destruct (truthy _); [|discriminate Hk].
    injection Hk as <-. eauto.
  - right. split; [done|]. destruct (truthy _); [|discriminate Hk].
    injection Hk as <-. eauto.
  - right. split; [done|]. destruct (truthy _); [|discriminate Hk].
    injection Hk as <-. eauto.
  - left. split; [done|]. injection Hk as <-. eexists. split; [done|].
    repeat destruct (eq_str _ _); apply list_elem_of_In; simpl; tauto.
Qed.

Lemma format_query_entries_witness :
  ("technologies_contains_any" = "posted_at_max_age_days"
   ∧ ∃ n, PList [PStr "Python"] = PInt n ∧ n ∈ [1; 7; 30; 90])
  ∨ ("technologies_contains_any" ≠ "posted_at_max_age_days"
     ∧ ∃ x l, PList [PStr "Python"] = PList (x :: l)).
Proof.
  apply (format_query_entries example_preferences example_formatted
           "technologies_contains_any" (PList [PStr "Python"])).
  - exact format_example.
  - vm_compute. reflexivity.
Defined.

(** * Further properties of the job search call *)

(** X4. With the answer 200 the search returns what the body parses to, whatever
    its type, and only the query line and the request are in the trace; a
    body that does not parse is reported and the empty list is returned. *)
Theorem search_jobs_status_200
    (json_dumps : gmap string pyval → string)
    (network : nat → string → gmap string pyval → http_outcome)
    (self : JobMatcher) (q api_query : gmap string pyval) (w : world)
    (r : http_response) :
  _format_search_query q = Ok api_query →
  network (requests_made (trace w)) (THEIRSTACK_API_URL ++ "/jobs/search")
    api_query = Responded r →
  status_code r = 200 →
  (∀ v, json_body r = Ok v →
     search_jobs json_dumps network self q w
     = (Ok v, World (session w)
                (trace w ++ search_prelude json_dumps self api_query)))
  ∧ (∀ e, json_body r = Raise e → caught_by_except_Exception e = true →
       search_jobs json_dumps network self q w
       = (Ok (PList []),
          World (session w)
            (trace w ++ search_prelude json_dumps self api_query
               ++ [StError ("Error searching jobs: " ++ exn_msg e)]))).
Proof.
  intros Hq Hn Hs. split.
  - intros v Hj.
    rewrite (search_jobs_other_status json_dumps network self q api_query w r v
               Hq Hn ltac:(lia) Hj).
    rewrite Hs. cbn [Z.eqb Pos.eqb]. by rewrite app_nil_r.
  - intros e Hj He. unfold search_jobs, requests_post. io_unfold.
    rewrite Hq. cbn [session trace]. rewrite requests_made_app.
    cbn [requests_made]. rewrite Nat.add_0_r, Hn.
    rewrite (raise_for_status_ok _ r ltac:(lia)), Hj, Hs.
    cbn [Z.eqb Pos.eqb negb session trace]. rewrite He.
    cbn [session trace]. rewrite <-!app_assoc. reflexivity.
Qed.

Lemma search_jobs_status_200_witness :
  search_jobs (λ _, "") (always no_jobs) (JobMatcher_init "key")
    example_preferences fresh_world
  = (Ok (PList []),
     World ∅ (search_prelude (λ _, "") (JobMatcher_init "key")
                example_formatted)).
Proof.
  destruct (search_jobs_status_200 (λ _, "") (always no_jobs)
              (JobMatcher_init "key") example_preferences example_formatted
              fresh_world no_jobs format_example eq_refl eq_refl) as [H _].
  exact (H (PList []) eq_refl).
Defined.

(** X5. The query is formatted before the [try]: when the formatter raises, the
    search raises the same error, and has printed nothing, sent no request
    and reported no error. *)
Theorem search_jobs_format_error
    (json_dumps : gmap string pyval → string)
    (network : nat → string → gmap string pyval → http_outcome)
    (self : JobMatcher) (q : gmap string pyval) (w : world) (v : pyval) :
  q !! "experience_level" = Some v →
  truthy v = true →
  (∀ s, v ≠ PStr s) →
  search_jobs json_dumps network self q w
  = (Raise (Exn AttributeError
              ("'" ++ type_name v ++ "' object has no attribute 'lower'")),
     w).
Proof.
  intros Hv Ht Hs.
  assert (Hg : dict_get q "experience_level" = v)
    by (unfold dict_get; by rewrite Hv).
  unfold search_jobs, _format_search_query. rewrite Hg, Ht.
  destruct v as [| | |s| |]; try reflexivity. by destruct (Hs s).
Qed.

Lemma search_jobs_format_error_witness :
  search_jobs (λ _, "") (always no_jobs) (JobMatcher_init "key")
    (<["experience_level" := PInt 3]> example_preferences) fresh_world
  = (Raise (Exn AttributeError "'int' object has no attribute 'lower'"),
     fresh_world).
Proof.
  apply (search_jobs_format_error (λ _, "") (always no_jobs)
           (JobMatcher_init "key")
           (<["experience_level" := PInt 3]> example_preferences)
           fresh_world (PInt 3)).
  - apply lookup_insert_eq.
  - reflexivity.
  - discriminate.
Defined.

(** * Further properties of the match score *)

Module B64_extremes.
Import B64 B64_facts.
Local Open Scope Q_scope.

Lemma score_hundredths_all (r : Z) : (0 < r)%Z → score_hundredths r r = 10000%Z.
Proof.
  intros Hr. unfold score_hundredths. rewrite Zlt_Qlt in Hr.
  change (inject_Z 0) with 0 in Hr.
  assert (E0 : inject_Z r / inject_Z r == 1) by (field; lra).
  assert (E1 : round_val (inject_Z r / inject_Z r) == 1).
  { pose proof round_val_1.
    assert (H0 : 0 <= inject_Z r / inject_Z r) by (rewrite E0; lra).
    pose proof (round_val_Qeq _ 1 H0 E0). lra. }
  assert (E2 : round_val (round_val (inject_Z r / inject_Z r) * 100) == 100).
  { pose proof round_val_100.
    assert (Hq : round_val (inject_Z r / inject_Z r) * 100 == 100) by lra.
    assert (H0 : 0 <= round_val (inject_Z r / inject_Z r) * 100) by lra.
    pose proof (round_val_Qeq _ 100 H0 Hq). lra. }
  rewrite <-(round_half_even_Z 10000). apply round_half_even_Qeq.
  change (inject_Z 10000) with 10000. lra.
Qed.

Lemma score_hundredths_none (r : Z) : (0 < r)%Z → score_hundredths 0 r = 0%Z.
Proof.
  intros Hr. unfold score_hundredths. rewrite Zlt_Qlt in Hr.
  change (inject_Z 0) with 0 in *.
  assert (E1 : round_val (0 / inject_Z r) == 0)
    by (apply round_val_zero; field; lra).
  assert (E2 : round_val (round_val (0 / inject_Z r) * 100) == 0)
    by (apply round_val_zero; lra).
  rewrite (round_half_even_Qeq _ (inject_Z 0)); [apply round_half_even_Z|].
  change (inject_Z 0) with 0. lra.
Qed.

(** Among the scores, only 10000 hundredths denote the float 100.0 and only
    0 hundredths denote 0.0. *)
Lemma of_hundredths_100_inv (k : Z) :
  (0 <= k <= 10000)%Z →
  round_val (inject_Z k / 100) == 100 → k = 10000%Z.
Proof.
  intros [Hk0 Hk1] He.
  destruct (Z.eq_dec k 10000%Z) as [->|Hne]; [done|]. exfalso.
  pose proof (of_hundredths_mono k 9999%Z ltac:(lia)) as Hm.
  assert (Hlt : round_val (inject_Z 9999 / 100) < 100)
    by (vm_compute; reflexivity).
  lra.
Qed.

Lemma of_hundredths_0_inv (k : Z) :
  (0 <= k)%Z → round_val (inject_Z k / 100) == 0 → k = 0%Z.
Proof.
  intros Hk0 He.
  destruct (Z.eq_dec k 0%Z) as [->|Hne]; [done|]. exfalso.
  pose proof (of_hundredths_mono 1%Z k ltac:(lia)) as Hm.
  assert (Hlt : 0 < round_val (inject_Z 1 / 100)) by (vm_compute; reflexivity).
  lra.
Qed.

Lemma F2Q_of_hundredths_10000 : F2Q (of_hundredths 10000) == 100.
Proof. vm_compute. reflexivity. Qed.

End B64_extremes.

Lemma Ok_inj {A} (a b : A) : Ok a = Ok b → a = b.
Proof. by intros [=]. Qed.

Lemma example_job_required_skills :
  py_set (dict_get_or example_job "required_skills" (PList []))
  = Ok (list_to_set (HStr <$> ["Python"; "SQL"; "AWS"])).
Proof.
  assert (H : dict_get_or example_job "required_skills" (PList [])
              = str_list ["Python"; "SQL"; "AWS"]) by reflexivity.
  rewrite H. apply py_set_str_list.
Qed.

Lemma size_intersection_bounds (R C : gset hkey) :
  R ≠ ∅ →
  (0 <= Z.of_nat (size (R ∩ C)) <= Z.of_nat (size R))%Z
  ∧ (0 < Z.of_nat (size R))%Z.
Proof.
  intros Hne. split.
  - split; [lia|].
    apply Nat2Z.inj_le, subseteq_size, intersection_subseteq_l.
  - assert (size R ≠ 0%nat); [|lia].
    apply size_non_empty_iff. by intros ?%leibniz_equiv.
Qed.

(** X6. A candidate who has every required skill scores exactly 100.0, and one
    who has none of them scores 0.0; for a job with fewer than 20000
    required skills these are the only ways to reach the two scores. *)
Theorem calculate_match_score_extremes
    (job : gmap string pyval) (cand : pyval) (R C : gset hkey) :
  py_set (dict_get_or job "required_skills" (PList [])) = Ok R →
  py_set cand = Ok C →
  R ≠ ∅ →
  (R ⊆ C → calculate_match_score job cand = Ok (B64.of_hundredths 10000))
  ∧ (R ∩ C = ∅ → calculate_match_score job cand = Ok (S754_zero false))
  ∧ (Z.of_nat (size R) < 20000 →
     (calculate_match_score job cand = Ok (B64.of_hundredths 10000) → R ⊆ C)
     ∧ (calculate_match_score job cand = Ok (S754_zero false) → R ∩ C = ∅)).
Proof.
  intros HR HC Hne.
  rewrite (calculate_match_score_sets job cand R C HR HC).
  rewrite bool_decide_eq_false_2 by done.
  destruct (size_intersection_bounds R C Hne) as [Hi Hr].
  split; [|split].
  - intros Hsub. rewrite (subseteq_intersection_1_L R C Hsub).
    by rewrite B64_extremes.score_hundredths_all.
  - intros ->. rewrite size_empty. change (Z.of_nat 0) with 0.
    by rewrite B64_extremes.score_hundredths_none.
  - intros Hsmall.
    destruct (B64_facts.score_float _ _ Hi Hr) as (_ & _ & Hv).
    pose proof (B64_facts.score_hundredths_bounds _ _ Hi Hr) as Hb.
    assert (Hbig : 0 < Z.of_nat (size R) < 10 ^ 11)
      by (change (10 ^ 11) with 100000000000; lia).
    pose proof (B64_facts.score_hundredths_rounds
                  (Z.of_nat (size (R ∩ C))) (Z.of_nat (size R)) Hi Hbig)
      as Hrnd.
    set (k := B64.score_hundredths _ _) in *.
    split.
    + intros Hk%Ok_inj. rewrite Hk, B64_extremes.F2Q_of_hundredths_10000 in Hv.
      assert (k = 10000) as Hk'
        by (apply B64_extremes.of_hundredths_100_inv; [done|by symmetry]).
      rewrite Hk' in Hrnd.
      assert (Hsz : size (R ∩ C) = size R) by lia.
      assert (Heq : R ∩ C = R).
      { apply set_subseteq_size_eq; [apply intersection_subseteq_l|lia]. }
      rewrite <-Heq. apply intersection_subseteq_r.
    + intros Hk%Ok_inj. rewrite Hk in Hv. cbn [B64.F2Q] in Hv.
      assert (k = 0) as Hk'
        by (apply B64_extremes.of_hundredths_0_inv; [lia|by symmetry]).
      rewrite Hk' in Hrnd.
      assert (Hsz : size (R ∩ C) = 0%nat) by lia.
      by apply size_empty_inv, leibniz_equiv in Hsz.
Qed.

Lemma calculate_match_score_extremes_witness :
  calculate_match_score example_job (str_list ["AWS"; "SQL"; "Go"; "Python"])
  = Ok (B64.of_hundredths 10000).
Proof.
  destruct (calculate_match_score_extremes example_job
              (str_list ["AWS"; "SQL"; "Go"; "Python"])
              (list_to_set (HStr <$> ["Python"; "SQL"; "AWS"]))
              (list_to_set (HStr <$> ["AWS"; "SQL"; "Go"; "Python"])))
    as (H & _ & _).
  - exact example_job_required_skills.
  - apply py_set_str_list.
  - intros He.
    assert (Hin : HStr "Python" ∈ (∅ : gset hkey)).
    { rewrite <-He. apply elem_of_list_to_set, list_elem_of_In. simpl. tauto. }
    by apply not_elem_of_empty in Hin.
  - apply H. intros k. rewrite !elem_of_list_to_set, !list_elem_of_fmap.
    intros (s & -> & Hs). exists s. split; [done|].
    apply list_elem_of_In in Hs. apply list_elem_of_In. simpl in *. tauto.
Defined.

Lemma hash_key_hashable (v : pyval) :
  hashable v = true ↔ ∃ k, hash_key v = Ok k.
Proof.
  destruct v; simpl; split; (by eauto) || (by intros [? [=]]) || done.
Qed.

Lemma hash_all_raises (l : list pyval) (e : exn) :
  hash_all l = Raise e → exn_cls e = TypeError ∧ ∃ v, v ∈ l ∧ hashable v = false.
Proof.
  induction l as [|v l IH]; simpl; [done|].
  unfold mbind, result_mbind, result_bind.
  destruct (hash_key v) as [k|e'] eqn:Hk.
  - destruct (hash_all l) as [ks|e'] eqn:Hl; [done|]. intros [= ->].
    destruct (IH eq_refl) as (Hc & w & Hw & Hh).
    split; [done|]. exists w. split; [by right|done].
  - intros [= ->]. destruct v; try discriminate Hk;
      (injection Hk as <-; split; [done|]; eexists; split; [by left|done]).
Qed.

(** X7. With list arguments, the score is returned exactly when no entry of the
    required skills or of the candidate skills is itself a list or a
    dictionary; otherwise the call raises a [TypeError]. *)
Theorem calculate_match_score_returns_iff
    (job : gmap string pyval) (req cand : list pyval) :
  job !! "required_skills" = Some (PList req) →
  ((∃ x, calculate_match_score job (PList cand) = Ok x)
   ↔ ∀ v, v ∈ (req ++ cand)%list → hashable v = true)
  ∧ (∀ e, calculate_match_score job (PList cand) = Raise e →
          exn_cls e = TypeError).
Proof.
  intros Hreq.
  assert (Hd : dict_get_or job "required_skills" (PList []) = PList req)
    by (unfold dict_get_or; by rewrite Hreq).
  split; [split|].
  - intros [x Hx].
    destruct (calculate_match_score_Ok job _ x Hx) as (R & C & HR & HC).
    rewrite Hd in HR. unfold py_set in HR, HC. simpl in HR, HC.
    unfold mbind, result_mbind, result_bind in HR, HC.
    destruct (hash_all req) as [kr|] eqn:Hkr; [|done].
    destruct (hash_all cand) as [kc|] eqn:Hkc; [|done].
    intros v [Hv|Hv]%elem_of_app; apply hash_key_hashable.
    + by apply (hash_all_hashable req kr).
    + by apply (hash_all_hashable cand kc).
  - intros Hall.
    destruct (hash_all_total req) as [kr Hkr].
    { intros v Hv. apply hash_key_hashable, Hall, elem_of_app. by left. }
    destruct (hash_all_total cand) as [kc Hkc].
    { intros v Hv. apply hash_key_hashable, Hall, elem_of_app. by right. }
    rewrite (calculate_match_score_sets job (PList cand)
               (list_to_set kr) (list_to_set kc)).
    + by eexists.
    + rewrite Hd. unfold py_set. simpl. by rewrite Hkr.
    + unfold py_set. simpl. by rewrite Hkc.
  - intros e. unfold calculate_match_score. rewrite Hd.
    unfold py_set. simpl. unfold mbind, result_mbind, result_bind.
    destruct (hash_all req) as [kr|e1] eqn:Hkr.
    + destruct (hash_all cand) as [kc|e2] eqn:Hkc.
      * by destruct (bool_decide _).
      * intros [= <-]. by apply (hash_all_raises cand).
    + intros [= <-]. by apply (hash_all_raises req).
Qed.

Lemma calculate_match_score_returns_iff_witness :
  (∃ x, calculate_match_score example_job (PList [PStr "SQL"; PInt 3; PNone])
        = Ok x)
  ↔ ∀ v, v ∈ ((PStr <$> ["Python"; "SQL"; "AWS"])
              ++ [PStr "SQL"; PInt 3; PNone])%list →
         hashable v = true.
Proof.
  apply (calculate_match_score_returns_iff example_job
           (PStr <$> ["Python"; "SQL"; "AWS"]) [PStr "SQL"; PInt 3; PNone]).
  vm_compute. reflexivity.
Defined.

(** X8. The default [[]] of [job.get] stands in only for an absent key: when
    the key is present and holds [None], a boolean or a number, the call
    raises the [TypeError] of iterating over it, whatever the candidate's
    skills are. *)
Theorem calculate_match_score_null_required
    (job : gmap string pyval) (cand v : pyval) :
  job !! "required_skills" = Some v →
  v = PNone ∨ (∃ b, v = PBool b) ∨ (∃ z, v = PInt z) →
  calculate_match_score job cand
  = Raise (Exn TypeError ("'" ++ type_name v ++ "' object is not iterable"))
  ∧ (∀ C, py_set cand = Ok C →
          calculate_match_score (delete "required_skills" job) cand
          = Ok (S754_zero false)).
Proof.
  intros Hv Hnull. split.
  - unfold calculate_match_score, dict_get_or. rewrite Hv.
    by destruct Hnull as [->|[[b ->]|[z ->]]].
  - intros C HC. unfold calculate_match_score, dict_get_or.
    rewrite lookup_delete_eq, HC. reflexivity.
Qed.

Lemma calculate_match_score_null_required_witness :
  calculate_match_score job_with_null_skills (str_list ["Python"])
  = Raise (Exn TypeError "'NoneType' object is not iterable").
Proof.
  apply (calculate_match_score_null_required job_with_null_skills
           (str_list ["Python"]) PNone).
  - reflexivity.
  - by left.
Defined.

(** * Further properties of the file intake *)

Lemma append_assoc (a b c : string) : (a ++ b) ++ c = a ++ (b ++ c).
Proof.
  induction a as [|x a IH]; [done|].
  change (String x ((a ++ b) ++ c) = String x (a ++ (b ++ c))).
  by rewrite IH.
Qed.

Lemma concat_pages_Ok (acc : string) (texts : list string) :
  concat_pages acc (Ok <$> texts) = Ok (acc ++ pages_text texts).
Proof.
  revert acc. induction texts as [|t texts IH]; intros acc.
  - cbn [fmap list_fmap concat_pages pages_text foldr]. f_equal.
    induction acc as [|x a IHa]; [done|].
    change (String x a = String x (a ++ "")). by rewrite <-IHa.
  - rewrite fmap_cons. cbn [concat_pages pages_text foldr].
    unfold mbind, result_mbind, result_bind. rewrite IH.
    by rewrite append_assoc.
Qed.

Lemma concat_pages_Raise (acc : string) (texts : list string) (e : exn)
      (rest : list (result string)) :
  concat_pages acc ((Ok <$> texts) ++ Raise e :: rest)%list = Raise e.
Proof.
  revert acc. induction texts as [|t texts IH]; intros acc; [done|].
  rewrite fmap_cons. cbn [app concat_pages].
  unfold mbind, result_mbind, result_bind. apply IH.
Qed.

(** X9. For a PDF, the text returned is that of the pages in their order, and
    nothing is reported; when a page cannot be read, the text of the pages
    before it is dropped, the pages after it are not looked at, and the
    result is [None] with that page's error reported. *)
Theorem process_uploaded_file_pdf
    (pdf_pages : string → result (list (result string)))
    (docx_paragraphs : string → result (list string))
    (decode_utf8 : string → result string)
    (f : uploaded_file) (w : world) :
  file_extension (name f) = "pdf" →
  (∀ texts, pdf_pages (content f) = Ok (Ok <$> texts) →
     process_uploaded_file pdf_pages docx_paragraphs decode_utf8 (Some f) w
     = (Ok (PStr (pages_text texts)), w))
  ∧ (∀ texts e rest,
       pdf_pages (content f) = Ok ((Ok <$> texts) ++ Raise e :: rest)%list →
       caught_by_except_Exception e = true →
       process_uploaded_file pdf_pages docx_paragraphs decode_utf8 (Some f) w
       = (Ok PNone,
          World (session w)
            (trace w ++ [StError ("Error processing file: " ++ exn_msg e)]))).
Proof.
  intros Hext. split.
  - intros texts Hp. unfold process_uploaded_file. io_unfold.
    rewrite Hext, Hp. cbn [String.eqb Ascii.eqb Bool.eqb].
    rewrite concat_pages_Ok. by destruct w.
  - intros texts e rest Hp He. unfold process_uploaded_file. io_unfold.
    rewrite Hext, Hp. cbn [String.eqb Ascii.eqb Bool.eqb].
    rewrite concat_pages_Raise, He. reflexivity.
Qed.

Lemma process_uploaded_file_pdf_witness :
  process_uploaded_file two_pages (λ _, Ok []) (λ s, Ok s)
    (Some {| name := "cv.final.PDF"; content := "%PDF" |}) fresh_world
  = (Ok (PStr "Jane Doe. Python, SQL."), fresh_world)
  ∧ process_uploaded_file torn_page (λ _, Ok []) (λ s, Ok s)
      (Some {| name := "cv.final.PDF"; content := "%PDF" |}) fresh_world
    = (Ok PNone,
       World ∅ [StError "Error processing file: EOF marker not found"]).
Proof.
  split.
  - destruct (process_uploaded_file_pdf two_pages (λ _, Ok []) (λ s, Ok s)
                {| name := "cv.final.PDF"; content := "%PDF" |} fresh_world
                eq_refl) as [H _].
    exact (H ["Jane Doe. "; "Python, SQL."] eq_refl).
  - destruct (process_uploaded_file_pdf torn_page (λ _, Ok []) (λ s, Ok s)
                {| name := "cv.final.PDF"; content := "%PDF" |} fresh_world
                eq_refl) as [_ H].
    exact (H ["Jane Doe. "] _ [Ok "Python, SQL."] eq_refl eq_refl).
Defined.

(** X10. The extension is all that follows the last dot, and the whole name when
    there is none: a name that ends with a dot is rejected with an empty
    extension, and a name without a dot that spells txt in any case is
    decoded as text. *)
Theorem process_uploaded_file_name_edges
    (pdf_pages : string → result (list (result string)))
    (docx_paragraphs : string → result (list string))
    (decode_utf8 : string → result string)
    (bytes : string) (w : world) :
  (∀ pre,
     process_uploaded_file pdf_pages docx_paragraphs decode_utf8
       (Some {| name := pre ++ "."; content := bytes |}) w
     = (Ok PNone,
        World (session w) (trace w ++ [StError "Unsupported file format: "])))
  ∧ (∀ file_name text,
       occurs "." file_name = false → lower file_name = "txt" →
       decode_utf8 bytes = Ok text →
       process_uploaded_file pdf_pages docx_paragraphs decode_utf8
         (Some {| name := file_name; content := bytes |}) w
       = (Ok (PStr text), w)).
Proof.
  split.
  - intros pre.
    assert (Hext : file_extension (pre ++ ".") = "")
      by (by apply (file_extension_after_last_dot pre "")).
    rewrite process_unsupported; cbn [name]; rewrite Hext; done.
  - intros file_name text Hdot Hlow Hdec.
    unfold process_uploaded_file. io_unfold. cbn [name content].
    rewrite (file_extension_no_dot file_name Hdot), Hlow, Hdec.
    cbn [String.eqb Ascii.eqb Bool.eqb]. by destruct w.
Qed.

(** * The connectivity test *)

Section test_theirstack_api_facts.
Variable network : nat → string → gmap string pyval → http_outcome.

Let url := THEIRSTACK_API_URL ++ "/jobs/search".

Lemma test_responded api_key w r :
  network (requests_made (trace w)) url default_api_query = Responded r →
  test_theirstack_api network api_key w
  = (Ok (if status_code r =? 200 then (true, "API connection successful")
         else (false, "API Error: " ++ pretty (status_code r)
                      ++ " - " ++ text r)),
     World (session w)
       (trace w ++ [HttpPost url (headers (JobMatcher_init api_key))
                      default_api_query])).
Proof.
  intros Hn. unfold test_theirstack_api, requests_post. io_unfold.
  fold url. change (mkdict [("posted_at_max_age_days", PInt 30)])
    with default_api_query. rewrite Hn.
  by destruct (status_code r =? 200).
Qed.

Lemma test_failed api_key w e :
  network (requests_made (trace w)) url default_api_query = Failed e →
  caught_by_except_Exception e = true →
  test_theirstack_api network api_key w
  = (Ok (false, "Connection error: " ++ exn_msg e),
     World (session w)
       (trace w ++ [HttpPost url (headers (JobMatcher_init api_key))
                      default_api_query])).
Proof.
  intros Hn He. unfold test_theirstack_api, requests_post. io_unfold.
  fold url. change (mkdict [("posted_at_max_age_days", PInt 30)])
    with default_api_query. by rewrite Hn, He.
Qed.
End test_theirstack_api_facts.

(** X11. The connectivity test never raises when the network fails only with
    [Exception]s; it sends exactly one request, to the search address, with
    the headers the job search uses and the query of 30 days alone; it
    leaves the session as it was; and it reports success exactly when the
    answer has status 200. *)
Theorem test_theirstack_api_outcome
    (network : nat → string → gmap string pyval → http_outcome)
    (api_key : string) (w : world) :
  (∀ e, network (requests_made (trace w))
          (THEIRSTACK_API_URL ++ "/jobs/search") default_api_query = Failed e →
        caught_by_except_Exception e = true) →
  ∃ success message,
    test_theirstack_api network api_key w
    = (Ok (success, message),
       World (session w)
         (trace w ++ [HttpPost (THEIRSTACK_API_URL ++ "/jobs/search")
                        (headers (JobMatcher_init api_key))
                        default_api_query]))
    ∧ (success = true
       ↔ ∃ r, network (requests_made (trace w))
                (THEIRSTACK_API_URL ++ "/jobs/search") default_api_query
              = Responded r
              ∧ status_code r = 200)
    ∧ (success = true → message = "API connection successful").
Proof.
  intros Hnet.
  destruct (network (requests_made (trace w))
              (THEIRSTACK_API_URL ++ "/jobs/search") default_api_query)
    as [r|e] eqn:Hn.
  - rewrite (test_responded network api_key w r Hn).
    destruct (Z.eqb_spec (status_code r) 200) as [Hs|Hs].
    + eexists _, _. split; [reflexivity|]. split; [|done].
      split; [|done]. intros _. by exists r.
    + eexists _, _. split; [reflexivity|]. split; [|done].
      split; [done|]. by intros (r' & [= <-] & Hs').
  - rewrite (test_failed network api_key w e Hn (Hnet e eq_refl)).
    eexists _, _. split; [reflexivity|]. split; [|done].
    split; [done|]. by intros (r' & [=] & _).
Qed.

Lemma test_theirstack_api_outcome_witness :
  ∃ success message,
    test_theirstack_api (always not_found) "key" fresh_world
    = (Ok (success, message),
       World ∅ [HttpPost (THEIRSTACK_API_URL ++ "/jobs/search")
                  (headers (JobMatcher_init "key")) default_api_query])
    ∧ (success = true
       ↔ ∃ r, always not_found 0%nat (THEIRSTACK_API_URL ++ "/jobs/search")
                default_api_query = Responded r
              ∧ status_code r = 200)
    ∧ (success = true → message = "API connection successful").
Proof.
  apply (test_theirstack_api_outcome (always not_found) "key" fresh_world).
  intros e. discriminate.
Defined.

(** X12. The test and the search judge an answer differently. With a server that
    gives the same answer to every request: on 200 with a body that parses,
    the test succeeds and the search returns the body; on an error status
    (400 to 599) the test fails and the search returns the empty list; on
    any other status with a body that parses, the test fails although the
    search returns the body. *)
Theorem test_and_search_verdicts
    (json_dumps : gmap string pyval → string)
    (network : nat → string → gmap string pyval → http_outcome)
    (api_key : string) (q api_query : gmap string pyval)
    (r : http_response) (w : world) :
  answers_with r network →
  _format_search_query q = Ok api_query →
  let tested := (test_theirstack_api network api_key w).1 in
  let found := (search_jobs json_dumps network (JobMatcher_init api_key) q w).1 in
  (∀ v, status_code r = 200 → json_body r = Ok v →
        (∃ message, tested = Ok (true, message)) ∧ found = Ok v)
  ∧ (400 ≤ status_code r < 600 →
       (∃ message, tested = Ok (false, message)) ∧ found = Ok (PList []))
  ∧ (∀ v, status_code r ≠ 200 → ¬ (400 ≤ status_code r < 600) →
          json_body r = Ok v →
          (∃ message, tested = Ok (false, message)) ∧ found = Ok v).
Proof.
  intros Hnet Hq tested found. subst tested found.
  rewrite (test_responded network api_key w r (Hnet _ _ _)).
  split; [|split].
  - intros v Hs Hj.
    rewrite (search_jobs_other_status json_dumps network _ q api_query w r v
               Hq (Hnet _ _ _) ltac:(lia) Hj).
    rewrite Hs. split; [by eexists|done].
  - intros Hs.
    destruct (search_jobs_error_status json_dumps network
                (JobMatcher_init api_key) q api_query w r Hq (Hnet _ _ _) Hs)
      as (msg & _ & _ & ->).
    destruct (Z.eqb_spec (status_code r) 200) as [H200|_]; [lia|].
    split; [by eexists|done].
  - intros v Hs Herr Hj.
    rewrite (search_jobs_other_status json_dumps network _ q api_query w r v
               Hq (Hnet _ _ _) Herr Hj).
    destruct (Z.eqb_spec (status_code r) 200) as [H200|_]; [done|].
    split; [by eexists|done].
Qed.

Lemma test_and_search_verdicts_witness :
  (∃ message,
     (test_theirstack_api (always created) "key" fresh_world).1
     = Ok (false, message))
  ∧ (search_jobs (λ _, "") (always created) (JobMatcher_init "key")
       example_preferences fresh_world).1 = Ok (PList [sample_job]).
Proof.
  destruct (test_and_search_verdicts (λ _, "") (always created) "key"
              example_preferences example_formatted created fresh_world)
    as (_ & _ & H).
  - intros n url json. reflexivity.
  - exact format_example.
  - apply (H (PList [sample_job])); [discriminate|simpl; lia|reflexivity].
Defined.

(** * The résumé analyzer *)

(** X13. What the analyzer gives, case by case. When the first block of the
    answer has a text that [json.loads] parses, the analyzer returns the
    parsed value, reports nothing and leaves the world as it was. When the
    answer has no block, it reports "Error analyzing resume: list index out
    of range" and returns [None]. When the request, the text of the first
    block or the parsing raises an exception that [except Exception]
    catches, it reports "Error analyzing resume: " followed by the message
    of that exception and returns [None], the session left as it was; an
    exception that the clause does not catch goes through, with nothing
    reported. *)
Theorem analyze_resume_outcome
    (messages_create :
       string → string → Z → spec_float → string → list (gmap string pyval) →
       result (list (result string)))
    (json_loads : string → result pyval)
    (self : ResumeAnalyzer) (resume_text : pyval) (w : world) :
  let answer := messages_create (client self) "claude-3-opus-20240229" 2000
                  (S754_zero false) system_prompt
                  [mkdict [("role", PStr "user"); ("content", resume_text)]] in
  let run := analyze_resume messages_create json_loads self resume_text w in
  let reported (msg : string) : result pyval * world :=
    (Ok PNone,
     World (session w)
       (trace w ++ [StError ("Error analyzing resume: " ++ msg)])) in
  let fails_with (e : exn) : Prop :=
    answer = Raise e
    ∨ (∃ blocks, answer = Ok (Raise e :: blocks))
    ∨ (∃ blocks text,
         answer = Ok (Ok text :: blocks) ∧ json_loads text = Raise e) in
  (∀ blocks text v,
     answer = Ok (Ok text :: blocks) → json_loads text = Ok v →
     run = (Ok v, w))
  ∧ (answer = Ok [] → run = reported "list index out of range")
  ∧ (∀ e, fails_with e →
          run = if caught_by_except_Exception e then reported (exn_msg e)
                else (Raise e, w)).
Proof.
  intros answer run reported fails_with.
  unfold run, reported, fails_with, analyze_resume. io_unfold. fold answer.
  clear run reported fails_with.
  split; [|split].
  - intros blocks text v -> Hv. cbn [first_item]. by rewrite Hv.
  - by intros ->.
  - intros e [->|[(blocks & ->)|(blocks & text & -> & Hv)]];
      cbn [first_item]; rewrite ?Hv;
      by destruct (caught_by_except_Exception e).
Qed.

Lemma analyze_resume_outcome_witness :
  analyze_resume (one_block "{}") (λ _, Ok sample_analysis)
    (ResumeAnalyzer_init "key") (PStr "cv") fresh_world
  = (Ok sample_analysis, fresh_world)
  ∧ analyze_resume no_block (λ _, Ok sample_analysis)
      (ResumeAnalyzer_init "key") (PStr "cv") fresh_world
    = (Ok PNone,
       World ∅ [StError "Error analyzing resume: list index out of range"]).
Proof.
  split.
  - apply (analyze_resume_outcome (one_block "{}") (λ _, Ok sample_analysis)
             (ResumeAnalyzer_init "key") (PStr "cv") fresh_world)
      with (blocks := []) (text := "{}"); reflexivity.
  - apply (analyze_resume_outcome no_block (λ _, Ok sample_analysis)
             (ResumeAnalyzer_init "key") (PStr "cv") fresh_world).
    reflexivity.
Defined.

(** * The upload step *)

Lemma process_uploaded_file_session pdf_pages docx_paragraphs decode_utf8
      uf w r w' :
  process_uploaded_file pdf_pages docx_paragraphs decode_utf8 uf w = (r, w') →
  session w' = session w.
Proof.
  destruct uf as [f|]; [|by intros [= <- <-]].
  unfold process_uploaded_file. io_unfold.
  repeat match goal with
  | |- context [String.eqb ?a ?b] => destruct (String.eqb a b)
  | |- context [pdf_pages ?c] => destruct (pdf_pages c) as [?|?]
  | |- context [concat_pages ?a ?c] => destruct (concat_pages a c) as [?|?]
  | |- context [docx_paragraphs ?c] => destruct (docx_paragraphs c) as [?|?]
  | |- context [decode_utf8 ?c] => destruct (decode_utf8 c) as [?|?]
  | |- context [caught_by_except_Exception ?e] =>
      destruct (caught_by_except_Exception e)
  end; by intros [= <- <-].
Qed.

Lemma analyze_resume_session messages_create json_loads self resume_text
      w r w' :
  analyze_resume messages_create json_loads self resume_text w = (r, w') →
  session w' = session w.
Proof.
  unfold analyze_resume. io_unfold.
  destruct (messages_create _ _ _ _ _ _) as [[|[text|e] blocks]|e];
    cbn [first_item];
    try destruct (json_loads text) as [v|e];
    try destruct (caught_by_except_Exception e);
    by intros [= <- <-].
Qed.

Lemma getitem_Ok (v x : pyval) (k : string) :
  getitem v k = Ok x → ∃ d, v = PDict d ∧ d !! k = Some x.
Proof.
  destruct v as [| | | | |d]; try discriminate. simpl.
  destruct (d !! k) as [y|] eqn:Hk; [|discriminate].
  intros [= <-]. eauto.
Qed.

Lemma getitem_Raise (v : pyval) (k : string) (e : exn) :
  getitem v k = Raise e → exn_cls e = KeyError ∨ exn_cls e = TypeError.
Proof.
  destruct v as [| | | | |d]; simpl; try (intros [= <-]; by right).
  destruct (d !! k); [discriminate|]. intros [= <-]. by left.
Qed.

Lemma py_iter_Raise (v : pyval) (e : exn) :
  py_iter v = Raise e → exn_cls e = TypeError.
Proof. destruct v; simpl; try discriminate; by intros [= <-]. Qed.

Lemma join_items_Raise (l : list pyval) (i : nat) (e : exn) :
  join_items i l = Raise e → exn_cls e = TypeError.
Proof.
  revert i. induction l as [|v l IH]; intros i; [discriminate|].
  destruct v; simpl; try (by intros [= <-]).
  unfold mbind, result_mbind, result_bind.
  destruct (join_items (S i) l) eqn:Hl; [discriminate|].
  intros [= <-]. by apply (IH (S i)).
Qed.

Lemma str_join_Raise (sep : string) (v : pyval) (e : exn) :
  str_join sep v = Raise e → exn_cls e = TypeError.
Proof.
  unfold str_join. destruct (py_iter v) as [items|?]; [|by intros [= <-]].
  unfold mbind, result_mbind, result_bind.
  destruct (join_items 0 items) eqn:Hl; [discriminate|].
  intros [= <-]. by apply join_items_Raise in Hl.
Qed.

Lemma display_analysis_Raise (analysis : pyval) (e : exn) :
  display_analysis analysis = Raise e →
  exn_cls e = KeyError ∨ exn_cls e = TypeError.
Proof.
  unfold display_analysis, mbind, result_mbind, result_bind.
  destruct (getitem analysis "technical_skills") as [skills|?] eqn:H1;
    [|intros [= <-]; by apply getitem_Raise in H1].
  destruct (str_join ", " skills) as [?|?] eqn:H2;
    [|intros [= <-]; right; by apply str_join_Raise in H2].
  destruct (getitem analysis "years_experience") as [?|?] eqn:H3;
    [|intros [= <-]; by apply getitem_Raise in H3].
  destruct (getitem analysis "seniority_level") as [?|?] eqn:H4;
    [|intros [= <-]; by apply getitem_Raise in H4].
  destruct (getitem analysis "education") as [education|?] eqn:H5;
    [|intros [= <-]; by apply getitem_Raise in H5].
  destruct (py_iter education) as [?|?] eqn:H6;
    [|intros [= <-]; right; by apply py_iter_Raise in H6].
  destruct (getitem analysis "achievements") as [achievements|?] eqn:H7;
    [|intros [= <-]; by apply getitem_Raise in H7].
  destruct (py_iter achievements) as [?|?] eqn:H8;
    [discriminate|intros [= <-]; right; by apply py_iter_Raise in H8].
Qed.

(** X14. Whatever the libraries and the language model do, a run of the upload
    step changes the session in one of three ways only: not at all; by
    storing a truthy analysis; or by storing the analysis and moving to step
    2, which happens only when the continue button was pressed and the
    analysis is a dictionary that holds the five displayed entries, with
    skills that could be joined into one line. Moreover the analysis is
    stored before it is displayed: when the file gives a text, a key is
    set and the analyzer returns a truthy analysis, then either displaying
    the analysis raises (a [KeyError] or a [TypeError]), and the step raises
    that exception with the analysis stored and no button drawn; or it does
    not, and the button is drawn with the analysis stored, and a press moves
    to step 2 and asks for a rerun. *)
Theorem main_step1_session
    (pdf_pages : string → result (list (result string)))
    (docx_paragraphs : string → result (list string))
    (decode_utf8 : string → result string)
    (messages_create :
       string → string → Z → spec_float → string → list (gmap string pyval) →
       result (list (result string)))
    (json_loads : string → result pyval)
    (clicked : string → bool) (file_uploader : option uploaded_file)
    (claude_api_key : string) (w : world) :
  let run := main_step1 pdf_pages docx_paragraphs decode_utf8 messages_create
               json_loads clicked file_uploader claude_api_key w in
  (session run.2 = session w
   ∨ ∃ analysis,
       truthy analysis = true
       ∧ (session run.2 = <["resume_analysis" := analysis]> (session w)
          ∨ (session run.2
             = <["step" := PInt 2]>
                 (<["resume_analysis" := analysis]> (session w))
             ∧ run.1 = Raise (Exn RerunException "")
             ∧ clicked "Continue to Job Preferences" = true
             ∧ ∃ d skills line,
                 analysis = PDict d
                 ∧ (∀ k, k ∈ displayed_entries → is_Some (d !! k))
                 ∧ d !! "technical_skills" = Some skills
                 ∧ str_join ", " skills = Ok line)))
  ∧ (∀ f resume_text analysis w1 w2,
       file_uploader = Some f →
       process_uploaded_file pdf_pages docx_paragraphs decode_utf8 (Some f) w
       = (Ok resume_text, w1) →
       truthy resume_text = true →
       claude_api_key ≠ "" →
       analyze_resume messages_create json_loads
         (ResumeAnalyzer_init claude_api_key) resume_text w1
       = (Ok analysis, w2) →
       truthy analysis = true →
       let stored := <["resume_analysis" := analysis]> (session w) in
       let drawn := (trace w2 ++ [StButton "Continue to Job Preferences"])%list in
       match display_analysis analysis with
       | Raise e =>
           run = (Raise e, World stored (trace w2))
           ∧ (exn_cls e = KeyError ∨ exn_cls e = TypeError)
       | Ok _ =>
           run = if clicked "Continue to Job Preferences"
                 then (Raise (Exn RerunException ""),
                       World (<["step" := PInt 2]> stored) drawn)
                 else (Ok tt, World stored drawn)
       end).
Proof.
  intros run. split.
  - destruct run as [r w'] eqn:Hrun. unfold run in Hrun. clear run.
    cbn [fst snd]. revert Hrun.
    unfold main_step1.
    destruct file_uploader as [f|]; [|intros [= <- <-]; by left].
    rewrite bool_decide_eq_true_2 by eauto.
    unfold mbind at 1, io_mbind at 1, io_bind at 1.
    destruct (process_uploaded_file _ _ _ _ w) as [r1 w1] eqn:Hp.
    apply process_uploaded_file_session in Hp.
    destruct r1 as [resume_text|e]; [|intros [= <- <-]; by left].
    destruct (truthy resume_text); [|intros [= <- <-]; by left].
    destruct (negb (truthy (PStr claude_api_key)));
      [intros [= <- <-]; by left|].
    unfold mbind at 1, io_mbind at 1, io_bind at 1.
    destruct (analyze_resume _ _ _ _ w1) as [r2 w2] eqn:Ha.
    apply analyze_resume_session in Ha.
    destruct r2 as [analysis|e]; [|intros [= <- <-]; left; congruence].
    destruct (truthy analysis) eqn:Ht; [|intros [= <- <-]; left; congruence].
    destruct w1 as [s1 t1], w2 as [s2 t2]. cbn [session] in Hp, Ha. subst s1 s2.
    unfold st_button. io_unfold. cbn [session trace].
    intros H. right. exists analysis. split; [done|]. revert H.
    destruct (getitem analysis "technical_skills") as [skills|?] eqn:H1;
      [|intros [= <- <-]; by left].
    destruct (str_join ", " skills) as [line|?] eqn:H2;
      [|intros [= <- <-]; by left].
    destruct (getitem analysis "years_experience") as [?|?] eqn:H3;
      [|intros [= <- <-]; by left].
    destruct (getitem analysis "seniority_level") as [?|?] eqn:H4;
      [|intros [= <- <-]; by left].
    destruct (getitem analysis "education") as [education|?] eqn:H5;
      [|intros [= <- <-]; by left].
    destruct (py_iter education) as [?|?]; [|intros [= <- <-]; by left].
    destruct (getitem analysis "achievements") as [achievements|?] eqn:H6;
      [|intros [= <- <-]; by left].
    destruct (py_iter achievements) as [?|?]; [|intros [= <- <-]; by left].
    cbn [session trace].
    destruct (clicked "Continue to Job Preferences") eqn:Hc;
      [|intros [= <- <-]; by left].
    intros [= <- <-]. right. cbn [session]. repeat split.
    apply getitem_Ok in H1 as (d & -> & H1).
    apply getitem_Ok in H3 as (? & [= <-] & H3).
    apply getitem_Ok in H4 as (? & [= <-] & H4).
    apply getitem_Ok in H5 as (? & [= <-] & H5).
    apply getitem_Ok in H6 as (? & [= <-] & H6).
    exists d, skills, line. repeat split; [|done..].
    intros k Hk. apply list_elem_of_In in Hk. simpl in Hk.
    destruct Hk as [<-|[<-|[<-|[<-|[<-|[]]]]]]; eauto.
  - intros f resume_text analysis w1 w2 -> Hp Htext Hkey Ha Htruthy
      stored drawn.
    pose proof (process_uploaded_file_session _ _ _ _ _ _ _ Hp) as Hs1.
    pose proof (analyze_resume_session _ _ _ _ _ _ _ Ha) as Hs2.
    assert (Hset : negb (truthy (PStr claude_api_key)) = false).
    { cbn [truthy]. apply negb_false_iff, negb_true_iff.
      by apply String.eqb_neq. }
    assert (Hrun :
      run = match display_analysis analysis with
            | Raise e => (Raise e, World stored (trace w2))
            | Ok _ =>
                if clicked "Continue to Job Preferences"
                then (Raise (Exn RerunException ""),
                      World (<["step" := PInt 2]> stored) drawn)
                else (Ok tt, World stored drawn)
            end).
    { unfold run, main_step1.
      rewrite bool_decide_eq_true_2 by eauto.
      unfold mbind at 1, io_mbind at 1, io_bind at 1.
      rewrite Hp. cbv beta iota. rewrite Htext, Hset.
      unfold mbind at 1, io_mbind at 1, io_bind at 1.
      rewrite Ha. cbv beta iota. rewrite Htruthy.
      unfold stored, drawn.
      destruct w1 as [s1 t1], w2 as [s2 t2].
      cbn [session] in Hs1, Hs2. subst s1 s2.
      unfold display_analysis, st_button. io_unfold.
      unfold result_mbind, result_bind. cbn [session trace].
      destruct (getitem analysis "technical_skills") as [skills|e];
        [|done].
      destruct (str_join ", " skills) as [line|e]; [|done].
      destruct (getitem analysis "years_experience") as [?|e]; [|done].
      destruct (getitem analysis "seniority_level") as [?|e]; [|done].
      destruct (getitem analysis "education") as [education|e]; [|done].
      destruct (py_iter education) as [?|e]; [|done].
      destruct (getitem analysis "achievements") as [achievements|e];
        [|done].
      destruct (py_iter achievements) as [?|e]; [|done].
      cbn [session trace].
      by destruct (clicked "Continue to Job Preferences"). }
    rewrite Hrun.
    destruct (display_analysis analysis) as [[]|e] eqn:Hd; [done|].
    split; [done|]. by apply display_analysis_Raise in Hd.
Qed.

Lemma main_step1_session_witness :
  main_step1 (λ _, Ok []) (λ _, Ok []) (λ s, Ok s) (one_block "{}")
    (λ _, Ok partial_analysis) (λ _, true)
    (Some {| name := "cv.txt"; content := "Jane Doe" |}) "key" upload_world
  = (Raise (Exn KeyError "'years_experience'"),
     World (<["resume_analysis" := partial_analysis]> (session upload_world))
       []).
Proof.
  destruct (main_step1_session (λ _, Ok []) (λ _, Ok []) (λ s, Ok s)
              (one_block "{}") (λ _, Ok partial_analysis) (λ _, true)
              (Some {| name := "cv.txt"; content := "Jane Doe" |}) "key"
              upload_world) as [_ H].
  apply (H {| name := "cv.txt"; content := "Jane Doe" |} (PStr "Jane Doe")
           partial_analysis upload_world upload_world);
    [reflexivity|reflexivity|reflexivity|discriminate|reflexivity
    |reflexivity].
Defined.

(** A run that goes all the way: a text file, an answer that parses to the
    sample analysis, and the continue button pressed. *)
Example main_step1_sample :
  main_step1 (λ _, Ok []) (λ _, Ok []) (λ s, Ok s) (one_block "{}")
    (λ _, Ok sample_analysis) (λ _, true)
    (Some {| name := "cv.txt"; content := "Jane Doe" |}) "key" upload_world
  = (Raise (Exn RerunException ""),
     World (<["step" := PInt 2]>
              (<["resume_analysis" := sample_analysis]> (session upload_world)))
       [StButton "Continue to Job Preferences"]).
Proof. vm_compute. reflexivity. Qed.

(** * The preferences step *)

Lemma mkdict_lookup_cons_ne (k k' : string) (v : pyval)
      (items : list (string * pyval)) (d : gmap string pyval) :
  k ≠ k' →
  fold_left (λ d kv, <[kv.1 := kv.2]> d) items (<[k' := v]> d) !! k
  = fold_left (λ d kv, <[kv.1 := kv.2]> d) items d !! k.
Proof.
  intros Hne. revert d. induction items as [|[k2 v2] items IH]; intros d.
  - by apply lookup_insert_ne.
  - cbn [fold_left fst snd].
    destruct (decide (k2 = k')) as [->|Hk2].
    + by rewrite insert_insert_eq.
    + rewrite insert_insert_ne by done. apply IH.
Qed.

Lemma mkdict_lookup_last (k : string) (v : pyval)
      (items : list (string * pyval)) (d : gmap string pyval) :
  k ∉ items.*1 →
  fold_left (λ d kv, <[kv.1 := kv.2]> d) items (<[k := v]> d) !! k = Some v.
Proof.
  revert d. induction items as [|[k2 v2] items IH]; intros d Hk.
  - apply lookup_insert_eq.
  - cbn [fold_left fst snd]. rewrite fmap_cons in Hk. cbn [fst] in Hk.
    apply not_elem_of_cons in Hk as [Hne Hk].
    rewrite insert_insert_ne by done. by apply IH.
Qed.

(** Look up a key in a dictionary display whose keys are literals. *)
Ltac mkdict_lookup :=
  unfold mkdict; cbn [fold_left fst snd];
  repeat (rewrite mkdict_lookup_cons_ne by discriminate);
  first
    [ apply mkdict_lookup_last; cbn [fmap list_fmap fst];
      rewrite <-list_elem_of_In; cbn [In]; intros Hin;
      repeat (destruct Hin as [Hin|Hin]; [discriminate Hin|]); exact Hin
    | apply lookup_empty ].

Lemma job_preferences_lookup (t l c d r : string) :
  job_preferences t l c d r !! "title" = Some (PStr t)
  ∧ job_preferences t l c d r !! "location" = Some (PStr l)
  ∧ job_preferences t l c d r !! "company" = Some (PStr c)
  ∧ job_preferences t l c d r !! "date_posted" = Some (PStr d)
  ∧ job_preferences t l c d r !! "remote" = Some (PStr r).
Proof. unfold job_preferences. repeat split; mkdict_lookup. Qed.

Lemma step3_query_get (analysis prefs : gmap string pyval) :
  dict_get (step3_query analysis prefs) "title"
  = dict_get_or prefs "title" (PStr "")
  ∧ dict_get (step3_query analysis prefs) "location"
    = dict_get_or prefs "location" (PStr "")
  ∧ dict_get (step3_query analysis prefs) "company"
    = dict_get_or prefs "company" (PStr "")
  ∧ dict_get (step3_query analysis prefs) "remote"
    = PBool (eq_str (dict_get_or prefs "remote" PNone) "Remote only")
  ∧ dict_get (step3_query analysis prefs) "date_posted"
    = dict_get_or prefs "date_posted" (PStr "Last 30 days")
  ∧ dict_get (step3_query analysis prefs) "skills"
    = dict_get_or analysis "technical_skills" (PList [])
  ∧ dict_get (step3_query analysis prefs) "experience_level"
    = dict_get_or analysis "seniority_level" (PStr "").
Proof.
  unfold dict_get, step3_query.
  repeat split;
    match goal with
    | |- default _ ?x = ?v => assert (x = Some v) as -> by mkdict_lookup
    end; reflexivity.
Qed.

Section main_step2_facts.
Variable text_input : string → string.
Variable selectbox : string → list string → string.
Variable clicked : string → bool.

Lemma main_step2_run (w : world) :
  main_step2 text_input selectbox clicked w
  = if clicked "Search Jobs" then
      if String.eqb (text_input "Desired Job Title") ""
         && String.eqb (text_input "Company Name (Optional)") ""
      then (Ok tt,
            World (session w)
              (trace w ++ [StButton "Search Jobs";
                           StError "Please enter either a job title or company name"]))
      else (Raise (Exn RerunException ""),
            World (<["step" := PInt 3]>
                     (<["job_preferences" :=
                          PDict (job_preferences
                                   (text_input "Desired Job Title")
                                   (text_input "Location")
                                   (text_input "Company Name (Optional)")
                                   (selectbox "Date Posted"
                                      ["Last 24 hours"; "Last 7 days";
                                       "Last 30 days"; "Last 90 days"])
                                   (selectbox "Remote Work Preference"
                                      ["Any"; "Remote only"; "Hybrid";
                                       "In-office"]))]>
                        (session w)))
              (trace w ++ [StButton "Search Jobs"]))
    else (Ok tt, World (session w) (trace w ++ [StButton "Search Jobs"])).
Proof.
  unfold main_step2, st_button. io_unfold. cbn [session trace truthy].
  rewrite !negb_involutive.
  destruct (clicked "Search Jobs"); [|reflexivity].
  destruct (String.eqb _ "" && String.eqb _ ""); cbn [session trace];
    rewrite <-?app_assoc; reflexivity.
Qed.
End main_step2_facts.

(** X15. A run of the preferences step either leaves the session as it was, or
    stores the five preferences as they stand in the widgets and moves to
    step 3, asking for a rerun; it does the latter exactly when the search
    button was pressed with a job title or a company name entered, so the
    searching step never starts from preferences that lack both. Pressed
    with neither, the button only brings the error message. *)
Theorem main_step2_session
    (text_input : string → string) (selectbox : string → list string → string)
    (clicked : string → bool) (w : world) :
  let run := main_step2 text_input selectbox clicked w in
  let job_title := text_input "Desired Job Title" in
  let location := text_input "Location" in
  let company := text_input "Company Name (Optional)" in
  let date_posted :=
    selectbox "Date Posted"
      ["Last 24 hours"; "Last 7 days"; "Last 30 days"; "Last 90 days"] in
  let remote_preference :=
    selectbox "Remote Work Preference"
      ["Any"; "Remote only"; "Hybrid"; "In-office"] in
  let searching :=
    clicked "Search Jobs" = true ∧ (job_title ≠ "" ∨ company ≠ "") in
  (searching →
     run.1 = Raise (Exn RerunException "")
     ∧ session run.2
       = <["step" := PInt 3]>
           (<["job_preferences" :=
                PDict (job_preferences job_title location company
                         date_posted remote_preference)]> (session w)))
  ∧ (¬ searching → run.1 = Ok tt ∧ session run.2 = session w)
  ∧ (clicked "Search Jobs" = true → job_title = "" → company = "" →
       trace run.2
       = (trace w ++ [StButton "Search Jobs";
                      StError "Please enter either a job title or company name"])%list).
Proof.
  intros run job_title location company date_posted remote_preference
    searching.
  subst run searching. rewrite main_step2_run.
  fold job_title. fold company.
  destruct (clicked "Search Jobs").
  - destruct (String.eqb_spec job_title "") as [Ht|Ht];
      destruct (String.eqb_spec company "") as [Hc|Hc];
      cbn [andb fst snd session trace].
    + split; [intros [_ [?|?]]; done|]. split; [done|done].
    + split; [done|]. split; [intros []; auto|done].
    + split; [done|]. split; [intros []; auto|done].
    + split; [done|]. split; [intros []; auto|done].
  - cbn [fst snd session]. split; [by intros [? _]|]. split; [done|done].
Qed.

Lemma search_jobs_trace json_dumps network self q api_query w :
  _format_search_query q = Ok api_query →
  ∃ rest,
    trace (search_jobs json_dumps network self q w).2
    = (trace w ++ search_prelude json_dumps self api_query ++ rest)%list.
Proof.
  intros Hq. unfold search_jobs, requests_post, search_prelude. io_unfold.
  rewrite Hq. cbn [session trace].
  destruct (network _ _ _) as [r|e].
  - destruct (negb _); cbn [session trace];
      destruct (raise_for_status _ _) as [[]|e];
      try destruct (json_body r) as [j|e];
      try destruct (caught_by_except_Exception e);
      cbn [snd trace]; rewrite <-?app_assoc; cbn [app]; eexists;
      (reflexivity || (by rewrite app_nil_r)).
  - destruct (caught_by_except_Exception e);
      cbn [snd trace]; rewrite <-?app_assoc; cbn [app]; eexists;
      (reflexivity || (by rewrite app_nil_r)).
Qed.

Lemma main_step3_trace json_dumps network clicked key w analysis prefs
      api_query :
  key ≠ "" →
  dict_get_or (session w) "resume_analysis" (PDict ∅) = PDict analysis →
  dict_get_or (session w) "job_preferences" (PDict ∅) = PDict prefs →
  _format_search_query (step3_query analysis prefs) = Ok api_query →
  ∃ rest,
    trace (main_step3 json_dumps network clicked key w).2
    = (trace w
       ++ [StWrite "Debug - Search Query:" (PDict (step3_query analysis prefs))]
       ++ search_prelude json_dumps (JobMatcher_init key) api_query
       ++ rest)%list.
Proof.
  intros Hk Ha Hp Hq.
  destruct (search_jobs json_dumps network (JobMatcher_init key)
              (step3_query analysis prefs)
              (World (session w)
                 (trace w ++ [StWrite "Debug - Search Query:"
                                (PDict (step3_query analysis prefs))])))
    as [r1 w1] eqn:Hs.
  destruct (search_jobs_trace json_dumps network (JobMatcher_init key)
              (step3_query analysis prefs) api_query
              (World (session w)
                 (trace w ++ [StWrite "Debug - Search Query:"
                                (PDict (step3_query analysis prefs))])) Hq)
    as [rest1 Ht].
  rewrite Hs in Ht. cbn [snd trace] in Ht.
  rewrite (main_step3_outcome json_dumps network clicked key w analysis prefs
             r1 w1 Hk Ha Hp Hs).
  destruct r1 as [jobs|e].
  - destruct (truthy jobs); [|destruct (clicked "Adjust Preferences")];
      cbn [snd trace]; rewrite Ht, <-!app_assoc; eexists;
      (reflexivity || (by rewrite app_nil_r)).
  - destruct (caught_by_except_Exception e);
      cbn [snd trace]; rewrite Ht, <-!app_assoc; eexists;
      (reflexivity || (by rewrite app_nil_r)).
Qed.

Lemma truthy_PStr_eqb (s : string) : truthy (PStr s) = negb (String.eqb s "").
Proof. reflexivity. Qed.

(** X16. From the preferences step to the request. When the search button is
    pressed with a title or a company entered, the next run (the searching
    step, with an API key, and an analysis whose seniority is absent, empty
    or a string) sends a request whose query holds: the number of days of
    the option picked; the title, company and location filters for the
    texts that are not empty, and at least one of title and company; and
    the remote filter exactly when "Remote only" was picked. *)
Theorem preferences_reach_the_request
    (text_input : string → string) (selectbox : string → list string → string)
    (pressed : string → bool)
    (json_dumps : gmap string pyval → string)
    (network : nat → string → gmap string pyval → http_outcome)
    (clicked : string → bool) (key : string) (w : world)
    (analysis : gmap string pyval) :
  let job_title := text_input "Desired Job Title" in
  let location := text_input "Location" in
  let company := text_input "Company Name (Optional)" in
  let date_posted :=
    selectbox "Date Posted"
      ["Last 24 hours"; "Last 7 days"; "Last 30 days"; "Last 90 days"] in
  let remote_preference :=
    selectbox "Remote Work Preference"
      ["Any"; "Remote only"; "Hybrid"; "In-office"] in
  let text_filter (s : string) :=
    if String.eqb s "" then None else Some (PList [PStr s]) in
  pressed "Search Jobs" = true →
  job_title ≠ "" ∨ company ≠ "" →
  key ≠ "" →
  dict_get_or (session w) "resume_analysis" (PDict ∅) = PDict analysis →
  truthy (dict_get_or analysis "seniority_level" (PStr "")) = false
  ∨ (∃ s, dict_get_or analysis "seniority_level" (PStr "") = PStr s) →
  let w2 := (main_step2 text_input selectbox pressed w).2 in
  ∃ search_query api_query rest,
    trace (main_step3 json_dumps network clicked key w2).2
    = (trace w2 ++ [StWrite "Debug - Search Query:" (PDict search_query)]
       ++ search_prelude json_dumps (JobMatcher_init key) api_query
       ++ rest)%list
    ∧ _format_search_query search_query = Ok api_query
    ∧ api_query !! "posted_at_max_age_days"
      = Some (PInt (days_of_option date_posted))
    ∧ api_query !! "job_title_contains_any" = text_filter job_title
    ∧ api_query !! "company_name_or" = text_filter company
    ∧ api_query !! "location_contains_any" = text_filter location
    ∧ api_query !! "remote_contains_any"
      = (if String.eqb remote_preference "Remote only"
         then Some (PList [PStr "true"]) else None)
    ∧ (is_Some (api_query !! "job_title_contains_any")
       ∨ is_Some (api_query !! "company_name_or")).
Proof.
  intros job_title location company date_posted remote_preference text_filter
    Hpress Hterm Hkey Hana Hsen w2.
  set (prefs := job_preferences job_title location company date_posted
                  remote_preference).
  assert (Hw2 : session w2
                = <["step" := PInt 3]>
                    (<["job_preferences" := PDict prefs]> (session w))).
  { subst w2. rewrite main_step2_run, Hpress.
    fold job_title. fold company.
    destruct (String.eqb_spec job_title "") as [Ht|Ht];
      destruct (String.eqb_spec company "") as [Hc|Hc]; try reflexivity.
    by destruct Hterm. }
  assert (Ha2 : dict_get_or (session w2) "resume_analysis" (PDict ∅)
                = PDict analysis).
  { unfold dict_get_or in *. by rewrite Hw2, !lookup_insert_ne. }
  assert (Hp2 : dict_get_or (session w2) "job_preferences" (PDict ∅)
                = PDict prefs).
  { unfold dict_get_or. by rewrite Hw2, lookup_insert_ne, lookup_insert_eq. }
  destruct (step3_query_get analysis prefs)
    as (Gt & Gl & Gc & Gr & Gd & Gs & Ge).
  destruct (job_preferences_lookup job_title location company date_posted
              remote_preference) as (Pt & Pl & Pc & Pd & Pr).
  fold prefs in Pt, Pl, Pc, Pd, Pr.
  unfold dict_get_or in Gt, Gl, Gc, Gr, Gd.
  rewrite Pt in Gt. rewrite Pl in Gl. rewrite Pc in Gc. rewrite Pr in Gr.
  rewrite Pd in Gd.
  unfold default, from_option, id in Gt, Gl, Gc, Gr, Gd.
  destruct (format_total (step3_query analysis prefs)) as [fq Hfq].
  { unfold seniority_is_text. by rewrite Ge. }
  destruct (main_step3_trace json_dumps network clicked key w2 analysis prefs
              fq Hkey Ha2 Hp2 Hfq) as [rest Htrace].
  exists (step3_query analysis prefs), fq, rest.
  split; [exact Htrace|]. split; [exact Hfq|].
  pose proof (format_lookup_recency _ fq Hfq) as Hrec.
  pose proof (format_lookup_text _ fq "title" "job_title_contains_any" Hfq
                ltac:(apply list_elem_of_In; simpl; tauto)) as Htitle.
  pose proof (format_lookup_text _ fq "company" "company_name_or" Hfq
                ltac:(apply list_elem_of_In; simpl; tauto)) as Hcomp.
  pose proof (format_lookup_text _ fq "location" "location_contains_any" Hfq
                ltac:(apply list_elem_of_In; simpl; tauto)) as Hloc.
  pose proof (format_lookup_remote _ fq Hfq) as Hrem.
  rewrite Gd in Hrec. rewrite Gt in Htitle. rewrite Gc in Hcomp.
  rewrite Gl in Hloc. rewrite Gr in Hrem.
  rewrite truthy_PStr_eqb in Htitle, Hcomp, Hloc.
  cbn [eq_str is_True] in Hrec, Hrem.
  assert (Hfilter : ∀ s, (if negb (String.eqb s "")
                          then Some (PList [PStr s]) else None)
                         = text_filter s).
  { intros s. subst text_filter. cbv beta. by destruct (String.eqb s ""). }
  rewrite Hfilter in Htitle, Hcomp, Hloc.
  split; [|split; [exact Htitle|split; [exact Hcomp|split; [exact Hloc|split]]]].
  - rewrite Hrec. unfold days_of_option.
    by repeat destruct (String.eqb date_posted _).
  - rewrite Hrem. by destruct (String.eqb remote_preference "Remote only").
  - rewrite Htitle, Hcomp. subst text_filter. cbv beta.
    destruct (String.eqb_spec job_title "") as [Ht|Ht];
      destruct (String.eqb_spec company "") as [Hc|Hc]; eauto.
    by destruct Hterm.
Qed.

Lemma preferences_reach_the_request_witness :
  ∃ search_query api_query rest,
    trace (main_step3 (λ _, "") (always no_jobs) (λ _, false) "key"
             (main_step2 typed_title picked_options (λ _, true)
                preferences_world).2).2
    = (trace (main_step2 typed_title picked_options (λ _, true)
                preferences_world).2
       ++ [StWrite "Debug - Search Query:" (PDict search_query)]
       ++ search_prelude (λ _, "") (JobMatcher_init "key") api_query
       ++ rest)%list
    ∧ _format_search_query search_query = Ok api_query
    ∧ api_query !! "posted_at_max_age_days" = Some (PInt 7)
    ∧ api_query !! "job_title_contains_any"
      = Some (PList [PStr "Data Engineer"])
    ∧ api_query !! "company_name_or" = None
    ∧ api_query !! "location_contains_any" = None
    ∧ api_query !! "remote_contains_any" = Some (PList [PStr "true"])
    ∧ (is_Some (api_query !! "job_title_contains_any")
       ∨ is_Some (api_query !! "company_name_or")).
Proof.
  apply (preferences_reach_the_request typed_title picked_options (λ _, true)
           (λ _, "") (always no_jobs) (λ _, false) "key" preferences_world ∅).
  - reflexivity.
  - left. discriminate.
  - discriminate.
  - reflexivity.
  - left. reflexivity.
Defined.

(** * Further properties of the searching step *)

Lemma requests_made_write (t : list event) (label : string) (v : pyval) :
  requests_made (t ++ [StWrite label v]) = requests_made t.
Proof. rewrite requests_made_app. cbn. lia. Qed.

Lemma search_jobs_found
      (json_dumps : gmap string pyval → string)
      (network : nat → string → gmap string pyval → http_outcome)
      (self : JobMatcher) (q api_query : gmap string pyval) (w : world)
      (label : string) (shown : pyval) (r : http_response) (jobs : pyval) :
  _format_search_query q = Ok api_query →
  network (requests_made (trace w)) (THEIRSTACK_API_URL ++ "/jobs/search")
    api_query = Responded r →
  status_code r = 200 →
  json_body r = Ok jobs →
  search_jobs json_dumps network self q
    (World (session w) (trace w ++ [StWrite label shown]))
  = (Ok jobs,
     World (session w)
       ((trace w ++ [StWrite label shown])
        ++ search_prelude json_dumps self api_query)).
Proof.
  intros Hq Hn Hs Hj.
  rewrite (search_jobs_other_status json_dumps network _ _ api_query _ r jobs
             Hq); [|cbn [trace]; by rewrite requests_made_write|lia|done].
  rewrite Hs. cbn [Z.eqb Pos.eqb session trace]. by rewrite app_nil_r.
Qed.

(** X17. When the search answers 200 with a truthy body, the searching step
    stores the body under [jobs], sets the step to 4 and asks for a rerun:
    the rerun request passes through both [except Exception] clauses. The
    body is stored whatever its type. *)
Theorem main_step3_jobs_found
    (json_dumps : gmap string pyval → string)
    (network : nat → string → gmap string pyval → http_outcome)
    (clicked : string → bool) (key : string) (w : world)
    (analysis prefs api_query : gmap string pyval) (r : http_response)
    (jobs : pyval) :
  key ≠ "" →
  dict_get_or (session w) "resume_analysis" (PDict ∅) = PDict analysis →
  dict_get_or (session w) "job_preferences" (PDict ∅) = PDict prefs →
  _format_search_query (step3_query analysis prefs) = Ok api_query →
  network (requests_made (trace w)) (THEIRSTACK_API_URL ++ "/jobs/search")
    api_query = Responded r →
  status_code r = 200 →
  json_body r = Ok jobs →
  truthy jobs = true →
  main_step3 json_dumps network clicked key w
  = (Raise (Exn RerunException ""),
     World (<["step" := PInt 4]> (<["jobs" := jobs]> (session w)))
       (trace w
        ++ [StWrite "Debug - Search Query:" (PDict (step3_query analysis prefs))]
        ++ search_prelude json_dumps (JobMatcher_init key) api_query)).
Proof.
  intros Hk Ha Hp Hq Hn Hs Hj Ht.
  rewrite (main_step3_outcome json_dumps network clicked key w analysis prefs
             (Ok jobs)
             (World (session w)
                ((trace w ++ [StWrite "Debug - Search Query:"
                                (PDict (step3_query analysis prefs))])
                 ++ search_prelude json_dumps (JobMatcher_init key) api_query))
             Hk Ha Hp).
  - rewrite Ht. cbn [trace]. by rewrite <-app_assoc.
  - by apply (search_jobs_found json_dumps network _ _ api_query w _ _ r).
Qed.

Lemma main_step3_jobs_found_witness :
  main_step3 (λ _, "") (always one_job) (λ _, false) "key" searching_world
  = (Raise (Exn RerunException ""),
     World (<["step" := PInt 4]>
              (<["jobs" := PList [sample_job]]> (session searching_world)))
       ([StWrite "Debug - Search Query:" (PDict (step3_query ∅ ∅))]
        ++ search_prelude (λ _, "") (JobMatcher_init "key") default_api_query)).
Proof.
  apply (main_step3_jobs_found (λ _, "") (always one_job) (λ _, false) "key"
           searching_world ∅ ∅ default_api_query one_job (PList [sample_job])).
  - discriminate.
  - reflexivity.
  - reflexivity.
  - exact format_default_query.
  - reflexivity.
  - reflexivity.
  - reflexivity.
  - reflexivity.
Defined.

(** X18. When the stored analysis gives a seniority that is truthy and not a
    string (a number, say), the searching step sends no request: the
    formatter's error escapes the search, is caught by the step, and is
    shown as an error, a hint and the error text; the session is left as it
    was. *)
Theorem main_step3_format_error
    (json_dumps : gmap string pyval → string)
    (network : nat → string → gmap string pyval → http_outcome)
    (clicked : string → bool) (key : string) (w : world)
    (analysis prefs : gmap string pyval) (v : pyval) :
  key ≠ "" →
  dict_get_or (session w) "resume_analysis" (PDict ∅) = PDict analysis →
  dict_get_or (session w) "job_preferences" (PDict ∅) = PDict prefs →
  analysis !! "seniority_level" = Some v →
  truthy v = true →
  (∀ s, v ≠ PStr s) →
  let msg := "'" ++ type_name v ++ "' object has no attribute 'lower'" in
  main_step3 json_dumps network clicked key w
  = (Ok tt,
     World (session w)
       (trace w
        ++ [StWrite "Debug - Search Query:" (PDict (step3_query analysis prefs));
            StError ("Error during job search: " ++ msg);
            StInfo "Try simplifying your search criteria or check your API key.";
            StCode msg]))
  ∧ requests_made (trace (main_step3 json_dumps network clicked key w).2)
    = requests_made (trace w).
Proof.
  intros Hk Ha Hp Hv Ht Hs msg.
  assert (Hrun : main_step3 json_dumps network clicked key w
    = (Ok tt,
       World (session w)
         (trace w
          ++ [StWrite "Debug - Search Query:" (PDict (step3_query analysis prefs));
              StError ("Error during job search: " ++ msg);
              StInfo "Try simplifying your search criteria or check your API key.";
              StCode msg]))).
  { rewrite (main_step3_outcome json_dumps network clicked key w analysis prefs
               (Raise (Exn AttributeError msg))
               (World (session w)
                  (trace w ++ [StWrite "Debug - Search Query:"
                                 (PDict (step3_query analysis prefs))]))
               Hk Ha Hp).
    - cbn [caught_by_except_Exception exn_cls exn_msg trace].
      by rewrite <-app_assoc.
    - unfold search_jobs, _format_search_query.
      destruct (step3_query_get analysis prefs) as (_ & _ & _ & _ & _ & _ & ->).
      unfold dict_get_or. rewrite Hv. cbn [default from_option id].
      rewrite Ht. destruct v as [| | |s| |]; try reflexivity.
      by destruct (Hs s). }
  split; [exact Hrun|]. rewrite Hrun. cbn [snd trace].
  rewrite requests_made_app. cbn. lia.
Qed.

Lemma main_step3_format_error_witness :
  main_step3 (λ _, "") (always one_job) (λ _, false) "key"
    numeric_seniority_world
  = (Ok tt,
     World (session numeric_seniority_world)
       [StWrite "Debug - Search Query:"
          (PDict (step3_query (mkdict [("seniority_level", PInt 3)]) ∅));
        StError "Error during job search: 'int' object has no attribute 'lower'";
        StInfo "Try simplifying your search criteria or check your API key.";
        StCode "'int' object has no attribute 'lower'"])
  ∧ requests_made
      (trace (main_step3 (λ _, "") (always one_job) (λ _, false) "key"
                numeric_seniority_world).2) = 0%nat.
Proof.
  apply (main_step3_format_error (λ _, "") (always one_job) (λ _, false) "key"
           numeric_seniority_world (mkdict [("seniority_level", PInt 3)]) ∅
           (PInt 3)).
  - discriminate.
  - reflexivity.
  - reflexivity.
  - reflexivity.
  - reflexivity.
  - discriminate.
Defined.

Lemma search_jobs_requests json_dumps network self q w :
  (requests_made (trace (search_jobs json_dumps network self q w).2)
   ≤ S (requests_made (trace w)))%nat.
Proof.
  unfold search_jobs, requests_post. io_unfold.
  destruct (_format_search_query q) as [aq|e]; [|cbn; lia].
  cbn [session trace].
  destruct (network _ _ _) as [r|e].
  - destruct (negb _); cbn [session trace];
      destruct (raise_for_status _ _) as [[]|e];
      try destruct (json_body r) as [j|e];
      try destruct (caught_by_except_Exception e);
      cbn [snd trace]; rewrite !requests_made_app; cbn; lia.
  - destruct (caught_by_except_Exception e);
      cbn [snd trace]; rewrite !requests_made_app; cbn; lia.
Qed.

(** X19. Whatever the session holds and whatever the network does, one run of
    the searching step sends at most one request (a failed search is not
    tried again), and none at all without an API key. *)
Theorem main_step3_at_most_one_request
    (json_dumps : gmap string pyval → string)
    (network : nat → string → gmap string pyval → http_outcome)
    (clicked : string → bool) (key : string) (w : world) :
  let run := main_step3 json_dumps network clicked key w in
  (requests_made (trace run.2) ≤ S (requests_made (trace w)))%nat
  ∧ (key = "" → requests_made (trace run.2) = requests_made (trace w)).
Proof.
  intros run. subst run.
  destruct (String.eqb_spec key "") as [->|Hk].
  { unfold main_step3. io_unfold. cbn [truthy String.eqb negb snd trace].
    rewrite requests_made_app. cbn. lia. }
  split; [|done].
  destruct (dict_get_or (session w) "job_preferences" (PDict ∅))
    as [| | | | |prefs] eqn:Hp;
    try (unfold main_step3; cbn [truthy];
         apply String.eqb_neq in Hk; rewrite Hk; cbn [negb];
         unfold mbind at 1, io_mbind at 1, io_bind at 1, get_session at 1;
         cbv beta iota zeta; rewrite Hp;
         unfold get_method; io_unfold; cbn [snd trace]; lia).
  destruct (dict_get_or (session w) "resume_analysis" (PDict ∅))
    as [| | | | |analysis] eqn:Ha;
    try (unfold main_step3; cbn [truthy];
         apply String.eqb_neq in Hk; rewrite Hk; cbn [negb];
         unfold mbind at 1, io_mbind at 1, io_bind at 1, get_session at 1;
         cbv beta iota zeta; rewrite Hp, Ha;
         unfold get_method; io_unfold; cbn [snd trace]; lia).
  destruct (search_jobs json_dumps network (JobMatcher_init key)
              (step3_query analysis prefs)
              (World (session w)
                 (trace w ++ [StWrite "Debug - Search Query:"
                                (PDict (step3_query analysis prefs))])))
    as [r1 w1] eqn:Hs.
  pose proof (search_jobs_requests json_dumps network (JobMatcher_init key)
                (step3_query analysis prefs)
                (World (session w)
                   (trace w ++ [StWrite "Debug - Search Query:"
                                  (PDict (step3_query analysis prefs))])))
    as Hle.
  rewrite Hs in Hle. cbn [snd trace] in Hle.
  rewrite requests_made_write in Hle.
  rewrite (main_step3_outcome json_dumps network clicked key w analysis prefs
             r1 w1 Hk Ha Hp Hs).
  destruct r1 as [jobs|e].
  - destruct (truthy jobs); [|destruct (clicked "Adjust Preferences")];
      cbn [snd trace]; rewrite ?requests_made_app; cbn; lia.
  - destruct (caught_by_except_Exception e);
      cbn [snd trace]; rewrite ?requests_made_app; cbn; lia.
Qed.

(** * The results step *)

(** ** The order of the scores *)

Lemma float_lt_irrefl (x : spec_float) : float_lt x x = false.
Proof.
  unfold float_lt, SFltb, SFcompare.
  destruct x as [s|s| |s m e]; try done; [by destruct s|].
  rewrite Z.compare_refl.
  change (PosDef.Pos.compare_cont Eq m m) with (Pos.compare m m).
  rewrite Pos.compare_refl. by destruct s.
Qed.

Ltac float_order :=
  unfold float_lt, SFltb, SFcompare;
  repeat match goal with
  | |- context [Z.compare ?a ?b] => destruct (Z.compare_spec a b)
  | |- context [PosDef.Pos.compare_cont Eq ?a ?b] =>
      change (PosDef.Pos.compare_cont Eq a b) with (Pos.compare a b);
      destruct (Pos.compare_spec a b)
  end;
  try done; try (intros; subst; (done || lia)).

Lemma float_lt_negtrans (x y z : spec_float) :
  B64.nonneg x → B64.nonneg y → B64.nonneg z →
  float_lt x y = false → float_lt y z = false → float_lt x z = false.
Proof.
  intros [->|(mx & ex & ->)] [->|(my & ey & ->)] [->|(mz & ez & ->)];
    float_order.
Qed.

Lemma float_lt_asym (x y : spec_float) :
  B64.nonneg x → B64.nonneg y →
  float_lt x y = true → float_lt y x = false.
Proof.
  intros [->|(mx & ex & ->)] [->|(my & ey & ->)]; float_order.
Qed.

(** ** Scoring the jobs *)

Lemma calculate_match_score_nonneg job cand x :
  calculate_match_score job cand = Ok x → B64.nonneg x.
Proof.
  intros Hx.
  destruct (calculate_match_score_Ok job cand x Hx) as (R & C & HR & HC).
  rewrite (calculate_match_score_sets job cand R C HR HC) in Hx.
  apply Ok_inj in Hx as <-.
  case_bool_decide as Hne; [by left|].
  destruct (size_intersection_bounds R C Hne) as [Hi Hr].
  by destruct (B64_facts.score_float _ _ Hi Hr) as (_ & Hn & _).
Qed.

Lemma score_jobs_spec (cand : pyval) (items : list pyval)
      (scored : list scored_job) :
  score_jobs cand items = Ok scored →
  Forall2 (λ item job,
             item = PDict (job_entries job)
             ∧ calculate_match_score (job_entries job) cand
               = Ok (match_score job)
             ∧ B64.nonneg (match_score job)) items scored.
Proof.
  revert scored. induction items as [|item items IH]; intros scored.
  - intros [= <-]. constructor.
  - cbn [score_jobs]. unfold mbind, result_mbind, result_bind.
    destruct (score_job cand item) as [job|e] eqn:Hjob; [|done].
    destruct (score_jobs cand items) as [others|e]; [|done].
    intros [= <-]. constructor; [|by apply IH].
    unfold score_job in Hjob. destruct item as [| | | | |d]; try done.
    unfold mbind, result_mbind, result_bind in Hjob.
    destruct (calculate_match_score d cand) as [x|e] eqn:Hx; [|done].
    injection Hjob as <-. cbn [job_entries match_score].
    split; [done|]. split; [done|].
    by apply (calculate_match_score_nonneg d cand).
Qed.

(** ** Sorting by score *)

Lemma insert_by_score_Permutation (job : scored_job) (l : list scored_job) :
  insert_by_score job l ≡ₚ job :: l.
Proof.
  induction l as [|other l IH]; [done|]. cbn [insert_by_score].
  destruct (float_lt _ _); [|done].
  rewrite IH. apply Permutation_swap.
Qed.

Lemma sort_by_score_Permutation (l : list scored_job) : sort_by_score l ≡ₚ l.
Proof.
  induction l as [|job l IH]; [done|]. unfold sort_by_score. cbn [foldr].
  rewrite insert_by_score_Permutation. by constructor.
Qed.

Lemma insert_by_score_sorted (job : scored_job) (l : list scored_job) :
  B64.nonneg (match_score job) →
  Forall (λ other, B64.nonneg (match_score other)) l →
  StronglySorted (λ a b, float_lt (match_score a) (match_score b) = false) l →
  StronglySorted (λ a b, float_lt (match_score a) (match_score b) = false)
    (insert_by_score job l).
Proof.
  intros Hjob Hl Hs. induction Hs as [|other l Hs IH Hall].
  - repeat constructor.
  - apply Forall_cons in Hl as [Hother Hl]. cbn [insert_by_score].
    destruct (float_lt (match_score job) (match_score other)) eqn:Hlt.
    + constructor; [by apply IH|].
      rewrite insert_by_score_Permutation. constructor; [|done].
      by apply float_lt_asym.
    + constructor; [by constructor|]. constructor; [done|].
      rewrite Forall_forall in Hall, Hl. apply Forall_forall. intros b Hb.
      apply (float_lt_negtrans _ (match_score other)); auto.
Qed.

Lemma sort_by_score_sorted (l : list scored_job) :
  Forall (λ job, B64.nonneg (match_score job)) l →
  StronglySorted (λ a b, float_lt (match_score a) (match_score b) = false)
    (sort_by_score l).
Proof.
  induction 1 as [|job l Hjob Hl IH]; [constructor|].
  unfold sort_by_score. cbn [foldr]. apply insert_by_score_sorted; [done| |done].
  fold (sort_by_score l). by rewrite sort_by_score_Permutation.
Qed.

Lemma insert_by_score_stable (s : spec_float) (job : scored_job)
      (l : list scored_job) :
  filter (λ j, match_score j = s) (insert_by_score job l)
  = filter (λ j, match_score j = s) (job :: l).
Proof.
  induction l as [|other l IH]; [done|]. cbn [insert_by_score].
  destruct (float_lt (match_score job) (match_score other)) eqn:Hlt; [|done].
  rewrite filter_cons, IH, !filter_cons.
  destruct (decide (match_score other = s)) as [Ho|Ho];
    destruct (decide (match_score job = s)) as [Hj|Hj]; try done.
  rewrite Ho, Hj, float_lt_irrefl in Hlt. done.
Qed.

Lemma sort_by_score_stable (s : spec_float) (l : list scored_job) :
  filter (λ j, match_score j = s) (sort_by_score l)
  = filter (λ j, match_score j = s) l.
Proof.
  induction l as [|job l IH]; [done|]. unfold sort_by_score. cbn [foldr].
  rewrite insert_by_score_stable. fold (sort_by_score l).
  rewrite !filter_cons, IH. done.
Qed.

Lemma StronglySorted_lookup {A} (R : A → A → Prop) (l : list A) i j a b :
  StronglySorted R l → (i < j)%nat → l !! i = Some a → l !! j = Some b →
  R a b.
Proof.
  intros Hs. revert i j. induction Hs as [|x l Hs IH Hall]; intros i j Hij.
  - by rewrite lookup_nil.
  - destruct i as [|i], j as [|j]; try lia; cbn [lookup list_lookup].
    + intros [= <-] Hb. rewrite Forall_forall in Hall. apply Hall.
      by apply list_elem_of_lookup_2 in Hb.
    + apply IH. lia.
Qed.

(** X20. The scoring loop gives every job its score and leaves its other
    entries alone; the sort then puts the jobs in descending order of
    score: the ranked list holds the same jobs, no job stands before one
    with a greater score, and jobs with equal scores keep the order in which
    the search returned them. *)
Theorem scored_jobs_are_ranked (candidate_skills : pyval)
    (items : list pyval) (scored : list scored_job) :
  score_jobs candidate_skills items = Ok scored →
  let jobs := sort_by_score scored in
  (PDict ∘ job_entries) <$> scored = items
  ∧ (∀ job, job ∈ jobs →
       calculate_match_score (job_entries job) candidate_skills
       = Ok (match_score job))
  ∧ jobs ≡ₚ scored
  ∧ (∀ i j a b, (i < j)%nat → jobs !! i = Some a → jobs !! j = Some b →
       float_lt (match_score a) (match_score b) = false)
  ∧ (∀ s, filter (λ job, match_score job = s) jobs
          = filter (λ job, match_score job = s) scored).
Proof.
  intros Hscored jobs. subst jobs.
  pose proof (score_jobs_spec _ _ _ Hscored) as Hspec. clear Hscored.
  split; [|split; [|split; [|split]]].
  - induction Hspec as [|item job items scored (-> & _) _ IH]; [done|].
    rewrite fmap_cons. by rewrite IH.
  - intros job Hjob. rewrite sort_by_score_Permutation in Hjob.
    induction Hspec as [|item job' items scored' (_ & Hs & _) _ IH];
      [by apply elem_of_nil in Hjob|].
    apply elem_of_cons in Hjob as [->|Hjob]; auto.
  - apply sort_by_score_Permutation.
  - intros i j a b.
    apply (StronglySorted_lookup
             (λ a b, float_lt (match_score a) (match_score b) = false)).
    apply sort_by_score_sorted.
    induction Hspec as [|item job items scored' (_ & _ & Hn) _ IH];
      constructor; auto.
  - intros s. apply sort_by_score_stable.
Qed.

Example score_jobs_sample :
  score_jobs (str_list ["Python"]) [unlisted_job; python_job]
  = Ok scored_sample.
Proof. vm_compute. reflexivity. Qed.

Lemma scored_jobs_are_ranked_witness :
  sort_by_score scored_sample ≡ₚ scored_sample
  ∧ (∀ i j a b, (i < j)%nat →
       sort_by_score scored_sample !! i = Some a →
       sort_by_score scored_sample !! j = Some b →
       float_lt (match_score a) (match_score b) = false).
Proof.
  destruct (scored_jobs_are_ranked (str_list ["Python"])
              [unlisted_job; python_job] scored_sample score_jobs_sample)
    as (_ & _ & Hperm & Hsorted & _).
  split; [exact Hperm|exact Hsorted].
Defined.

(** ** What the results step shows *)

Lemma insert_by_score_not_nil (job : scored_job) (l : list scored_job) :
  insert_by_score job l ≠ [].
Proof. destruct l; simpl; [done|]. by destruct (float_lt _ _). Qed.

Lemma float_ge_int_zero (n : Z) :
  0 < n → float_ge_int (S754_zero false) n = false.
Proof.
  intros Hn. cbn [float_ge_int B64.F2Q].
  destruct (Qle_bool (inject_Z n) 0) eqn:Hle; [|done].
  apply Qle_bool_iff in Hle. unfold Qle in Hle. simpl in Hle. lia.
Qed.

Section main_step4_facts.
Variable py_str : pyval → string.
Variable slider : string → Z → Z → Z → Z.
Variable multiselect : string → gset hkey → list hkey.

Lemma main_step4_run (session_state : gmap string pyval)
      (fig : option figure) (shown : list scored_job) :
  main_step4_filtered_jobs py_str slider multiselect session_state
  = Ok (Some (fig, shown)) →
  ∃ items candidate_skills scored locations remote_types,
    session_state !! "jobs" = Some (PList items)
    ∧ score_jobs candidate_skills items = Ok scored
    ∧ scored ≠ []
    ∧ create_match_visualization py_str (sort_by_score scored) = Ok fig
    ∧ shown
      = filter (λ job,
          float_ge_int (match_score job)
            (slider "Minimum Match Score" 0 100 50)
          && (bool_decide (multiselect "Location" locations = [])
              || py_in (dict_get_or (job_entries job) "location" (PStr ""))
                   (multiselect "Location" locations))
          && (bool_decide (multiselect "Remote Type" remote_types = [])
              || py_in (dict_get_or (job_entries job) "remote_type" (PStr ""))
                   (multiselect "Remote Type" remote_types)) = true)
          (sort_by_score scored).
Proof.
  unfold main_step4_filtered_jobs.
  unfold mbind, result_mbind, result_bind.
  destruct (dict_get_or session_state "jobs" (PList [])) as [| | | |items|]
    eqn:Hjobs.
  1-4, 6: by (cbn [truthy negb py_iter type_name];
              repeat match goal with
              | |- context [if ?b then _ else _] => destruct b
              | |- context [get_method ?a ?k ?d] =>
                  destruct (get_method a k d) as [?|?]
              | |- context [score_jobs ?c ?l] =>
                  destruct (score_jobs c l) as [?|?]
              end; intros [=]).
  cbn [truthy negb py_iter].
  destruct items as [|item items]; [by intros [=]|].
  destruct (get_method _ _ _) as [candidate_skills|?]; [|by intros [=]].
  destruct (score_jobs candidate_skills (item :: items)) as [scored|?]
    eqn:Hscored; [|by intros [=]].
  destruct (create_match_visualization py_str (sort_by_score scored))
    as [fig'|?] eqn:Hfig; [|by intros [=]].
  destruct (entry_set "location" _ _) as [locations|?]; [|by intros [=]].
  destruct (entry_set "remote_type" _ _) as [remote_types|?];
    [|by intros [=]].
  intros [= <- <-].
  exists (item :: items), candidate_skills, scored, locations, remote_types.
  split.
  { unfold dict_get_or in Hjobs.
    destruct (session_state !! "jobs") as [v|]; [by simplify_eq/=|done]. }
  split; [done|]. split.
  { apply score_jobs_spec in Hscored. inversion Hscored. done. }
  split; [done|done].
Qed.
End main_step4_facts.

(** X21. When the results step gets as far as choosing the jobs to show, the
    stored jobs are a list, and the jobs shown are taken from the ranked
    list in its order; each of them scores at least the slider's value, so
    a job that scores 0.0 (one that lists no required skills, for
    instance) is shown only when the slider is at 0 or below; with nothing
    selected in the two multiselects, every ranked job that scores enough
    is shown; and the chart has one bar for each of the first ten ranked
    jobs. *)
Theorem main_step4_filtered_jobs_shown
    (py_str : pyval → string) (slider : string → Z → Z → Z → Z)
    (multiselect : string → gset hkey → list hkey)
    (session_state : gmap string pyval) (fig : option figure)
    (shown : list scored_job) :
  main_step4_filtered_jobs py_str slider multiselect session_state
  = Ok (Some (fig, shown)) →
  let min_score := slider "Minimum Match Score" 0 100 50 in
  ∃ items candidate_skills scored labels,
    session_state !! "jobs" = Some (PList items)
    ∧ score_jobs candidate_skills items = Ok scored
    ∧ fig = Some (Figure labels
                    (match_score <$> take 10 (sort_by_score scored)))
    ∧ shown `sublist_of` sort_by_score scored
    ∧ Forall (λ job, float_ge_int (match_score job) min_score = true) shown
    ∧ (0 < min_score → Forall (λ job, ¬ scores_zero job) shown)
    ∧ ((∀ options, multiselect "Location" options = []) →
       (∀ options, multiselect "Remote Type" options = []) →
       shown = filter (λ job, float_ge_int (match_score job) min_score = true)
                 (sort_by_score scored)).
Proof.
  intros Hrun min_score.
  destruct (main_step4_run py_str slider multiselect session_state fig shown
              Hrun)
    as (items & cand & scored & locs & rts & Hjobs & Hscored & Hne & Hfig
        & ->).
  fold min_score.
  assert (Hlabels : ∃ labels,
            fig = Some (Figure labels
                          (match_score <$> take 10 (sort_by_score scored)))).
  { unfold create_match_visualization in Hfig.
    rewrite bool_decide_eq_false_2 in Hfig.
    - unfold mbind, result_mbind, result_bind in Hfig.
      destruct (bar_label_list _ _) as [labels|?]; [|done].
      injection Hfig as <-. by exists labels.
    - destruct scored as [|job scored]; [done|].
      apply insert_by_score_not_nil. }
  destruct Hlabels as [labels ->].
  exists items, cand, scored, labels.
  split; [done|]. split; [done|]. split; [done|].
  split; [apply sublist_filter|]. split; [|split].
  - apply Forall_forall. intros job [Hjob _]%list_elem_of_filter.
    by apply andb_true_iff in Hjob as [[? _]%andb_true_iff _].
  - intros Hmin. apply Forall_forall.
    intros job [Hjob _]%list_elem_of_filter Hzero.
    apply andb_true_iff in Hjob as [[Hge _]%andb_true_iff _].
    unfold scores_zero in Hzero. rewrite Hzero in Hge.
    by rewrite float_ge_int_zero in Hge.
  - intros Hloc Hrem. apply list_filter_iff. intros job.
    rewrite (Hloc locs), (Hrem rts).
    rewrite !bool_decide_eq_true_2 by done. cbn [orb].
    by rewrite !andb_true_r.
Qed.

Example main_step4_sample :
  main_step4_filtered_jobs str_of_text default_slider nothing_selected
    results_session
  = Ok (Some (Some sample_chart, sample_shown)).
Proof. vm_compute. reflexivity. Qed.

Lemma main_step4_filtered_jobs_shown_witness :
  ∃ items candidate_skills scored labels,
    results_session !! "jobs" = Some (PList items)
    ∧ score_jobs candidate_skills items = Ok scored
    ∧ Some sample_chart
      = Some (Figure labels (match_score <$> take 10 (sort_by_score scored)))
    ∧ sample_shown `sublist_of` sort_by_score scored
    ∧ Forall (λ job, float_ge_int (match_score job) 50 = true) sample_shown
    ∧ (0 < 50 → Forall (λ job, ¬ scores_zero job) sample_shown)
    ∧ ((∀ options, nothing_selected "Location" options = []) →
       (∀ options, nothing_selected "Remote Type" options = []) →
       sample_shown
       = filter (λ job, float_ge_int (match_score job) 50 = true)
           (sort_by_score scored)).
Proof.
  exact (main_step4_filtered_jobs_shown str_of_text default_slider
           nothing_selected results_session (Some sample_chart)
           sample_shown main_step4_sample).
Defined.

(** X22. When the search answers 200 with a JSON object that is not empty
    (results wrapped in an envelope, rather than the list of jobs), the
    searching step stores the object and moves to step 4; there the results
    step iterates over the keys of the object, and raises the
    [AttributeError] of calling [get] on a string, before anything is
    shown. *)
Theorem object_answer_breaks_results
    (json_dumps : gmap string pyval → string)
    (network : nat → string → gmap string pyval → http_outcome)
    (clicked : string → bool) (key : string) (w : world)
    (analysis prefs api_query : gmap string pyval) (r : http_response)
    (d : gmap string pyval) :
  key ≠ "" →
  dict_get_or (session w) "resume_analysis" (PDict ∅) = PDict analysis →
  dict_get_or (session w) "job_preferences" (PDict ∅) = PDict prefs →
  _format_search_query (step3_query analysis prefs) = Ok api_query →
  network (requests_made (trace w)) (THEIRSTACK_API_URL ++ "/jobs/search")
    api_query = Responded r →
  status_code r = 200 →
  json_body r = Ok (PDict d) →
  d ≠ ∅ →
  let w4 := (main_step3 json_dumps network clicked key w).2 in
  session w4 !! "step" = Some (PInt 4)
  ∧ session w4 !! "jobs" = Some (PDict d)
  ∧ ∀ py_str slider multiselect,
      main_step4_filtered_jobs py_str slider multiselect (session w4)
      = Raise (Exn AttributeError "'str' object has no attribute 'get'").
Proof.
  intros Hk Ha Hp Hq Hn Hs Hj Hd w4.
  assert (Ht : truthy (PDict d) = true)
    by (cbn [truthy]; by rewrite bool_decide_eq_false_2).
  assert (Hw4 : session w4 = <["step" := PInt 4]> (<["jobs" := PDict d]> (session w))).
  { subst w4.
    rewrite (main_step3_outcome json_dumps network clicked key w analysis
               prefs (Ok (PDict d))
               (World (session w)
                  ((trace w ++ [StWrite "Debug - Search Query:"
                                  (PDict (step3_query analysis prefs))])
                   ++ search_prelude json_dumps (JobMatcher_init key)
                        api_query))
               Hk Ha Hp).
    - by rewrite Ht.
    - by apply (search_jobs_found json_dumps network _ _ api_query w _ _ r). }
  clearbody w4.
  split; [by rewrite Hw4, lookup_insert_eq|].
  split; [by rewrite Hw4, lookup_insert_ne, lookup_insert_eq|].
  intros py_str slider multiselect.
  unfold main_step4_filtered_jobs.
  assert (Hjobs : dict_get_or (session w4) "jobs" (PList []) = PDict d).
  { unfold dict_get_or. by rewrite Hw4, lookup_insert_ne, lookup_insert_eq. }
  assert (Hana : dict_get_or (session w4) "resume_analysis" (PDict ∅)
                 = PDict analysis).
  { unfold dict_get_or in *. by rewrite Hw4, !lookup_insert_ne. }
  rewrite Hjobs, Hana, Ht. cbn [negb get_method py_iter].
  destruct (map_to_list d) as [|[k v] rest] eqn:Hl.
  { by apply map_to_list_empty_iff in Hl. }
  reflexivity.
Qed.

Lemma object_answer_breaks_results_witness :
  let w4 := (main_step3 (λ _, "") (always envelope_answer) (λ _, false) "key"
               searching_world).2 in
  session w4 !! "step" = Some (PInt 4)
  ∧ session w4 !! "jobs" = Some (PDict envelope)
  ∧ ∀ py_str slider multiselect,
      main_step4_filtered_jobs py_str slider multiselect (session w4)
      = Raise (Exn AttributeError "'str' object has no attribute 'get'").
Proof.
  apply (object_answer_breaks_results (λ _, "") (always envelope_answer)
           (λ _, false) "key" searching_world ∅ ∅ default_api_query
           envelope_answer envelope).
  - discriminate.
  - reflexivity.
  - reflexivity.
  - exact format_default_query.
  - reflexivity.
  - reflexivity.
  - reflexivity.
  - intros He. assert (Hl : envelope !! "data" = None) by (by rewrite He).
    discriminate Hl.
Defined.

(** ** The chart *)

Lemma bar_label_list_length py_str jobs labels :
  bar_label_list py_str jobs = Ok labels →
  Forall2 (λ job label,
             ∃ c t, job_entries job !! "company" = Some c
                    ∧ job_entries job !! "title" = Some t
                    ∧ label = py_str c ++ " - " ++ py_str t) jobs labels.
Proof.
  revert labels. induction jobs as [|job jobs IH]; intros labels.
  - intros [= <-]. constructor.
  - cbn [bar_label_list]. unfold mbind, result_mbind, result_bind.
    destruct (bar_label py_str job) as [label|?] eqn:Hl; [|done].
    destruct (bar_label_list py_str jobs) as [ls|?]; [|done].
    intros [= <-]. constructor; [|by apply IH].
    unfold bar_label, getitem in Hl.
    destruct (job_entries job !! "company") as [c|]; [|done].
    destruct (job_entries job !! "title") as [t|]; [|done].
    cbn in Hl. injection Hl as <-. by exists c, t.
Qed.

Lemma bar_label_list_missing py_str jobs i job :
  jobs !! i = Some job →
  job_entries job !! "company" = None ∨ job_entries job !! "title" = None →
  ∃ key, bar_label_list py_str jobs = Raise (Exn KeyError ("'" ++ key ++ "'"))
         ∧ key ∈ ["company"; "title"].
Proof.
  revert i. induction jobs as [|first jobs IH]; intros i; [done|].
  intros Hi Hmiss. cbn [bar_label_list].
  unfold mbind, result_mbind, result_bind.
  destruct (bar_label py_str first) as [label|e] eqn:Hl.
  - destruct i as [|i].
    + injection Hi as ->. unfold bar_label, getitem in Hl.
      destruct Hmiss as [Hm|Hm]; rewrite Hm in Hl; [done|].
      by destruct (job_entries job !! "company").
    + destruct (IH i Hi Hmiss) as (key & -> & Hkey). by exists key.
  - unfold bar_label, getitem in Hl.
    destruct (job_entries first !! "company") as [c|].
    + destruct (job_entries first !! "title") as [t|]; [done|].
      cbn in Hl. injection Hl as <-. exists "title".
      split; [done|]. apply list_elem_of_In. simpl. tauto.
    + cbn in Hl. injection Hl as <-. exists "company".
      split; [done|]. apply list_elem_of_In. simpl. tauto.
Qed.

(** X23. The chart is [None] for no jobs. Otherwise it depends on the first ten
    jobs only: it has one bar for each of them, in their order, labelled
    with the company and the title and as wide as the score; and when one
    of the first ten jobs lacks the company or the title, the call raises
    a [KeyError] for one of the two keys. *)
Theorem create_match_visualization_top_ten
    (py_str : pyval → string) (jobs : list scored_job) :
  create_match_visualization py_str [] = Ok None
  ∧ (jobs ≠ [] →
       create_match_visualization py_str jobs
       = create_match_visualization py_str (take 10 jobs))
  ∧ (∀ fig, create_match_visualization py_str jobs = Ok (Some fig) →
       length (bar_labels fig) = (length jobs `min` 10)%nat
       ∧ bar_widths fig = match_score <$> take 10 jobs
       ∧ Forall2 (λ job label,
                    ∃ c t, job_entries job !! "company" = Some c
                           ∧ job_entries job !! "title" = Some t
                           ∧ label = py_str c ++ " - " ++ py_str t)
           (take 10 jobs) (bar_labels fig))
  ∧ (∀ i job, (i < 10)%nat → jobs !! i = Some job →
       job_entries job !! "company" = None
       ∨ job_entries job !! "title" = None →
       ∃ key, create_match_visualization py_str jobs
              = Raise (Exn KeyError ("'" ++ key ++ "'"))
              ∧ key ∈ ["company"; "title"]).
Proof.
  split; [done|]. split; [|split].
  - intros Hne. unfold create_match_visualization.
    rewrite take_idemp.
    rewrite !bool_decide_eq_false_2; [done| |done].
    by destruct jobs.
  - intros fig. unfold create_match_visualization.
    case_bool_decide; [done|].
    unfold mbind, result_mbind, result_bind.
    destruct (bar_label_list py_str (take 10 jobs)) as [labels|?] eqn:Hl;
      [|done].
    intros [= <-]. cbn [bar_labels bar_widths].
    apply bar_label_list_length in Hl.
    split; [|done].
    rewrite <-(Forall2_length _ _ _ Hl), length_take. lia.
  - intros i job Hi Hjob Hmiss. unfold create_match_visualization.
    rewrite bool_decide_eq_false_2 by (by intros ->).
    destruct (bar_label_list_missing py_str (take 10 jobs) i job)
      as (key & -> & Hkey); [by rewrite lookup_take_lt|done|].
    by exists key.
Qed.
